(** * WBS: passive wireless observation engine

    A shallow embedding of the BLE tag detector ([modules/pytag_module.py])
    and of the WiFi scan-line pipeline ([modules/wss_module.py]).

    Conventions of the embedding
    - a Python [int] is a [Z]; a [bytes] object is a [list byte];
    - a Python [str] is a [string]; its characters are read as the code
      points U+0000..U+00FF, and the character predicates below
      ([isspace], [isdigit], ...) are the Unicode ones restricted to that
      range;
    - a Python [float] is an IEEE-754 binary64 value, a [spec_float];
    - code that may raise returns a [result]; [None] is an [option];
    - the [dict] of detected tags keeps its insertion order, so it is an
      association list with one entry per key;
    - a [datetime] is a number of microseconds on the UTC time line,
      counted from 0001-01-01T00:00:00, the smallest one; a [timedelta] is
      its length in microseconds;
    - a timeout in seconds is an [int] or a [float], a [number]. *)

From Stdlib Require Import ZArith Lia Bool Ascii Strings.Byte DecimalString.
From Stdlib Require Import Floats.SpecFloat.
From stdpp Require Import base list strings gmap sorting.

Local Open Scope Z_scope.

(** ** Exceptions *)

Module Py.

Inductive exn : Set :=
  ValueError | IndexError | KeyError | OverflowError | ZeroDivisionError.

Inductive result (A : Type) : Type :=
| Ok (a : A)
| Raise (e : exn).
Arguments Ok {A} a.
Arguments Raise {A} e.

#[global] Instance result_ret : MRet result := λ A, Ok.

#[global] Instance result_bind : MBind result := λ A B k r,
  match r with
  | Ok a => k a
  | Raise e => Raise e
  end.

#[global] Instance result_fmap : FMap result := λ A B f r,
  match r with
  | Ok a => Ok (f a)
  | Raise e => Raise e
  end.

(** [try: body except (e1, ...): handler] *)
Definition try_except {A} (body : result A) (caught : exn → bool)
    (handler : result A) : result A :=
  match body with
  | Ok a => Ok a
  | Raise e => if caught e then handler else Raise e
  end.

(** [seq[i]] for a non-negative index: [IndexError] out of range. *)
Definition getitem {A} (l : list A) (i : nat) : result A :=
  match l !! i with
  | Some a => Ok a
  | None => Raise IndexError
  end.


(** ** Characters and [str] methods *)

Definition ord (c : ascii) : N := N_of_ascii c.

(** [str.isspace] on one character, for code points below U+0100. *)
Definition isspace_char (c : ascii) : bool :=
  let n := ord c in
  ((9 <=? n) && (n <=? 13) || (28 <=? n) && (n <=? 32)
   || (n =? 133) || (n =? 160))%N.

(** C's [Py_ISSPACE]: the six ASCII blanks. *)
Definition Py_ISSPACE (c : ascii) : bool :=
  let n := ord c in ((9 <=? n) && (n <=? 13) || (n =? 32))%N.

(** The decimal digits [0-9]. *)
Definition isdecimal_char (c : ascii) : bool :=
  let n := ord c in ((48 <=? n) && (n <=? 57))%N.

(** [str.isdigit] on one character: the decimal digits and the superscripts
    U+00B2, U+00B3, U+00B9. *)
Definition isdigit_char (c : ascii) : bool :=
  let n := ord c in
  (isdecimal_char c || (n =? 178) || (n =? 179) || (n =? 185))%N.

Definition digit_value (c : ascii) : Z := Z.of_N (ord c) - 48.

(** [str.upper] on one character; the three letters below U+0100 whose upper
    case lies outside that range (U+00B5, U+00DF, U+00FF) are left alone: the
    code only upper-cases strings that matched the MAC pattern. *)
Definition upper_char (c : ascii) : ascii :=
  let n := ord c in
  if ((97 <=? n) && (n <=? 122)
      || (224 <=? n) && (n <=? 254) && negb (n =? 247))%N
  then ascii_of_N (n - 32) else c.

Definition is_empty (s : string) : bool :=
  match s with EmptyString => true | _ => false end.

Fixpoint forallb_str (p : ascii → bool) (s : string) : bool :=
  match s with
  | EmptyString => true
  | String c r => p c && forallb_str p r
  end.

Fixpoint map_str (f : ascii → ascii) (s : string) : string :=
  match s with
  | EmptyString => EmptyString
  | String c r => String (f c) (map_str f r)
  end.

(** [c in s] for a single character [c]. *)
Fixpoint contains (c : ascii) (s : string) : bool :=
  match s with
  | EmptyString => false
  | String c' r => Ascii.eqb c' c || contains c r
  end.

Fixpoint lstrip_by (p : ascii → bool) (s : string) : string :=
  match s with
  | EmptyString => EmptyString
  | String c r => if p c then lstrip_by p r else s
  end.

Fixpoint rstrip_by (p : ascii → bool) (s : string) : string :=
  match s with
  | EmptyString => EmptyString
  | String c r =>
      match rstrip_by p r with
      | EmptyString => if p c then EmptyString else String c EmptyString
      | r' => String c r'
      end
  end.

(** Whether the last character of [s] satisfies [p]. *)
Fixpoint last_char_is (p : ascii → bool) (s : string) : bool :=
  match s with
  | EmptyString => false
  | String c EmptyString => p c
  | String _ r => last_char_is p r
  end.

(** [s.count(c)] for a single character [c]. *)
Fixpoint count_char (c : ascii) (s : string) : nat :=
  match s with
  | EmptyString => 0
  | String c' r => (if Ascii.eqb c' c then 1 else 0) + count_char c r
  end.

(** [s.strip()] *)
Definition strip (s : string) : string :=
  rstrip_by isspace_char (lstrip_by isspace_char s).

(** [s.isdigit()] *)
Definition isdigit (s : string) : bool :=
  negb (is_empty s) && forallb_str isdigit_char s.

(** [s.upper()] *)
Definition upper (s : string) : string := map_str upper_char s.

(** [s.split(sep)] for a one-character separator. *)
Fixpoint split (sep : ascii) (s : string) : list string :=
  match s with
  | EmptyString => [EmptyString]
  | String c r =>
      if Ascii.eqb c sep then EmptyString :: split sep r
      else match split sep r with
           | h :: t => String c h :: t
           | [] => [String c EmptyString]
           end
  end.

(** [sep.join(parts)] *)
Fixpoint join (sep : string) (parts : list string) : string :=
  match parts with
  | [] => EmptyString
  | [p] => p
  | p :: ps => p +:+ sep +:+ join sep ps
  end.

(** [l[i:j]] for [0 <= i <= j]. *)
Definition slice {A} (l : list A) (i j : nat) : list A :=
  take (j - i) (drop i l).

(** [s.replace(old, '')] for a non-empty [old]: the occurrences of [old] are
    dropped left to right, without overlap; [skip] counts the characters of
    the current occurrence still to drop. *)
Fixpoint remove_occurrences (old : string) (skip : nat) (s : string) : string :=
  match s with
  | EmptyString => EmptyString
  | String c r =>
      match skip with
      | S k => remove_occurrences old k r
      | O =>
          if String.prefix old s
          then remove_occurrences old (String.length old - 1) r
          else String c (remove_occurrences old 0 r)
      end
  end.

Definition replace_with_empty (old s : string) : string :=
  remove_occurrences old 0 s.

(** ** [int(str)] *)

(** CPython hands [int] and [float] an ASCII copy of the string: blanks
    become spaces and any other non-ASCII character a question mark (the copy
    stops there; either way no literal matches). *)
Definition to_ascii_char (c : ascii) : ascii :=
  if (ord c <? 128)%N then c
  else if isspace_char c then " "%char else "?"%char.

(** What the characters of a string that passes [isdigit] become in that
    copy: a decimal digit, or the question mark. *)
Definition digit_or_mark (c : ascii) : bool :=
  isdecimal_char c || Ascii.eqb c "?".

(** Default of [sys.get_int_max_str_digits()]. *)
Definition int_max_str_digits : nat := 4300.

(** [digit (_? digit)*] after a first digit; returns value and digit count. *)
Fixpoint int_digits (s : string) (prev_underscore : bool) (acc : Z) (n : nat)
    : option (Z * nat) :=
  match s with
  | EmptyString => if prev_underscore then None else Some (acc, n)
  | String c r =>
      if isdecimal_char c then int_digits r false (10 * acc + digit_value c) (S n)
      else if Ascii.eqb c "_" then
        if prev_underscore then None else int_digits r true acc n
      else None
  end.

Definition int_literal (s : string) : option (Z * nat) :=
  match s with
  | String c r =>
      if isdecimal_char c then int_digits r false (digit_value c) 1 else None
  | EmptyString => None
  end.

Definition split_sign (s : string) : bool * string :=
  match s with
  | String c r =>
      if Ascii.eqb c "-" then (true, r)
      else if Ascii.eqb c "+" then (false, r)
      else (false, s)
  | EmptyString => (false, s)
  end.

(** [int(s)] in base 10. *)
Definition py_int (s : string) : result Z :=
  let t := rstrip_by Py_ISSPACE (lstrip_by Py_ISSPACE (map_str to_ascii_char s)) in
  let '(negative, body) := split_sign t in
  match int_literal body with
  | Some (v, n) =>
      if (int_max_str_digits <? n)%nat then Raise ValueError
      else Ok (if negative then - v else v)
  | None => Raise ValueError
  end.

(** The number written by a string of decimal digits. *)
Fixpoint decimal_value_from (acc : Z) (s : string) : Z :=
  match s with
  | EmptyString => acc
  | String c r => decimal_value_from (10 * acc + digit_value c) r
  end.

Definition decimal_value (s : string) : Z := decimal_value_from 0 s.

(** ** [float]: binary64 values, [float(str)], [int(float)] *)

Definition prec : Z := 53.
Definition emax : Z := 1024.

(** The float nearest to the integer [z] (ties to even); Python refuses an
    integer that rounds to infinity. *)
Definition float_of_int (z : Z) : result spec_float :=
  match binary_normalize prec emax z 0 false with
  | S754_infinity _ => Raise OverflowError
  | x => Ok x
  end.

(** The float nearest to [m * 10^e10] for [m >= 0] (ties to even); a value
    too large rounds to infinity. *)
Definition float_of_decimal (negative : bool) (m e10 : Z) : spec_float :=
  match m with
  | Zpos p =>
      if 0 <=? e10 then
        let v := Zpos p * 10 ^ e10 in
        binary_normalize prec emax (if negative then - v else v) 0 negative
      else
        let '(q, e2, l) :=
          SFdiv_core_binary prec emax (Zpos p) 0 (10 ^ (- e10)) 0 in
        binary_round_aux prec emax negative q e2 l
  | _ => S754_zero negative
  end.

(** [[0-9]*]: value (continuing [acc]), number of digits, rest. *)
Fixpoint take_digits (s : string) (acc n : Z) : Z * Z * string :=
  match s with
  | String c r =>
      if isdecimal_char c then take_digits r (10 * acc + digit_value c) (n + 1)
      else (acc, n, s)
  | EmptyString => (acc, n, s)
  end.

Definition lower_ascii_char (c : ascii) : ascii :=
  let n := ord c in
  if ((65 <=? n) && (n <=? 90))%N then ascii_of_N (n + 32) else c.

(** Underscores of a numeric literal: each needs a digit on both sides. *)
Fixpoint remove_underscores (prev : ascii) (s : string) : option string :=
  match s with
  | EmptyString => if Ascii.eqb prev "_" then None else Some EmptyString
  | String c r =>
      if Ascii.eqb c "_" then
        if isdecimal_char prev then remove_underscores c r else None
      else if Ascii.eqb prev "_" && negb (isdecimal_char c) then None
      else r' ← remove_underscores c r; Some (String c r')
  end.

(** What may follow the mantissa: nothing, or [[eE][+-]?[0-9]+]. *)
Definition float_exponent (s : string) : option Z :=
  match s with
  | EmptyString => Some 0
  | String c r =>
      if Ascii.eqb c "e" || Ascii.eqb c "E" then
        let '(negative, digits) := split_sign r in
        match take_digits digits 0 0 with
        | (v, n, EmptyString) =>
            if 0 <? n then Some (if negative then - v else v) else None
        | _ => None
        end
      else None
  end.

(** A whole float literal: a sign, then [inf], [infinity], [nan] in any case,
    or digits with an optional point and exponent. *)
Definition float_literal (s : string) : option spec_float :=
  let '(negative, body) := split_sign s in
  let name := map_str lower_ascii_char body in
  if String.eqb name "inf" || String.eqb name "infinity"
  then Some (S754_infinity negative)
  else if String.eqb name "nan" then Some S754_nan
  else
    let '(ip, ni, r1) := take_digits body 0 0 in
    let '(m, nf, r2) :=
      match r1 with
      | String c r => if Ascii.eqb c "." then take_digits r ip 0 else (ip, 0, r1)
      | EmptyString => (ip, 0, r1)
      end in
    if ni + nf =? 0 then None
    else e ← float_exponent r2; Some (float_of_decimal negative m (e - nf)).

(** [float(s)] *)
Definition py_float (s : string) : result spec_float :=
  match remove_underscores "000" (map_str to_ascii_char s) with
  | Some t =>
      match float_literal (rstrip_by Py_ISSPACE (lstrip_by Py_ISSPACE t)) with
      | Some x => Ok x
      | None => Raise ValueError
      end
  | None => Raise ValueError
  end.

(** [x * y] and [x + y] on floats. *)
Definition float_mul (x y : spec_float) : spec_float := SFmul prec emax x y.

Definition float_add (x y : spec_float) : spec_float := SFadd prec emax x y.

(** [x / y] on floats. *)
Definition float_div (x y : spec_float) : result spec_float :=
  match y with
  | S754_zero _ => Raise ZeroDivisionError
  | _ => Ok (SFdiv prec emax x y)
  end.

(** [int(x)] for a float: truncation toward zero. *)
Definition int_of_float (x : spec_float) : result Z :=
  match x with
  | S754_zero _ => Ok 0
  | S754_infinity _ => Raise OverflowError
  | S754_nan => Raise ValueError
  | S754_finite s m e =>
      let a := if 0 <=? e then Zpos m * 2 ^ e else Zpos m / 2 ^ (- e) in
      Ok (if s then - a else a)
  end.

(** ** [datetime] and [timedelta] *)

(** A number given where seconds are expected: an [int] or a [float]. *)
Inductive number : Type :=
| PyInt (n : Z)
| PyFloat (x : spec_float).

(** The fractional part of a float, as C's [modf] returns it: exact, with
    the sign of [x]. *)
Definition float_fracpart (x : spec_float) : spec_float :=
  match x with
  | S754_finite s m e =>
      if 0 <=? e then S754_zero s
      else
        let r := Zpos m `mod` 2 ^ (- e) in
        binary_normalize prec emax (if s then - r else r) e s
  | S754_infinity s => S754_zero s
  | x => x
  end.

(** The integer nearest to a finite float, a tie going to the even one. *)
Definition round_half_even (x : spec_float) : Z :=
  match x with
  | S754_finite s m e =>
      let a :=
        if 0 <=? e then Zpos m * 2 ^ e
        else
          let d := 2 ^ (- e) in
          let q := Zpos m `div` d in
          let r := Zpos m `mod` d in
          if 2 * r <? d then q
          else if d <? 2 * r then q + 1
          else if Z.even q then q else q + 1 in
      if s then - a else a
  | _ => 0
  end.

(** The [timedelta] of a number of microseconds: its days, by floor
    division, must lie within 999999999 either way. *)
Definition timedelta_of_microseconds (us : Z) : result Z :=
  let days := us `div` (86400 * 1000000) in
  if (-999999999 <=? days) && (days <=? 999999999) then Ok us
  else Raise OverflowError.

(** [timedelta(seconds=n)]. An [int] is taken exactly. A [float] is split
    into its integral part, taken exactly ([OverflowError] for an infinity,
    [ValueError] for a NaN), and its fractional part, which is multiplied by
    a million as a float and rounded to the nearest microsecond, a tie going
    to the even one. *)
Definition timedelta (seconds : number) : result Z :=
  us ← match seconds with
       | PyInt n => Ok (n * 1000000)
       | PyFloat x =>
           intpart ← int_of_float x;
           us_per_second ← float_of_int 1000000;
           Ok (intpart * 1000000
               + round_half_even (float_mul us_per_second (float_fracpart x)))
       end;
  timedelta_of_microseconds us.

(** [datetime.max], 9999-12-31T23:59:59.999999, whose day has the ordinal
    3652059. *)
Definition datetime_max : Z := 3652059 * 86400 * 1000000 - 1.

(** [t - delta] for a datetime and a timedelta: [OverflowError] when the
    result is not a datetime. *)
Definition datetime_sub (t delta : Z) : result Z :=
  let r := t - delta in
  if (0 <=? r) && (r <=? datetime_max) then Ok r else Raise OverflowError.

(** ** Other builtins *)

(** [str(n)] for an [int]. *)
Definition str_of_int (n : Z) : string := NilZero.string_of_int (Z.to_int n).

(** [s.startswith(p)] *)
Definition startswith (p s : string) : bool := String.prefix p s.

(** [sorted(l, key=key, reverse=True)]: stable, largest key first. *)
Fixpoint insert_desc {A} (key : A → Z) (x : A) (l : list A) : list A :=
  match l with
  | [] => [x]
  | y :: l' =>
      if key y >? key x then y :: insert_desc key x l' else x :: y :: l'
  end.

Definition sorted_desc {A} (key : A → Z) (l : list A) : list A :=
  foldr (insert_desc key) [] l.

(** [l[-n:]] for [n > 0]. *)
Definition last_n {A} (n : nat) (l : list A) : list A :=
  drop (length l - n) l.

End Py.

Import Py.

(** ** BLE tag detector *)

Module PyTag.

(** [AirTagDetector.is_airtag] *)
Definition is_airtag (apple_data : list byte) : result bool :=
  if (length apple_data <? 2)%nat then Ok false
  else
    payload_type ← getitem apple_data 0;
    if Byte.eqb payload_type x12 then
      if (3 <=? length apple_data)%nat then
        payload_length ← getitem apple_data 1;
        if Byte.eqb payload_length x19 && (4 <=? length apple_data)%nat then
          status_byte ← getitem apple_data 2;
          Ok (Byte.eqb status_byte x10)
        else Ok false
      else Ok false
    else if Byte.eqb payload_type x07 then
      if (2 <=? length apple_data)%nat then
        payload_length ← getitem apple_data 1;
        Ok (Byte.eqb payload_length x19)
      else Ok false
    else Ok false.

(** [AirTagDetector.calculate_distance]. [pow] is the C library's, reached
    through Python's [pow] on floats; it is a parameter here. *)
Definition calculate_distance
    (float_pow : spec_float → spec_float → result spec_float)
    (tx_power : Z) (rssi : Z) : result spec_float :=
  if rssi =? 0 then Ok (float_of_decimal true 10 (-1))
  else
    r ← float_of_int rssi;
    t ← float_of_int tx_power;
    ratio ← float_div (float_mul r (float_of_decimal false 10 (-1))) t;
    if SFltb ratio (float_of_decimal false 10 (-1)) then
      ten ← float_of_int 10;
      float_pow ratio ten
    else
      p ← float_pow ratio (float_of_decimal false 77095 (-4));
      Ok (float_add (float_mul (float_of_decimal false 89976 (-5)) p)
            (float_of_decimal false 111 (-3))).

(** The two payload shapes of the classifier's contract. *)
Definition registered_shape (d : list byte) : Prop :=
  (4 ≤ length d)%nat ∧ d !! 0%nat = Some x12 ∧ d !! 1%nat = Some x19
  ∧ d !! 2%nat = Some x10.

Definition unregistered_shape (d : list byte) : Prop :=
  (2 ≤ length d)%nat ∧ d !! 0%nat = Some x07 ∧ d !! 1%nat = Some x19.

(** *** Device registry *)

(** [AirTagDevice] *)
Record AirTagDevice : Type := {
  address : string;
  rssi : Z;
  distance : spec_float;
  trend : string;  (* "red", "green", "blue" *)
  count : Z;
  last_seen : Z;
  details : string
}.

(** Trend labels: "red" is a rising signal, "green" a stable one, "blue" a
    falling one ([get_trend_symbol]). *)
Definition Rising : string := "red".
Definition Stable : string := "green".
Definition Falling : string := "blue".

(** [Dict[str, AirTagDevice]], in insertion order. *)
Abbreviation dict := (list (string * AirTagDevice)).

Definition dict_wf (d : dict) : Prop := NoDup d.*1.

(** [d.get(k)] *)
Fixpoint dict_get (k : string) (d : dict) : option AirTagDevice :=
  match d with
  | [] => None
  | (k', v) :: d' => if bool_decide (k' = k) then Some v else dict_get k d'
  end.

(** [d[k] = v]: an existing key keeps its position, a new one goes last. *)
Fixpoint dict_set (k : string) (v : AirTagDevice) (d : dict) : dict :=
  match d with
  | [] => [(k, v)]
  | (k', v') :: d' =>
      if bool_decide (k' = k) then (k', v) :: d' else (k', v') :: dict_set k v d'
  end.

(** [del d[k]]: [KeyError] when the key is absent. *)
Fixpoint dict_del (k : string) (d : dict) : result dict :=
  match d with
  | [] => Raise KeyError
  | (k', v') :: d' =>
      if bool_decide (k' = k) then Ok d'
      else d'' ← dict_del k d'; Ok ((k', v') :: d'')
  end.

(** The critical section of [AirTagDetector.detection_callback]: the block
    under [self.airtags_lock], with [current_time] the clock reading taken
    inside it. *)
Definition ingest (detected_airtags : dict) (address : string) (rssi : Z)
    (distance : spec_float) (details : string) (current_time : Z) : dict :=
  match dict_get address detected_airtags with
  | Some old_device =>
      let trend :=
        if rssi >? old_device.(PyTag.rssi) then "red"
        else if rssi <? old_device.(PyTag.rssi) then "blue"
        else "green" in
      dict_set address
        {| address := address; rssi := rssi; distance := distance;
           trend := trend; count := old_device.(PyTag.count) + 1;
           last_seen := current_time; details := details |}
        detected_airtags
  | None =>
      dict_set address
        {| address := address; rssi := rssi; distance := distance;
           trend := "green"; count := 1;
           last_seen := current_time; details := details |}
        detected_airtags
  end.

(** [AirTagDetector.cleanup_stale_devices], with [current_time] the clock
    reading taken under the lock. The threshold is computed before any entry
    is looked at, so an exception there leaves the registry as it was. *)
Definition cleanup_stale_devices (detected_airtags : dict)
    (device_timeout : number) (current_time : Z) : result dict :=
  delta ← timedelta device_timeout;
  timeout_threshold ← datetime_sub current_time delta;
  let stale_addresses :=
    (filter (λ item, item.2.(last_seen) < timeout_threshold)
       detected_airtags).*1 in
  foldl (λ acc addr, d ← acc; dict_del addr d) (Ok detected_airtags)
    stale_addresses.

(** [sorted(items, key=lambda x: x[1].rssi, reverse=True)]: a stable sort,
    strongest signal first. *)
Fixpoint insert_by_rssi (x : string * AirTagDevice) (l : dict) : dict :=
  match l with
  | [] => [x]
  | y :: l' =>
      if y.2.(rssi) >? x.2.(rssi) then y :: insert_by_rssi x l'
      else x :: y :: l'
  end.

Definition sorted_by_rssi (items : dict) : dict :=
  foldr insert_by_rssi [] items.

(** The snapshot taken by the display code: [dict(self.detected_airtags)]
    under the lock, then sorted by signal strength. *)
Definition snapshot (detected_airtags : dict) : dict :=
  let devices_copy := detected_airtags in
  sorted_by_rssi devices_copy.

(** *** Display helpers and the detection callback *)

(** [AirTagDetector.get_trend_color] *)
Definition trend_colors : gmap string string :=
  list_to_map [("red", "red"); ("green", "green"); ("blue", "blue")].

Definition get_trend_color (trend : string) : string :=
  default "white" (trend_colors !! trend).

(** [f"{b:02x}"] for a byte and [bytes.hex()]. *)
Definition hex_digit (n : N) : ascii :=
  if (n <? 10)%N then ascii_of_N (48 + n) else ascii_of_N (87 + n).

Definition format_02x (b : byte) : string :=
  let n := Byte.to_N b in
  String (hex_digit (n / 16)) (String (hex_digit (n mod 16)) EmptyString).

Fixpoint bytes_hex (data : list byte) : string :=
  match data with
  | [] => EmptyString
  | b :: data' => format_02x b +:+ bytes_hex data'
  end.

(** The debug buffer of [detection_callback]: append, then drop the oldest
    entry once more than 10 are held. *)
Definition push_debug (debug_buffer : list string) (debug_info : string)
    : list string :=
  let buffer := debug_buffer ++ [debug_info] in
  if (10 <? length buffer)%nat then drop 1 buffer else buffer.

(** The state of an [AirTagDetector] that the callback and the scan loop
    touch; a [debug_buffer] not yet created is the empty list. *)
Record Detector : Type := {
  detected_airtags : dict;
  debug_buffer : list string;
  scan_count : Z;
  tx_power : Z;
  device_timeout : number
}.

Definition set_debug_buffer (self : Detector) (buffer : list string) : Detector :=
  {| detected_airtags := self.(detected_airtags); debug_buffer := buffer;
     scan_count := self.(scan_count); tx_power := self.(tx_power);
     device_timeout := self.(device_timeout) |}.

Definition set_detected_airtags (self : Detector) (d : dict) : Detector :=
  {| detected_airtags := d; debug_buffer := self.(debug_buffer);
     scan_count := self.(scan_count); tx_power := self.(tx_power);
     device_timeout := self.(device_timeout) |}.

(** [AirTagDetector.detection_callback]. The advertisement is given by its
    fields; [float_pow] is the C library's [pow] and [format_2f] the
    rendering [f"{distance:.2f}"], both parameters. The result is the state
    the call leaves and the exception it ends with, if any. *)
Definition detection_callback
    (float_pow : spec_float → spec_float → result spec_float)
    (format_2f : spec_float → string)
    (self : Detector) (address : string) (name : option string) (rssi : Z)
    (manufacturer_data : gmap Z (list byte)) (current_time : Z)
    : Detector * option exn :=
  if bool_decide (manufacturer_data = ∅) then (self, None)
  else
    match manufacturer_data !! 76 with
    | None => (self, None)
    | Some [] => (self, None)
    | Some apple_data =>
        let logged :=
          if (2 <=? length apple_data)%nat then
            payload_type ← getitem apple_data 0;
            payload_length ←
              (if (1 <? length apple_data)%nat then getitem apple_data 1
               else Ok x00);
            let debug_info :=
              address +:+ " | Type: 0x" +:+ format_02x payload_type
              +:+ " | Length: 0x" +:+ format_02x payload_length
              +:+ " | Data: " +:+ bytes_hex apple_data in
            Ok (set_debug_buffer self (push_debug self.(debug_buffer) debug_info))
          else Ok self in
        match logged with
        | Raise e => (self, Some e)
        | Ok self =>
            match is_airtag apple_data with
            | Raise e => (self, Some e)
            | Ok false => (self, None)
            | Ok true =>
                match calculate_distance float_pow self.(tx_power) rssi with
                | Raise e => (self, Some e)
                | Ok distance =>
                    let details :=
                      "RSSI: " +:+ str_of_int rssi +:+ "dBm | Distance: "
                      +:+ format_2f distance +:+ "m" in
                    let details :=
                      match name with
                      | Some (String c r) =>
                          details +:+ " | Name: " +:+ String c r
                      | _ => details
                      end in
                    (set_detected_airtags self
                       (ingest self.(detected_airtags) address rssi distance
                          details current_time),
                     None)
                end
            end
        end
    end.

(** The left column of [run_simple_mode]: the last four debug entries, each
    cut to 33 characters and three dots when longer than 36. *)
Definition truncate_debug_line (debug_line : string) : string :=
  if (36 <? String.length debug_line)%nat
  then String.substring 0 33 debug_line +:+ "..."
  else debug_line.

Definition ble_debug_lines (debug_buffer : list string) : list string :=
  truncate_debug_line <$> last_n 4 debug_buffer.

(** The tags [run_simple_mode] shows: [sorted_devices[:3]]. *)
Definition shown_airtags (detected_airtags : dict) : dict :=
  take 3 (snapshot detected_airtags).

(** The body of the inner loop of [scanner_loop], after the sleep: count the
    scan and clean up on every 30th. An exception of the clean-up leaves the
    inner loop (the handler of the outer loop prints it and starts the
    scanner again); the counter has been advanced by then. *)
Definition scan_tick (self : Detector) (current_time : Z) : result Detector :=
  let scan_count := self.(scan_count) + 1 in
  let self :=
    {| detected_airtags := self.(detected_airtags);
       debug_buffer := self.(debug_buffer);
       scan_count := scan_count; tx_power := self.(tx_power);
       device_timeout := self.(device_timeout) |} in
  if scan_count `mod` 30 =? 0 then
    d ← cleanup_stale_devices self.(detected_airtags) self.(device_timeout)
          current_time;
    Ok (set_detected_airtags self d)
  else Ok self.

(** Successive rounds of that loop, one clock reading each, up to the first
    exception. *)
Definition run_ticks (self : Detector) (times : list Z) : result Detector :=
  foldl (λ acc now, self ← acc; scan_tick self now) (Ok self) times.

(** What happens to the registry over time: detections and clean-ups, up
    to the first exception. *)
Inductive registry_event : Type :=
| Detected (address : string) (rssi : Z) (distance : spec_float)
    (details : string) (current_time : Z)
| CleanedUp (device_timeout : number) (current_time : Z).

Definition apply_event (d : dict) (ev : registry_event) : result dict :=
  match ev with
  | Detected a r dist det now => Ok (ingest d a r dist det now)
  | CleanedUp timeout now => cleanup_stale_devices d timeout now
  end.

Definition run_events (d : dict) (evs : list registry_event) : result dict :=
  foldl (λ acc ev, d ← acc; apply_event d ev) (Ok d) evs.

(** What holds of every entry of the registry. *)
Definition entry_ok (item : string * AirTagDevice) : Prop :=
  address item.2 = item.1 ∧ 1 ≤ count item.2
  ∧ (trend item.2 = Rising ∨ trend item.2 = Stable ∨ trend item.2 = Falling).

(** The readings of one address in a run of detections. *)
Definition readings_of (a : string)
    (dets : list (string * Z * spec_float * string * Z)) : list Z :=
  omap (λ '(a', r, _, _, _), if bool_decide (a' = a) then Some r else None) dets.

(** The registry after a run of detections, starting from [d]. *)
Definition ingest_all (d : dict)
    (dets : list (string * Z * spec_float * string * Z)) : dict :=
  foldl (λ d '(a, r, dist, det, now), ingest d a r dist det now) d dets.

End PyTag.


(** ** WiFi scanner *)

Module Wss.

(** *** Frequency, band and channel *)

(** The band chosen by [WiFiNetwork.__post_init__]. *)
Definition band_of_frequency (frequency : Z) : string :=
  if negb (frequency =? 0) && (frequency >? 0) then
    if (2400 <=? frequency) && (frequency <=? 2500) then "2.4GHz"
    else if (5000 <=? frequency) && (frequency <=? 6000) then "5GHz"
    else if frequency >=? 6000 then "6GHz"
    else "Unknown"
  else "Unknown".

(** The table of [_frequency_to_channel]. *)
Definition freq_to_chan_5g : gmap Z Z :=
  list_to_map
    [(5180, 36); (5200, 40); (5220, 44); (5240, 48);
     (5260, 52); (5280, 56); (5300, 60); (5320, 64);
     (5500, 100); (5520, 104); (5540, 108); (5560, 112);
     (5580, 116); (5600, 120); (5620, 124); (5640, 128);
     (5660, 132); (5680, 136); (5700, 140); (5720, 144);
     (5745, 149); (5765, 153); (5785, 157); (5805, 161);
     (5825, 165)].

(** [WiFiScanner._frequency_to_channel]; [//] is the floor division. *)
Definition _frequency_to_channel (frequency : Z) : option Z :=
  if (2412 <=? frequency) && (frequency <=? 2484) then
    if frequency =? 2484 then Some 14
    else Some ((frequency - 2412) `div` 5 + 1)
  else if (5000 <=? frequency) && (frequency <=? 6000) then
    freq_to_chan_5g !! frequency
  else None.

(** Channel numbers of the 5GHz table; channel [c] is centred at
    [5000 + 5 * c] MHz. *)
Definition channels_5g : list Z :=
  [36; 40; 44; 48; 52; 56; 60; 64; 100; 104; 108; 112; 116; 120; 124; 128;
   132; 136; 140; 144; 149; 153; 157; 161; 165].

Definition caught_ValueError (e : exn) : bool :=
  match e with ValueError => true | _ => false end.

Definition caught_ValueError_IndexError (e : exn) : bool :=
  match e with ValueError | IndexError => true | _ => false end.

(** [WiFiScanner._parse_frequency] *)
Definition _parse_frequency (freq_str : string) : result Z :=
  if is_empty freq_str then Ok 0
  else
    try_except
      (let freq_clean :=
         strip (replace_with_empty " "
                  (replace_with_empty "GHz"
                     (replace_with_empty "MHz" freq_str))) in
       if contains "." freq_clean then
         x ← py_float freq_clean;
         k ← float_of_int 1000;
         int_of_float (float_mul x k)
       else py_int freq_clean)
      caught_ValueError
      (Ok 0).

(** [WiFiScanner._parse_channel] *)
Definition _parse_channel (channel_str : string) (frequency : Z)
    : result (option Z) :=
  if negb (is_empty channel_str) && isdigit channel_str then
    c ← py_int channel_str; Ok (Some c)
  else if frequency >? 0 then Ok (_frequency_to_channel frequency)
  else Ok None.

(** *** BSSID validation *)

Definition is_hex_char (c : ascii) : bool :=
  let n := ord c in
  ((48 <=? n) && (n <=? 57) || (65 <=? n) && (n <=? 70)
   || (97 <=? n) && (n <=? 102))%N.

Definition is_upper_hex_char (c : ascii) : bool :=
  let n := ord c in ((48 <=? n) && (n <=? 57) || (65 <=? n) && (n <=? 70))%N.

Definition is_colon (c : ascii) : bool := Ascii.eqb c ":".

Definition is_colon_or_hyphen (c : ascii) : bool :=
  Ascii.eqb c ":" || Ascii.eqb c "-".

(** [(hh s){n}] at the head of [s], for octet digits [hex] and separators
    [sep]; gives the rest of the string. *)
Fixpoint re_octet_groups (hex sep : ascii → bool) (n : nat) (s : string)
    : option string :=
  match n with
  | O => Some s
  | S n' =>
      match s with
      | String a (String b (String c r)) =>
          if hex a && hex b && sep c then re_octet_groups hex sep n' r
          else None
      | _ => None
      end
  end.

(** [$] of Python's [re]: the end of the string, or just before a newline
    that ends it. *)
Definition re_dollar (s : string) : bool :=
  match s with
  | EmptyString => true
  | String c EmptyString => Ascii.eqb c "010"
  | _ => false
  end.

(** [re.compile(r'^([0-9A-Fa-f]{2}[:-]){5}([0-9A-Fa-f]{2})$').match] *)
Definition mac_pattern (s : string) : bool :=
  match re_octet_groups is_hex_char is_colon_or_hyphen 5 s with
  | Some (String a (String b r)) => is_hex_char a && is_hex_char b && re_dollar r
  | _ => false
  end.

(** [re.compile(r'^[0-9A-Fa-f]{2}$').match] *)
Definition partial_pattern (s : string) : bool :=
  match s with
  | String a (String b r) => is_hex_char a && is_hex_char b && re_dollar r
  | _ => false
  end.

(** Six two-digit octets with five separators and nothing else. *)
Definition six_octets (hex sep : ascii → bool) (s : string) : bool :=
  match re_octet_groups hex sep 5 s with
  | Some (String a (String b EmptyString)) => hex a && hex b
  | _ => false
  end.

(** [WiFiScanner._validate_bssid] *)
Definition _validate_bssid (bssid : string) : option string :=
  if is_empty bssid then None
  else
    let bssid := strip (replace_with_empty "\" bssid) in
    if mac_pattern bssid then Some (upper bssid)
    else if partial_pattern bssid then None
    else None.

(** *** Scan-line parser *)

(** The dictionary returned by [_parse_nmcli_line_robust], by key. *)
Module Parsed.
Record t : Type := {
  ssid : string;
  security : string;
  signal : Z;
  frequency : Z;
  bssid : option string;
  channel : option Z
}.
End Parsed.

(** [WiFiScanner._parse_nmcli_line_robust]; the handler prints a diagnostic
    and returns [None]. *)
Definition _parse_nmcli_line_robust (line : string) : result (option Parsed.t) :=
  if is_empty (strip line) then Ok None
  else
    let parts := split ":" line in
    if (length parts <? 8)%nat then Ok None
    else
      try_except
        (ssid ← strip <$> getitem parts 0;
         security ← strip <$> getitem parts 1;
         signal_str ← strip <$> getitem parts 2;
         freq_str ← strip <$> getitem parts 3;
         let bssid_parts := slice parts 4 10 in
         let bssid_raw := join ":" bssid_parts in
         channel_str ←
           (if (10 <? length parts)%nat then getitem parts 10 else Ok "");
         let bssid := _validate_bssid bssid_raw in
         signal ← (if isdigit signal_str then py_int signal_str else Ok 0);
         freq ← _parse_frequency freq_str;
         channel ← _parse_channel channel_str freq;
         Ok (Some {| Parsed.ssid := ssid; Parsed.security := security;
                     Parsed.signal := signal; Parsed.frequency := freq;
                     Parsed.bssid := bssid; Parsed.channel := channel |}))
        caught_ValueError_IndexError
        (Ok None).

(** *** Network records and the scan loop *)

(** [WiFiNetwork] *)
Record WiFiNetwork : Type := {
  ssid : string;
  security : string;
  signal : Z;
  frequency : Z;
  band : string;
  channel : option Z;
  bssid : option string;
  rssi : option Z;
  timestamp : option string
}.

(** [WiFiNetwork.__post_init__], with [now] the reading of
    [datetime.now().isoformat()]. *)
Definition __post_init__ (now : string) (self : WiFiNetwork) : WiFiNetwork :=
  {| ssid := self.(ssid); security := self.(security);
     signal := self.(signal); frequency := self.(frequency);
     band := band_of_frequency self.(frequency);
     channel := self.(channel); bssid := self.(bssid); rssi := self.(rssi);
     timestamp := match self.(timestamp) with
                  | None => Some now
                  | Some ts => Some ts
                  end |}.

(** The body of the loop of [WiFiScanner.scan_networks] for one line:
    [None] where the loop continues without a record. *)
Definition scan_line (rssi_data : gmap string Z) (now : string) (line : string)
    : result (option WiFiNetwork) :=
  parsed_data ← _parse_nmcli_line_robust line;
  match parsed_data with
  | None => Ok None
  | Some parsed_data =>
      let ssid := parsed_data.(Parsed.ssid) in
      if is_empty ssid then Ok None
      else
        let rssi := rssi_data !! ssid in
        Ok (Some (__post_init__ now
                    {| ssid := ssid;
                       security := parsed_data.(Parsed.security);
                       signal := parsed_data.(Parsed.signal);
                       frequency := parsed_data.(Parsed.frequency);
                       band := "Unknown";
                       channel := parsed_data.(Parsed.channel);
                       bssid := parsed_data.(Parsed.bssid);
                       rssi := rssi;
                       timestamp := None |}))
  end.

(** The loop itself; [clock i] is the time read while line [i] is handled.
    An exception leaves the loop at the line that raised it. *)
Fixpoint scan_lines (rssi_data : gmap string Z) (clock : nat → string)
    (i : nat) (lines : list string) : result (list WiFiNetwork) :=
  match lines with
  | [] => Ok []
  | line :: lines' =>
      r ← scan_line rssi_data (clock i) line;
      networks ← scan_lines rssi_data clock (S i) lines';
      Ok (match r with Some network => network :: networks | None => networks end)
  end.

(** [f"{network.ssid}|{network.bssid or 'no_bssid'}"] *)
Definition identifier (network : WiFiNetwork) : string :=
  network.(ssid) +:+ "|" +:+
  match network.(bssid) with
  | Some b => if is_empty b then "no_bssid" else b
  | None => "no_bssid"
  end.

(** The BSSID of an observation as the scan loop records it: absent, or six
    upper-case octets. *)
Definition recorded_bssid (n : WiFiNetwork) : Prop :=
  match bssid n with
  | Some b => six_octets is_upper_hex_char is_colon_or_hyphen b = true
  | None => True
  end.

(** [WiFiScanner._add_unique_networks]: the new value of
    [self.discovered_networks]. *)
Definition _add_unique_networks (discovered_networks new_networks : list WiFiNetwork)
    : list WiFiNetwork :=
  let existing_networks : gset string :=
    foldl (λ existing network, existing ∪ {[identifier network]})
      ∅ discovered_networks in
  (foldl
     (λ '(discovered, existing) network,
        if decide (identifier network ∉ existing)
        then (discovered ++ [network], existing ∪ {[identifier network]})
        else (discovered, existing))
     (discovered_networks, existing_networks) new_networks).1.

(** The registry update as the design words it: of a batch, the observations
    whose key is neither in [seen] nor carried by an earlier observation of
    the batch, in their order. *)
Fixpoint first_with_new_key (seen : gset string) (new_networks : list WiFiNetwork)
    : list WiFiNetwork :=
  match new_networks with
  | [] => []
  | network :: rest =>
      if decide (identifier network ∈ seen) then first_with_new_key seen rest
      else network :: first_with_new_key (seen ∪ {[identifier network]}) rest
  end.

(** [WiFiScanner.scan_networks] after the external commands have run:
    [rssi_data] is the table read from [iwlist], [success] and [output] the
    result of the [nmcli] listing. Gives the returned list and the new
    [self.discovered_networks]. *)
Definition scan_networks (discovered_networks : list WiFiNetwork)
    (rssi_data : gmap string Z) (clock : nat → string)
    (success : bool) (output : string)
    : result (list WiFiNetwork * list WiFiNetwork) :=
  if negb success then Ok ([], discovered_networks)
  else
    networks ← scan_lines rssi_data clock 0 (split "010" (strip output));
    Ok (networks, _add_unique_networks discovered_networks networks).

(** *** Lines as the listing command writes them *)

(** A line of [nmcli -t -f SSID,SECURITY,SIGNAL,FREQ,BSSID,CHAN]: the six
    fields joined by colons, the BSSID being six octets of two characters
    whose own colons are written plain or, as the terse mode does, escaped
    with a backslash. *)
Definition octet_text (o : ascii * ascii) : string :=
  String o.1 (String o.2 EmptyString).

Definition nmcli_line (escaped : bool) (ssid security signal freq : string)
    (octets : list (ascii * ascii)) (chan : string) : string :=
  join ":"
    ([ssid; security; signal; freq]
     ++ match reverse octets with
        | [] => []
        | o :: front =>
            ((λ o, octet_text o +:+ (if escaped then "\" else ""))
               <$> reverse front) ++ [octet_text o]
        end
     ++ [chan]).

(** A frequency in MHz written in GHz with three decimals. *)
Definition ghz_text (frequency : Z) : string :=
  let frac := frequency `mod` 1000 in
  str_of_int (frequency `div` 1000) +:+ "."
  +:+ (if frac <? 10 then "00" else if frac <? 100 then "0" else "")
  +:+ str_of_int frac.

(** *** Derived views of the scan results *)

(** [WiFiNetwork.is_open] *)
Definition is_open (self : WiFiNetwork) : bool :=
  is_empty self.(security) || is_empty (strip self.(security)).

(** The counts of [_continuous_scan_rich]: total, open, 2.4GHz, 5GHz, 6GHz
    and unknown band. *)
Record ScanStatistics : Type := {
  total : nat;
  open_networks : nat;
  band_24 : nat;
  band_5 : nat;
  band_6 : nat;
  unknown_bands : nat
}.

Definition scan_statistics (networks : list WiFiNetwork) : ScanStatistics :=
  {| total := length networks;
     open_networks := length (filter (λ n, is_open n = true) networks);
     band_24 := length (filter (λ n, n.(band) = "2.4GHz") networks);
     band_5 := length (filter (λ n, n.(band) = "5GHz") networks);
     band_6 := length (filter (λ n, n.(band) = "6GHz") networks);
     unknown_bands :=
       length (filter (λ n, startswith "Unknown" n.(band) = true) networks) |}.

(** The rows of the table of [_continuous_scan_rich]:
    [sorted(networks, key=lambda x: x.signal, reverse=True)[:15]]. *)
Definition networks_sorted (networks : list WiFiNetwork) : list WiFiNetwork :=
  sorted_desc signal networks.

Definition shown_networks (networks : list WiFiNetwork) : list WiFiNetwork :=
  take 15 (networks_sorted networks).

(** The candidates of [auto_connect]: the open networks, strongest first. *)
Definition auto_connect_candidates (networks : list WiFiNetwork)
    : list WiFiNetwork :=
  sorted_desc signal (filter (λ n, is_open n = true) networks).

(** *** Configuration *)

(** A value read from the configuration file. *)
#[local] Unset Elimination Schemes.
Inductive json_value : Type :=
| JNull
| JBool (b : bool)
| JInt (n : Z)
| JFloat (x : spec_float)
| JStr (s : string)
| JArray (items : list json_value)
| JObject (members : list (string * json_value)).
#[local] Set Elimination Schemes.

(** [WiFiConfig.default_config] *)
Definition default_config : gmap string json_value :=
  list_to_map
    [("interface", JStr "wlan0"); ("test_host", JStr "8.8.8.8");
     ("scan_interval", JInt 10); ("log_dir", JStr "./wifi_logs");
     ("max_log_age_days", JInt 30); ("ping_timeout", JInt 5);
     ("connection_timeout", JInt 15); ("auto_cleanup", JBool true);
     ("export_format", JStr "json")].

(** [WiFiConfig.load_config]: [file] is [None] when the file does not exist,
    [Some None] when reading it or merging its content raises, and
    [Some (Some m)] when [json.load] gives the dictionary [m]. *)
Definition load_config (file : option (option (gmap string json_value)))
    : gmap string json_value :=
  match file with
  | Some (Some loaded) => loaded ∪ default_config
  | _ => default_config
  end.

(** [WiFiConfig.get] and [WiFiConfig.set] *)
Definition config_get (config : gmap string json_value) (key : string)
    (default : option json_value) : option json_value :=
  match config !! key with
  | Some v => Some v
  | None => default
  end.

Definition config_set (config : gmap string json_value) (key : string)
    (value : json_value) : gmap string json_value :=
  <[key := value]> config.

End Wss.

(** * Theorems *)

Lemma byte_eqb_eq (a b : byte) : Byte.eqb a b = true ↔ a = b.
Proof. split; [apply Byte.byte_dec_bl | apply Byte.byte_dec_lb]. Qed.

(** C1: [is_airtag] never raises, and answers true exactly on the
    registered shape (length >= 4, bytes 12 19 10) and on the unregistered
    shape (length >= 2, bytes 07 19); the listed sample payloads follow. *)
Theorem is_airtag_spec :
  (∀ d : list byte, ∃ b : bool,
      PyTag.is_airtag d = Ok b
      ∧ (b = true ↔ PyTag.registered_shape d ∨ PyTag.unregistered_shape d))
  ∧ (∀ b3 rest, PyTag.is_airtag (x12 :: x19 :: x10 :: b3 :: rest) = Ok true)
  ∧ (∀ rest, PyTag.is_airtag (x12 :: x19 :: x11 :: rest) = Ok false)
  ∧ (∀ rest, PyTag.is_airtag (x07 :: x19 :: rest) = Ok true)
  ∧ (∀ rest, PyTag.is_airtag (x07 :: x18 :: rest) = Ok false)
  ∧ (∀ b0, PyTag.is_airtag [b0] = Ok false).
Proof.
  split; [|repeat split; intros; try reflexivity; by destruct rest].
  intros d. unfold PyTag.registered_shape, PyTag.unregistered_shape.
  destruct d as [|b0 [|b1 rest]].
  - exists false. split; [done|]. simpl. split; [done|]. intros [H|H]; lia.
  - exists false. split; [done|]. simpl. split; [done|]. intros [H|H]; lia.
  - unfold PyTag.is_airtag.
    change (length (b0 :: b1 :: rest) <? 2)%nat with false.
    cbn [getitem lookup list_lookup mbind result_bind].
    destruct (Byte.eqb b0 x12) eqn:E0.
    + apply byte_eqb_eq in E0 as ->.
      destruct rest as [|b2 rest].
      { exists false. split; [done|]. split; [done|].
        simpl. intros [H|H]; [lia|]. destruct H as (_ & H & _). done. }
      change (3 <=? length (x12 :: b1 :: b2 :: rest))%nat with true.
      cbn [getitem lookup list_lookup mbind result_bind].
      destruct (Byte.eqb b1 x19) eqn:E1; cycle 1.
      { exists false. split; [done|]. split; [done|].
        apply Byte.eqb_false in E1. simpl.
        intros [(_ & _ & H & _)|(_ & H & _)]; congruence. }
      apply byte_eqb_eq in E1 as ->.
      destruct rest as [|b3 rest].
      { exists false. split; [done|]. split; [done|]. simpl.
        intros [H|(_ & H & _)]; [lia|done]. }
      change (4 <=? length (x12 :: x19 :: b2 :: b3 :: rest))%nat with true.
      cbn [andb getitem lookup list_lookup mbind result_bind].
      exists (Byte.eqb b2 x10). split; [done|].
      rewrite byte_eqb_eq. simpl. split.
      * intros ->. left. repeat split; lia.
      * intros [(_ & _ & _ & H)|(_ & H & _)]; congruence.
    + apply Byte.eqb_false in E0.
      destruct (Byte.eqb b0 x07) eqn:E7.
      * apply byte_eqb_eq in E7 as ->.
        change (2 <=? length (x07 :: b1 :: rest))%nat with true.
        cbn [getitem lookup list_lookup mbind result_bind].
        exists (Byte.eqb b1 x19). split; [done|].
        rewrite byte_eqb_eq. simpl. split.
        -- intros ->. right. repeat split; lia.
        -- intros [(_ & H & _)|(_ & _ & H)]; congruence.
      * apply Byte.eqb_false in E7.
        exists false. split; [done|]. split; [done|]. simpl.
        intros [(_ & H & _)|(_ & H & _)]; congruence.
Qed.

(** ** Distance estimate *)

(** The part of the distance estimate that does not rest on [pow]: a reading
    of 0 gives exactly -1.0, and a reading equal to the calibration constant
    -59 gives ratio 1.0, hence the second formula, whose value is 1.01076 as
    soon as [pow 1.0 7.7095] is 1.0. *)
Lemma calculate_distance_fixed_points float_pow :
  (∀ tx_power, PyTag.calculate_distance float_pow tx_power 0
               = Ok (S754_finite true 4503599627370496 (-52)))
  ∧ PyTag.calculate_distance float_pow (-59) (-59)
    = (p ← float_pow (S754_finite false 4503599627370496 (-52))
                     (S754_finite false 8680125331803210 (-50));
       Ok (float_add (float_mul (S754_finite false 8104317601445755 (-53)) p)
             (S754_finite false 7998392938210001 (-56))))
  ∧ float_add
      (float_mul (S754_finite false 8104317601445755 (-53))
         (S754_finite false 4503599627370496 (-52)))
      (S754_finite false 7998392938210001 (-56))
    = float_of_decimal false 101076 (-5).
Proof. split_and!; [done| |by vm_compute]. by vm_compute. Qed.

(** ** Device registry *)

Section registry.
Import PyTag.
Implicit Types (d : dict) (k a : string) (v dev : AirTagDevice).

Lemma dict_get_None k d : dict_get k d = None ↔ k ∉ d.*1.
Proof.
  induction d as [|[k' v'] d IH]; simpl.
  - split; [intros _; apply not_elem_of_nil | done].
  - rewrite not_elem_of_cons. case_bool_decide as Hk.
    + split; [done | by intros [? _]].
    + rewrite IH. intuition congruence.
Qed.

Lemma dict_get_Some k v d : dict_get k d = Some v → (k, v) ∈ d.
Proof.
  induction d as [|[k' v'] d IH]; simpl; [done|].
  case_bool_decide; [intros [= ->]; subst; left | right; auto].
Qed.

Lemma dict_get_set_eq k v d : dict_get k (dict_set k v d) = Some v.
Proof.
  induction d as [|[k' v'] d IH]; simpl.
  - by rewrite bool_decide_eq_true_2.
  - case_bool_decide; simpl.
    + by rewrite bool_decide_eq_true_2.
    + by rewrite bool_decide_eq_false_2.
Qed.

Lemma dict_get_set_ne k k' v d :
  k ≠ k' → dict_get k' (dict_set k v d) = dict_get k' d.
Proof.
  intros Hne. induction d as [|[k0 v0] d IH]; simpl.
  - by rewrite bool_decide_eq_false_2.
  - case_bool_decide; simpl; [subst|].
    + by rewrite !bool_decide_eq_false_2.
    + by rewrite IH.
Qed.

Lemma dict_set_keys k v d :
  (dict_set k v d).*1
  = match dict_get k d with Some _ => d.*1 | None => d.*1 ++ [k] end.
Proof.
  induction d as [|[k0 v0] d IH]; cbn [dict_set dict_get]; [done|].
  case_bool_decide; rewrite !fmap_cons; [done|].
  rewrite IH. by destruct (dict_get k d).
Qed.

Lemma dict_set_wf k v d : dict_wf d → dict_wf (dict_set k v d).
Proof.
  unfold dict_wf. rewrite dict_set_keys.
  destruct (dict_get k d) eqn:E; [done|].
  intros Hnd. apply NoDup_app. split_and!; [done| |apply NoDup_singleton].
  intros x Hx ->%list_elem_of_singleton. by apply dict_get_None in E.
Qed.

Lemma ingest_wf d a r dist det now :
  dict_wf d → dict_wf (ingest d a r dist det now).
Proof. unfold ingest. destruct (dict_get a d); apply dict_set_wf. Qed.

Lemma ingest_get_eq d a r dist det now :
  dict_get a (ingest d a r dist det now)
  = Some {| address := a; rssi := r; distance := dist;
            trend := match dict_get a d with
                     | Some old =>
                         if r >? rssi old then "red"
                         else if r <? rssi old then "blue" else "green"
                     | None => "green"
                     end;
            count := match dict_get a d with
                     | Some old => count old + 1
                     | None => 1
                     end;
            last_seen := now; details := det |}.
Proof.
  unfold ingest. destruct (dict_get a d); apply dict_get_set_eq.
Qed.

Lemma dict_del_app k v (pre d : dict) :
  k ∉ pre.*1 → dict_del k (pre ++ (k, v) :: d) = Ok (pre ++ d).
Proof.
  induction pre as [|[k0 v0] pre IH]; simpl.
  - intros _. by rewrite bool_decide_eq_true_2.
  - rewrite not_elem_of_cons. intros [Hne Hpre].
    rewrite bool_decide_eq_false_2 by done. by rewrite IH.
Qed.

Lemma cleanup_fold (P : string * AirTagDevice → Prop)
    `{!∀ x, Decision (P x)} (pre d : dict) :
  dict_wf (pre ++ d) →
  foldl (λ acc addr, d0 ← acc; dict_del addr d0) (Ok (pre ++ d))
    (filter P d).*1
  = Ok (pre ++ filter (λ x, ¬ P x) d).
Proof.
  revert pre. induction d as [|[k v] d IH]; intros pre Hwf; [done|].
  rewrite !filter_cons. destruct (decide (P (k, v))) as [HP|HP].
  - rewrite decide_False by tauto. simpl.
    rewrite dict_del_app.
    + apply IH. revert Hwf. unfold dict_wf. rewrite !fmap_app, fmap_cons.
      rewrite !NoDup_app, NoDup_cons. intros (Hpre & Hdisj & _ & Hd).
      split_and!; [done| |done].
      intros x Hx Hxd. apply (Hdisj x Hx). by right.
    + revert Hwf. unfold dict_wf. rewrite fmap_app, fmap_cons.
      rewrite NoDup_app. intros (_ & Hdisj & _) Hk.
      apply (Hdisj k Hk). by left.
  - rewrite decide_True by done.
    rewrite (cons_middle (k, v) pre (filter _ d)), app_assoc.
    rewrite <- IH; [by rewrite <- app_assoc|].
    by rewrite <- app_assoc.
Qed.

Lemma insert_by_rssi_perm x (l : dict) : insert_by_rssi x l ≡ₚ x :: l.
Proof.
  induction l as [|y l IH]; simpl; [done|].
  destruct (_ >? _); [|done]. rewrite IH. apply Permutation_swap.
Qed.

Lemma snapshot_perm d : snapshot d ≡ₚ d.
Proof.
  unfold snapshot, sorted_by_rssi. induction d as [|x d IH]; simpl; [done|].
  by rewrite insert_by_rssi_perm, IH.
Qed.

Lemma filter_wf (P : string * AirTagDevice → Prop)
    `{!∀ x, Decision (P x)} d : dict_wf d → dict_wf (filter P d).
Proof.
  unfold dict_wf. intros Hnd.
  apply (sublist_NoDup (filter P d).*1 d.*1); [exact Hnd|].
  apply fmap_sublist, sublist_filter.
Qed.

Lemma dict_get_filter (Q : string * AirTagDevice → Prop)
    `{!∀ x, Decision (Q x)} d a dev :
  dict_wf d → dict_get a d = Some dev →
  dict_get a (filter Q d) = if decide (Q (a, dev)) then Some dev else None.
Proof.
  unfold dict_wf. induction d as [|[k v] d IH]; [done|].
  rewrite fmap_cons, NoDup_cons. intros [Hk Hnd]. cbn [dict_get].
  rewrite filter_cons. case_bool_decide as Hka.
  - intros [= ->]. cbn [fst] in Hk. subst k.
    destruct (decide (Q (a, dev))).
    + cbn [dict_get]. by rewrite bool_decide_eq_true_2.
    + apply dict_get_None. intros Hin. apply Hk.
      eapply elem_of_sublist; [exact Hin|].
      apply fmap_sublist, sublist_filter.
  - intros Hget. destruct (decide (Q (k, v))); [|by apply IH].
    cbn [dict_get]. rewrite bool_decide_eq_false_2 by done. by apply IH.
Qed.
End registry.

(** C2: ingesting a detection for an address already in the registry sets
    the trend to Rising, Falling or Stable as the new rssi is greater than,
    less than or equal to the stored one and adds exactly 1 to the count;
    for an absent address it inserts an entry with count 1 and trend
    Stable; other addresses are untouched. Hence rssi -70, -60, -60, -80 on
    one fresh address give Stable, Rising, Stable, Falling with counts
    1, 2, 3, 4. *)
Theorem ingest_trend_and_count :
  (∀ (d : PyTag.dict) a r dist det now,
      ∃ dev, PyTag.dict_get a (PyTag.ingest d a r dist det now) = Some dev
        ∧ PyTag.address dev = a ∧ PyTag.rssi dev = r
        ∧ PyTag.distance dev = dist ∧ PyTag.details dev = det
        ∧ PyTag.last_seen dev = now
        ∧ match PyTag.dict_get a d with
          | Some old =>
              PyTag.count dev = PyTag.count old + 1
              ∧ (r > PyTag.rssi old → PyTag.trend dev = PyTag.Rising)
              ∧ (r < PyTag.rssi old → PyTag.trend dev = PyTag.Falling)
              ∧ (r = PyTag.rssi old → PyTag.trend dev = PyTag.Stable)
          | None => PyTag.count dev = 1 ∧ PyTag.trend dev = PyTag.Stable
          end)
  ∧ (∀ (d : PyTag.dict) a r dist det now a',
      a ≠ a' →
      PyTag.dict_get a' (PyTag.ingest d a r dist det now) = PyTag.dict_get a' d)
  ∧ (∀ (d : PyTag.dict) a x1 x2 x3 x4 s1 s2 s3 s4 t1 t2 t3 t4,
      PyTag.dict_get a d = None →
      let d1 := PyTag.ingest d a (-70) x1 s1 t1 in
      let d2 := PyTag.ingest d1 a (-60) x2 s2 t2 in
      let d3 := PyTag.ingest d2 a (-60) x3 s3 t3 in
      let d4 := PyTag.ingest d3 a (-80) x4 s4 t4 in
      fmap (M:=list) (fmap (M:=option)
                        (λ dev, (PyTag.trend dev, PyTag.count dev)))
        [PyTag.dict_get a d1; PyTag.dict_get a d2;
         PyTag.dict_get a d3; PyTag.dict_get a d4]
      = [Some (PyTag.Stable, 1); Some (PyTag.Rising, 2);
         Some (PyTag.Stable, 3); Some (PyTag.Falling, 4)]).
Proof.
  split_and!.
  - intros d a r dist det now. unfold PyTag.ingest.
    destruct (PyTag.dict_get a d) as [old|] eqn:E;
      rewrite dict_get_set_eq; eexists; (split; [reflexivity|]); cbn.
    + split_and!; try done.
      * intros Hgt. apply Z.gtb_gt in Hgt. by rewrite Hgt.
      * intros Hlt. rewrite (proj2 (Z.ltb_lt _ _) Hlt).
        destruct (r >? PyTag.rssi old) eqn:Hgt; [|done].
        apply Z.gtb_gt in Hgt. lia.
      * intros ->. by rewrite Z.gtb_ltb, Z.ltb_irrefl.
    + done.
  - intros d a r dist det now a' Hne. unfold PyTag.ingest.
    destruct (PyTag.dict_get a d); by apply dict_get_set_ne.
  - intros d a x1 x2 x3 x4 s1 s2 s3 s4 t1 t2 t3 t4 E. cbn zeta.
    rewrite !ingest_get_eq, E. reflexivity.
Qed.

(** The four ingests of C2 on an empty registry. *)
Lemma ingest_trend_and_count_witness :
  let z := S754_zero false in
  let d1 := PyTag.ingest [] "C0:02" (-70) z "" 0 in
  let d2 := PyTag.ingest d1 "C0:02" (-60) z "" 1 in
  let d3 := PyTag.ingest d2 "C0:02" (-60) z "" 2 in
  let d4 := PyTag.ingest d3 "C0:02" (-80) z "" 3 in
  fmap (M:=list) (fmap (M:=option)
                    (λ dev, (PyTag.trend dev, PyTag.count dev)))
    [PyTag.dict_get "C0:02" d1; PyTag.dict_get "C0:02" d2;
     PyTag.dict_get "C0:02" d3; PyTag.dict_get "C0:02" d4]
  = [Some (PyTag.Stable, 1); Some (PyTag.Rising, 2);
     Some (PyTag.Stable, 3); Some (PyTag.Falling, 4)].
Proof.
  apply (proj2 (proj2 ingest_trend_and_count) [] "C0:02"). reflexivity.
Defined.

Section eviction.
Import PyTag.

(** An [int] of seconds is a timedelta of a million times as many
    microseconds, within 999999999 days either way. *)
Lemma timedelta_int n :
  timedelta (PyInt n)
  = if (-86399999913600 <=? n) && (n <=? 86399999999999)
    then Ok (n * 1000000) else Raise OverflowError.
Proof.
  unfold timedelta, timedelta_of_microseconds.
  cbn [mbind result_bind]. cbn zeta.
  replace ((n * 1000000) `div` (86400 * 1000000)) with (n `div` 86400)
    by (symmetry; apply Z.div_mul_cancel_r; lia).
  pose proof (Z.div_mod n 86400 ltac:(lia)) as Hdm.
  pose proof (Z.mod_pos_bound n 86400 ltac:(lia)) as Hmod.
  destruct (Z.leb_spec (-999999999) (n `div` 86400)),
           (Z.leb_spec (n `div` 86400) 999999999),
           (Z.leb_spec (-86399999913600) n),
           (Z.leb_spec n 86399999999999); cbn [andb]; try done; lia.
Qed.

(** A float without a fractional part is taken as the integer it is. *)
Lemma timedelta_integral_float s m e :
  0 ≤ e →
  timedelta (PyFloat (S754_finite s m e))
  = timedelta (PyInt (if s then - (Zpos m * 2 ^ e) else Zpos m * 2 ^ e)).
Proof.
  intros He. unfold timedelta. cbn [mbind result_bind int_of_float float_fracpart].
  rewrite (proj2 (Z.leb_le 0 e) He).
  change (float_of_int 1000000)
    with (Ok (S754_finite false 8589934592000000 (-33))).
  cbn [mbind result_bind].
  replace (round_half_even _) with 0; [by rewrite Z.add_0_r|].
  by destruct s.
Qed.

Lemma timedelta_raises seconds e :
  timedelta seconds = Raise e →
  e = OverflowError ∨ e = ValueError ∧ seconds = PyFloat S754_nan.
Proof.
  unfold timedelta, timedelta_of_microseconds.
  destruct seconds as [n|x]; cbn [mbind result_bind]; cbn zeta.
  - destruct (_ && _); [done|]. intros [= <-]. by left.
  - destruct x as [s|s| |s m ex]; cbn [int_of_float mbind result_bind].
    + change (float_of_int 1000000)
        with (Ok (S754_finite false 8589934592000000 (-33))).
      cbn [mbind result_bind].
      destruct (_ && _); [done|]. intros [= <-]. by left.
    + intros [= <-]. by left.
    + intros [= <-]. by right.
    + change (float_of_int 1000000)
        with (Ok (S754_finite false 8589934592000000 (-33))).
      cbn [mbind result_bind].
      destruct (_ && _); [done|]. intros [= <-]. by left.
Qed.

(** What a clean-up does on a registry with one entry per address. *)
Lemma cleanup_outcome (d : dict) timeout now :
  dict_wf d →
  cleanup_stale_devices d timeout now
  = match timedelta timeout with
    | Ok delta =>
        if (0 <=? now - delta) && (now - delta <=? 315537897599999999)
        then Ok (filter (λ item, ¬ (last_seen item.2 < now - delta)) d)
        else Raise OverflowError
    | Raise e => Raise e
    end.
Proof.
  intros Hwf. unfold cleanup_stale_devices.
  destruct (timedelta timeout) as [delta|e]; cbn [mbind result_bind]; [|done].
  unfold datetime_sub. cbn zeta.
  change datetime_max with 315537897599999999.
  destruct (_ && _); cbn [mbind result_bind]; [|done].
  apply (cleanup_fold _ [] d Hwf).
Qed.

Lemma cleanup_raises (d : dict) timeout now e :
  dict_wf d → cleanup_stale_devices d timeout now = Raise e →
  e = OverflowError ∨ e = ValueError ∧ timeout = PyFloat S754_nan.
Proof.
  intros Hwf. rewrite (cleanup_outcome d timeout now Hwf).
  destruct (timedelta timeout) as [delta|e'] eqn:Htd.
  - destruct (_ && _); [done|]. intros [= <-]. by left.
  - intros [= <-]. by apply timedelta_raises in Htd.
Qed.

Lemma cleanup_ok (d d' : dict) timeout now :
  dict_wf d → cleanup_stale_devices d timeout now = Ok d' →
  ∃ delta, timedelta timeout = Ok delta
    ∧ 0 ≤ now - delta ≤ 315537897599999999
    ∧ d' = filter (λ item, ¬ (last_seen item.2 < now - delta)) d.
Proof.
  intros Hwf. rewrite (cleanup_outcome d timeout now Hwf).
  destruct (timedelta timeout) as [delta|e']; [|done].
  destruct (_ && _) eqn:Hrange; [|done]. intros [= <-].
  apply andb_prop in Hrange as [?%Z.leb_le ?%Z.leb_le]. by exists delta.
Qed.
End eviction.

(** C4 (amended): on a registry with one entry per address,
    [cleanup_stale_devices] run at time [now] with a timeout whose length
    is a timedelta and whose threshold, [now] minus that length, is a
    datetime, keeps exactly the entries whose [last_seen] is not older than
    the threshold, unchanged and in their order; so the next snapshot holds
    an entry if and only if it was in the registry and is within the
    window. A timeout of [n] whole seconds has the length of [1000000 * n]
    microseconds. With any other timeout the method raises before it looks
    at an entry: [OverflowError], or [ValueError] for a NaN. *)
Theorem cleanup_stale_devices_spec (d : PyTag.dict) (timeout : number) (now : Z) :
  PyTag.dict_wf d →
  (∀ n, timeout = PyInt n →
     PyTag.cleanup_stale_devices d timeout now
     = if (-86399999913600 <=? n) && (n <=? 86399999999999)
          && (0 <=? now - 1000000 * n)
          && (now - 1000000 * n <=? 315537897599999999)
       then Ok (filter (λ item, ¬ (PyTag.last_seen item.2
                                   < now - 1000000 * n)) d)
       else Raise OverflowError)
  ∧ (∀ delta, timedelta timeout = Ok delta →
       0 ≤ now - delta ≤ 315537897599999999 →
       ∃ d', PyTag.cleanup_stale_devices d timeout now = Ok d'
         ∧ d' = filter (λ item, ¬ (PyTag.last_seen item.2 < now - delta)) d
         ∧ PyTag.dict_wf d'
         ∧ (∀ item, item ∈ PyTag.snapshot d' ↔
              item ∈ d ∧ ¬ (PyTag.last_seen item.2 < now - delta))
         ∧ (∀ a dev, PyTag.dict_get a d = Some dev →
              PyTag.dict_get a d' =
                if decide (PyTag.last_seen dev < now - delta)
                then None else Some dev))
  ∧ (∀ delta, timedelta timeout = Ok delta →
       ¬ (0 ≤ now - delta ≤ 315537897599999999) →
       PyTag.cleanup_stale_devices d timeout now = Raise OverflowError)
  ∧ (∀ e, timedelta timeout = Raise e →
       PyTag.cleanup_stale_devices d timeout now = Raise e
       ∧ (e = OverflowError ∨ e = ValueError ∧ timeout = PyFloat S754_nan))
  ∧ (∀ n, timedelta (PyInt n)
          = if (-86399999913600 <=? n) && (n <=? 86399999999999)
            then Ok (n * 1000000) else Raise OverflowError)
  ∧ (∀ s m e, 0 ≤ e →
       timedelta (PyFloat (S754_finite s m e))
       = timedelta (PyInt (if s then - (Zpos m * 2 ^ e) else Zpos m * 2 ^ e)))
  ∧ timedelta (PyFloat (S754_finite false 121 (-1))) = Ok 60500000.
Proof.
  intros Hwf.
  pose proof (cleanup_outcome d timeout now Hwf) as Hout.
  split_and!.
  - intros n ->. rewrite Hout, timedelta_int.
    replace (n * 1000000) with (1000000 * n) by lia.
    destruct (_ <=? n), (n <=? _); cbn [andb]; try done.
  - intros delta Htd Hrange. rewrite Htd in Hout.
    rewrite (proj2 (Z.leb_le _ _) (proj1 Hrange)) in Hout.
    rewrite (proj2 (Z.leb_le _ _) (proj2 Hrange)) in Hout.
    eexists. split; [exact Hout|]. split; [done|].
    split; [by apply filter_wf|]. split.
    + intros item. rewrite snapshot_perm, list_elem_of_filter. tauto.
    + intros a dev Hget. rewrite (dict_get_filter _ d a dev Hwf Hget).
      cbn [snd]. repeat case_decide; tauto.
  - intros delta Htd Hrange. rewrite Htd in Hout. rewrite Hout.
    destruct (0 <=? now - delta) eqn:Hlo,
             (now - delta <=? 315537897599999999) eqn:Hhi; try done.
    apply Z.leb_le in Hlo, Hhi. by destruct Hrange.
  - intros e Htd. rewrite Htd in Hout. split; [done|].
    by apply timedelta_raises in Htd.
  - apply timedelta_int.
  - apply timedelta_integral_float.
  - by vm_compute.
Qed.

(** At midnight of 2026-01-01, with a timeout of 60 s: a tag last seen 61 s
    before is evicted, one last seen exactly 60 s before and a fresh one
    stay. *)
Lemma cleanup_stale_devices_witness :
  let now := 63902822400000000 in
  let z := S754_zero false in
  let d := PyTag.ingest
             (PyTag.ingest (PyTag.ingest [] "old" (-70) z "" (now - 61000000))
                "edge" (-60) z "" (now - 60000000))
             "new" (-50) z "" now in
  ∃ d', PyTag.cleanup_stale_devices d (PyInt 60) now = Ok d'
        ∧ PyTag.dict_get "old" d' = None
        ∧ PyTag.address <$> PyTag.dict_get "edge" d' = Some "edge"
        ∧ PyTag.address <$> PyTag.dict_get "new" d' = Some "new".
Proof.
  cbn zeta.
  pose proof (proj1 (cleanup_stale_devices_spec
              (PyTag.ingest
                 (PyTag.ingest
                    (PyTag.ingest [] "old" (-70) (S754_zero false) ""
                       (63902822400000000 - 61000000))
                    "edge" (-60) (S754_zero false) ""
                    (63902822400000000 - 60000000))
                 "new" (-50) (S754_zero false) "" 63902822400000000)
              (PyInt 60) 63902822400000000
              ltac:(repeat apply ingest_wf; apply NoDup_nil_2))
            60 eq_refl) as Hrun.
  eexists. split; [exact Hrun|]. split_and!; vm_compute; reflexivity.
Defined.

(** C4, counterexample: the claim speaks of every timeout, yet at midnight
    of 2026-01-01 a timeout of 10^11 s makes the method raise instead of
    returning, and so does a timeout of -10^13 s, which leaves in the
    registry a tag that is older than [now] minus the timeout. *)
Lemma cleanup_out_of_range_counterexample :
  let now := 63902822400000000 in
  let d := PyTag.ingest [] "C0:02" (-70) (S754_zero false) "" now in
  PyTag.cleanup_stale_devices d (PyInt (10 ^ 11)) now = Raise OverflowError
  ∧ PyTag.cleanup_stale_devices d (PyInt (- 10 ^ 13)) now = Raise OverflowError
  ∧ ∃ dev, PyTag.dict_get "C0:02" d = Some dev
      ∧ PyTag.last_seen dev < now - 1000000 * (- 10 ^ 13).
Proof.
  cbn zeta. split_and!; [by vm_compute|by vm_compute|].
  eexists. split; [reflexivity|]. by vm_compute.
Qed.


(** ** Scan-line parser *)

Section parser.
Import Wss.

(** What a line that parses into a record tells about its fields. *)
Lemma parse_inv line r :
  _parse_nmcli_line_robust line = Ok (Some r) →
  let parts := split ":" line in
  (8 ≤ length parts)%nat
  ∧ Parsed.ssid r = strip (default "" (parts !! 0%nat))
  ∧ Parsed.security r = strip (default "" (parts !! 1%nat))
  ∧ (let signal_str := strip (default "" (parts !! 2%nat)) in
     if isdigit signal_str then py_int signal_str = Ok (Parsed.signal r)
     else Parsed.signal r = 0)
  ∧ _parse_frequency (strip (default "" (parts !! 3%nat)))
    = Ok (Parsed.frequency r)
  ∧ Parsed.bssid r = _validate_bssid (join ":" (slice parts 4 10))
  ∧ _parse_channel (default "" (parts !! 10%nat)) (Parsed.frequency r)
    = Ok (Parsed.channel r).
Proof.
  unfold _parse_nmcli_line_robust.
  destruct (is_empty (strip line)); [done|].
  cbn zeta. destruct (length (split ":" line) <? 8)%nat eqn:Hlen; [done|].
  apply Nat.ltb_ge in Hlen. generalize dependent (split ":" line).
  intros parts Hlen.
  assert (Hget : ∀ i, match getitem parts i with
                      | Ok p => default "" (parts !! i) = p
                      | Raise e => e = IndexError
                      end).
  { intros i. unfold getitem. by destruct (parts !! i). }
  pose proof (Hget 0%nat) as H0. pose proof (Hget 1%nat) as H1.
  pose proof (Hget 2%nat) as H2. pose proof (Hget 3%nat) as H3.
  pose proof (Hget 10%nat) as H10. clear Hget.
  destruct (getitem parts 0) as [p0|e]; [|by subst e].
  destruct (getitem parts 1) as [p1|e]; [|by subst e].
  destruct (getitem parts 2) as [p2|e]; [|by subst e].
  destruct (getitem parts 3) as [p3|e]; [|by subst e].
  cbn [fmap result_fmap mbind result_bind]. rewrite H0, H1, H2, H3.
  assert (Hch : match (if (10 <? length parts)%nat
                       then getitem parts 10 else Ok "") with
                | Ok s => default "" (parts !! 10%nat) = s
                | Raise e => e = IndexError
                end).
  { destruct (10 <? length parts)%nat eqn:Hlt; [done|].
    apply Nat.ltb_ge in Hlt. by rewrite (lookup_ge_None_2 parts 10). }
  destruct (if (10 <? length parts)%nat then _ else _) as [channel_str|e];
    [|by subst e].
  rewrite Hch. clear H0 H1 H2 H3 H10 Hch. cbn [mbind result_bind].
  assert (Hsig : match (if isdigit (strip p2) then py_int (strip p2) else Ok 0) with
                 | Ok v => if isdigit (strip p2) then py_int (strip p2) = Ok v
                           else v = 0
                 | Raise _ => True
                 end).
  { destruct (isdigit (strip p2)); [by destruct (py_int _)|done]. }
  destruct (if isdigit (strip p2) then _ else _) as [sig|e];
    cbn [mbind result_bind]; [|by destruct e].
  destruct (_parse_frequency (strip p3)) as [freq|e] eqn:Hfreq;
    cbn [mbind result_bind]; [|by destruct e].
  destruct (_parse_channel channel_str freq) as [ch|e] eqn:Hchan;
    cbn [mbind result_bind try_except]; [|by destruct e].
  intros [= <-]. cbn. by split_and!.
Qed.

(** A record of the scan loop carries the fields of the parsed line. *)
Lemma scan_line_inv rssi_data now line n :
  scan_line rssi_data now line = Ok (Some n) →
  ∃ r, _parse_nmcli_line_robust line = Ok (Some r)
    ∧ Parsed.ssid r ≠ ""
    ∧ ssid n = Parsed.ssid r ∧ security n = Parsed.security r
    ∧ signal n = Parsed.signal r ∧ frequency n = Parsed.frequency r
    ∧ band n = band_of_frequency (Parsed.frequency r)
    ∧ channel n = Parsed.channel r ∧ bssid n = Parsed.bssid r
    ∧ rssi n = rssi_data !! Parsed.ssid r
    ∧ timestamp n = Some now.
Proof.
  unfold scan_line.
  destruct (_parse_nmcli_line_robust line) as [[r|]|e];
    cbn [mbind result_bind]; [|done|done].
  destruct (is_empty (Parsed.ssid r)) eqn:Hssid; [done|].
  intros [= <-]. exists r. split_and!; try done.
  intros Heq. by rewrite Heq in Hssid.
Qed.

Lemma sample_line_record rssi_data now :
  scan_line rssi_data now "MyNet:WPA2:75:2437:AA:BB:CC:DD:EE:FF:6"
  = Ok (Some {| ssid := "MyNet"; security := "WPA2";
                signal := 75; frequency := 2437;
                band := "2.4GHz"; channel := Some 6;
                bssid := Some "AA:BB:CC:DD:EE:FF";
                rssi := rssi_data !! "MyNet";
                timestamp := Some now |}).
Proof.
  unfold scan_line.
  replace (_parse_nmcli_line_robust _) with
    (Ok (Some {| Parsed.ssid := "MyNet"; Parsed.security := "WPA2";
                 Parsed.signal := 75; Parsed.frequency := 2437;
                 Parsed.bssid := Some "AA:BB:CC:DD:EE:FF";
                 Parsed.channel := Some 6 |})) by by vm_compute.
  reflexivity.
Qed.

Lemma scan_line_raises rssi_data now line e :
  scan_line rssi_data now line = Raise e ↔
  _parse_nmcli_line_robust line = Raise e.
Proof.
  unfold scan_line.
  destruct (_parse_nmcli_line_robust line) as [[r|]|e'];
    cbn [mbind result_bind]; [|done|split; congruence].
  by destruct (is_empty _).
Qed.

Lemma scan_lines_cons_raise rssi_data clock i line lines e :
  _parse_nmcli_line_robust line = Raise e →
  scan_lines rssi_data clock i (line :: lines) = Raise e.
Proof.
  intros Hparse%(scan_line_raises rssi_data (clock i)).
  cbn [scan_lines]. by rewrite Hparse.
Qed.

Lemma scan_lines_cons_ok rssi_data clock i line lines r e :
  scan_line rssi_data (clock i) line = Ok r →
  scan_lines rssi_data clock (S i) lines = Raise e →
  scan_lines rssi_data clock i (line :: lines) = Raise e.
Proof. intros Hline Hrest. cbn [scan_lines]. by rewrite Hline, Hrest. Qed.

Lemma scan_networks_raise discovered rssi_data clock output e :
  scan_lines rssi_data clock 0 (split "010" (strip output)) = Raise e →
  scan_networks discovered rssi_data clock true output = Raise e.
Proof. intros Hlines. unfold scan_networks. by rewrite Hlines. Qed.

Lemma parse_few_fields line :
  (length (split ":" line) < 8)%nat → _parse_nmcli_line_robust line = Ok None.
Proof.
  intros Hlen. unfold _parse_nmcli_line_robust.
  destruct (is_empty (strip line)); [done|]. cbn zeta.
  by rewrite (proj2 (Nat.ltb_lt _ _) Hlen).
Qed.
End parser.

(** C5: the sample line parses into ssid MyNet, security WPA2, signal 75,
    frequency 2437, bssid AA:BB:CC:DD:EE:FF and channel 6, and the scan loop
    makes a record of it; a line that splits into fewer than 8 fields gives
    no record; and the scan loop gives no record for a line whose first
    field is empty after trimming. *)
Theorem scan_line_parser_spec :
  Wss._parse_nmcli_line_robust "MyNet:WPA2:75:2437:AA:BB:CC:DD:EE:FF:6"
  = Ok (Some {| Wss.Parsed.ssid := "MyNet"; Wss.Parsed.security := "WPA2";
                Wss.Parsed.signal := 75; Wss.Parsed.frequency := 2437;
                Wss.Parsed.bssid := Some "AA:BB:CC:DD:EE:FF";
                Wss.Parsed.channel := Some 6 |})
  ∧ (∀ rssi_data now,
      Wss.scan_line rssi_data now "MyNet:WPA2:75:2437:AA:BB:CC:DD:EE:FF:6"
      = Ok (Some {| Wss.ssid := "MyNet"; Wss.security := "WPA2";
                    Wss.signal := 75; Wss.frequency := 2437;
                    Wss.band := "2.4GHz"; Wss.channel := Some 6;
                    Wss.bssid := Some "AA:BB:CC:DD:EE:FF";
                    Wss.rssi := rssi_data !! "MyNet";
                    Wss.timestamp := Some now |}))
  ∧ (∀ rssi_data now line,
      (length (split ":" line) < 8)%nat →
      Wss._parse_nmcli_line_robust line = Ok None
      ∧ Wss.scan_line rssi_data now line = Ok None)
  ∧ (length (split ":" "a:b:c:d:e") = 5%nat
     ∧ Wss._parse_nmcli_line_robust "a:b:c:d:e" = Ok None)
  ∧ (∀ rssi_data now line n,
      strip (default "" (split ":" line !! 0%nat)) = "" →
      Wss.scan_line rssi_data now line ≠ Ok (Some n)).
Proof.
  split_and!.
  - by vm_compute.
  - apply sample_line_record.
  - intros rssi_data now line Hlen.
    unfold Wss.scan_line. by rewrite (parse_few_fields line Hlen).
  - by vm_compute.
  - by vm_compute.
  - intros rssi_data now line n Hempty Hscan.
    apply scan_line_inv in Hscan as (r & Hparse & Hssid & _).
    apply parse_inv in Hparse as (_ & Hr & _). congruence.
Qed.

(** A line of three fields. *)
Lemma scan_line_parser_witness :
  Wss._parse_nmcli_line_robust "a:b:c" = Ok None
  ∧ Wss.scan_line ∅ "" "a:b:c" = Ok None.
Proof.
  apply (proj1 (proj2 (proj2 scan_line_parser_spec)) ∅ "" "a:b:c").
  vm_compute. lia.
Defined.

(** ** Band and channel *)

Ltac Zbool :=
  rewrite ?Z.gtb_ltb, ?Z.geb_leb in *;
  repeat match goal with
    | H : (_ <=? _) = true |- _ => apply Z.leb_le in H
    | H : (_ <=? _) = false |- _ => apply Z.leb_gt in H
    | H : (_ <? _) = true |- _ => apply Z.ltb_lt in H
    | H : (_ <? _) = false |- _ => apply Z.ltb_ge in H
    | H : (_ =? _) = true |- _ => apply Z.eqb_eq in H
    | H : (_ =? _) = false |- _ => apply Z.eqb_neq in H
    end.

Lemma freq_to_chan_5g_lookup (f c : Z) :
  Wss.freq_to_chan_5g !! f = Some c ↔ c ∈ Wss.channels_5g ∧ f = 5000 + 5 * c.
Proof.
  unfold Wss.freq_to_chan_5g. rewrite <- elem_of_list_to_map.
  - unfold Wss.channels_5g. rewrite !elem_of_cons, !elem_of_nil. split.
    + intros H. repeat (destruct H as [[= -> ->]|H]; [split; [tauto|lia]|]).
      done.
    + intros [H ->].
      repeat (destruct H as [->|H]; [cbn; tauto|]). done.
  - apply (bool_decide_unpack _). by vm_compute.
Qed.

(** C7, counterexample: at exactly 6000 MHz the band is "5GHz", so "6GHz
    for every frequency >= 6000" fails. *)
Lemma band_6000_counterexample :
  ¬ (∀ f : Z, f >= 6000 → Wss.band_of_frequency f = "6GHz").
Proof. intros H. specialize (H 6000 ltac:(lia)). by vm_compute in H. Qed.

(** C7, amended: the band is "2.4GHz" for 2400..2500, "5GHz" for 5000..6000
    (6000 included), "6GHz" above 6000 and "Unknown" otherwise; the channel
    derived from a frequency is (f - 2412) / 5 + 1 for 2412 <= f < 2484, 14
    at 2484, the table entry (channel c at 5000 + 5c) for 5000..6000, and
    absent elsewhere. *)
Theorem band_and_channel_spec :
  (∀ f : Z,
      (2400 ≤ f ≤ 2500 → Wss.band_of_frequency f = "2.4GHz")
      ∧ (5000 ≤ f ≤ 6000 → Wss.band_of_frequency f = "5GHz")
      ∧ (6000 < f → Wss.band_of_frequency f = "6GHz")
      ∧ (f < 2400 ∨ 2500 < f < 5000 → Wss.band_of_frequency f = "Unknown"))
  ∧ (∀ f : Z,
      (2412 ≤ f < 2484 →
         Wss._frequency_to_channel f = Some ((f - 2412) / 5 + 1))
      ∧ (f = 2484 → Wss._frequency_to_channel f = Some 14)
      ∧ (5000 ≤ f ≤ 6000 →
         ∀ c, Wss._frequency_to_channel f = Some c
              ↔ c ∈ Wss.channels_5g ∧ f = 5000 + 5 * c)
      ∧ (f < 2412 ∨ 2484 < f < 5000 ∨ 6000 < f →
         Wss._frequency_to_channel f = None))
  ∧ Wss.band_of_frequency 0 = "Unknown"
  ∧ (Wss.band_of_frequency 2437 = "2.4GHz"
     ∧ Wss._frequency_to_channel 2437 = Some 6)
  ∧ (Wss.band_of_frequency 5180 = "5GHz"
     ∧ Wss._frequency_to_channel 5180 = Some 36)
  ∧ Wss._frequency_to_channel 2484 = Some 14.
Proof.
  split; [|split; [|by vm_compute]].
  - intros f. unfold Wss.band_of_frequency.
    destruct (f =? 0) eqn:?, (f >? 0) eqn:?, (2400 <=? f) eqn:?,
      (f <=? 2500) eqn:?, (5000 <=? f) eqn:?, (f <=? 6000) eqn:?,
      (f >=? 6000) eqn:?; Zbool; cbn; split_and!; intros; (done || lia).
  - intros f. unfold Wss._frequency_to_channel.
    destruct (2412 <=? f) eqn:?, (f <=? 2484) eqn:?, (f =? 2484) eqn:?,
      (5000 <=? f) eqn:?, (f <=? 6000) eqn:?; Zbool; cbn;
      split_and!; intros; try (done || lia);
      apply freq_to_chan_5g_lookup.
Qed.

(** The boundary frequency 6000. *)
Lemma band_and_channel_witness :
  Wss.band_of_frequency 6000 = "5GHz".
Proof.
  apply (proj1 (proj2 (proj1 band_and_channel_spec 6000))). lia.
Defined.

(** ** Exceptions of the numeric conversions *)

Section conversions.

Lemma py_int_raises s e : py_int s = Raise e → e = ValueError.
Proof.
  unfold py_int. destruct (split_sign _) as [negative body].
  destruct (int_literal body) as [[v n]|]; [|by intros [= <-]].
  destruct (int_max_str_digits <? n)%nat; [by intros [= <-]|done].
Qed.

Lemma py_float_raises s e : py_float s = Raise e → e = ValueError.
Proof.
  unfold py_float. destruct (remove_underscores _ _); [|by intros [= <-]].
  destruct (float_literal _); [done|by intros [= <-]].
Qed.

Lemma int_of_float_raises x e :
  int_of_float x = Raise e → e = OverflowError ∨ e = ValueError.
Proof. destruct x; cbn; intros [= <-]; auto. Qed.

Lemma int_of_float_overflow x :
  int_of_float x = Raise OverflowError ↔ ∃ s, x = S754_infinity s.
Proof.
  destruct x; cbn; split; try done; try (by intros [? [=]]); eauto.
Qed.

(** [_parse_frequency] lets through exactly the [OverflowError] of
    [int(float(...) * 1000)]. *)
Lemma _parse_frequency_raises s e :
  Wss._parse_frequency s = Raise e → e = OverflowError.
Proof.
  unfold Wss._parse_frequency. destruct (is_empty s); [done|].
  cbn zeta. destruct (contains _ _).
  - destruct (py_float _) as [x|e'] eqn:Hx; cbn [mbind result_bind].
    + change (float_of_int 1000) with
        (Ok (S754_finite false 8796093022208000 (-43))).
      cbn [mbind result_bind].
      destruct (int_of_float _) as [z|e'] eqn:Hz; [done|].
      apply int_of_float_raises in Hz as [->| ->]; cbn; [by intros [= <-]|done].
    + apply py_float_raises in Hx as ->. done.
  - destruct (py_int _) as [z|e'] eqn:Hz; [done|].
    apply py_int_raises in Hz as ->. done.
Qed.

Lemma _parse_channel_raises s f e :
  Wss._parse_channel s f = Raise e → e = ValueError.
Proof.
  unfold Wss._parse_channel. destruct (_ && _).
  - destruct (py_int s) as [z|e'] eqn:Hz; [done|].
    apply py_int_raises in Hz as ->. by intros [= <-].
  - by destruct (f >? 0).
Qed.

(** Whatever the line, the parser returns a record, returns [None], or
    raises [OverflowError]; the latter only out of [_parse_frequency]. *)
Lemma _parse_nmcli_line_robust_raises line e :
  Wss._parse_nmcli_line_robust line = Raise e →
  e = OverflowError
  ∧ Wss._parse_frequency (strip (default "" (split ":" line !! 3%nat)))
    = Raise OverflowError.
Proof.
  unfold Wss._parse_nmcli_line_robust.
  destruct (is_empty (strip line)); [done|]. cbn zeta.
  destruct (length (split ":" line) <? 8)%nat; [done|].
  generalize (split ":" line). intros parts.
  assert (Hget : ∀ i, match getitem parts i with
                      | Ok p => default "" (parts !! i) = p
                      | Raise e => e = IndexError
                      end).
  { intros i. unfold getitem. by destruct (parts !! i). }
  pose proof (Hget 0%nat) as H0. pose proof (Hget 1%nat) as H1.
  pose proof (Hget 2%nat) as H2. pose proof (Hget 3%nat) as H3.
  pose proof (Hget 10%nat) as H10. clear Hget.
  destruct (getitem parts 0) as [p0|e0]; [|by subst e0].
  destruct (getitem parts 1) as [p1|e0]; [|by subst e0].
  destruct (getitem parts 2) as [p2|e0]; [|by subst e0].
  destruct (getitem parts 3) as [p3|e0]; [|by subst e0].
  cbn [fmap result_fmap mbind result_bind]. rewrite H3.
  assert (Hch : match (if (10 <? length parts)%nat
                       then getitem parts 10 else Ok "") with
                | Ok s => True
                | Raise e => e = IndexError
                end).
  { destruct (10 <? length parts)%nat; [by destruct (getitem parts 10)|done]. }
  destruct (if (10 <? length parts)%nat then _ else _) as [channel_str|e0];
    [|by subst e0].
  cbn [mbind result_bind].
  assert (Hsig : match (if isdigit (strip p2) then py_int (strip p2) else Ok 0) with
                 | Ok v => True
                 | Raise e => e = ValueError
                 end).
  { destruct (isdigit (strip p2)); [|done].
    destruct (py_int _) eqn:Hi; [done|]. by apply py_int_raises in Hi. }
  destruct (if isdigit (strip p2) then _ else _) as [sig|e0];
    cbn [mbind result_bind]; [|by subst e0].
  destruct (Wss._parse_frequency (strip p3)) as [freq|e0] eqn:Hfreq;
    cbn [mbind result_bind].
  - destruct (Wss._parse_channel channel_str freq) as [ch|e0] eqn:Hchan;
      cbn [mbind result_bind try_except]; [done|].
    apply _parse_channel_raises in Hchan as ->. done.
  - apply _parse_frequency_raises in Hfreq as ->. cbn. by intros [= <-].
Qed.
End conversions.

(** C6: a frequency field that is a decimal literal beyond the range of a
    float makes [int(float(...) * 1000)] raise [OverflowError], which neither
    [_parse_frequency] nor [_parse_nmcli_line_robust] catches: the exception
    leaves the per-line parse and ends the scan of the whole batch, the
    well-formed line before it included. *)
Theorem parse_line_overflow_escapes :
  Wss._parse_nmcli_line_robust "Net:WPA2:75:1.0e999:AA:BB:CC:DD:EE:FF:6"
  = Raise OverflowError
  ∧ (∀ rssi_data clock,
       Wss.scan_lines rssi_data clock 0
         ["MyNet:WPA2:75:2437:AA:BB:CC:DD:EE:FF:6";
          "Net:WPA2:75:1.0e999:AA:BB:CC:DD:EE:FF:6";
          "Other:WPA2:60:5180:11:22:33:44:55:66:36"]
       = Raise OverflowError)
  ∧ (∀ discovered rssi_data clock,
       Wss.scan_networks discovered rssi_data clock true
         ("MyNet:WPA2:75:2437:AA:BB:CC:DD:EE:FF:6" +:+ String "010"
          "Net:WPA2:75:1.0e999:AA:BB:CC:DD:EE:FF:6")
       = Raise OverflowError).
Proof.
  assert (Hbad : Wss._parse_nmcli_line_robust
                   "Net:WPA2:75:1.0e999:AA:BB:CC:DD:EE:FF:6"
                 = Raise OverflowError) by by vm_compute.
  split_and!; [exact Hbad| |].
  - intros rssi_data clock.
    eapply scan_lines_cons_ok; [apply sample_line_record|].
    apply scan_lines_cons_raise, Hbad.
  - intros discovered rssi_data clock. apply scan_networks_raise.
    replace (split "010" (strip _)) with
      ["MyNet:WPA2:75:2437:AA:BB:CC:DD:EE:FF:6";
       "Net:WPA2:75:1.0e999:AA:BB:CC:DD:EE:FF:6"] by by vm_compute.
    eapply scan_lines_cons_ok; [apply sample_line_record|].
    apply scan_lines_cons_raise, Hbad.
Qed.


(** ** The signal field *)

Section signal.

Lemma to_ascii_isdigit_char c :
  isdigit_char c = true →
  digit_or_mark (to_ascii_char c) = true
  ∧ (isdecimal_char (to_ascii_char c) = true → to_ascii_char c = c).
Proof. by destruct c as [[] [] [] [] [] [] [] []]. Qed.

Lemma digit_or_mark_plain c :
  digit_or_mark c = true →
  Py_ISSPACE c = false ∧ Ascii.eqb c "-" = false ∧ Ascii.eqb c "+" = false
  ∧ Ascii.eqb c "_" = false.
Proof. by destruct c as [[] [] [] [] [] [] [] []]. Qed.

Lemma digit_value_nonneg c : isdecimal_char c = true → 0 ≤ digit_value c.
Proof.
  unfold isdecimal_char, digit_value. intros [H _]%andb_prop.
  apply N.leb_le in H. lia.
Qed.

Lemma lstrip_by_id (p : ascii → bool) s :
  forallb_str (λ c, negb (p c)) s = true → lstrip_by p s = s.
Proof. destruct s as [|c r]; [done|]. cbn. by destruct (p c). Qed.

Lemma rstrip_by_id (p : ascii → bool) s :
  forallb_str (λ c, negb (p c)) s = true → rstrip_by p s = s.
Proof.
  induction s as [|c r IH]; [done|]. cbn. intros [Hc Hr]%andb_prop.
  rewrite (IH Hr). destruct (p c); [done|]. by destruct r.
Qed.

Lemma forallb_str_impl (p q : ascii → bool) s :
  (∀ c, p c = true → q c = true) →
  forallb_str p s = true → forallb_str q s = true.
Proof.
  intros Hpq. induction s as [|c r IH]; [done|]. cbn.
  intros [Hc Hr]%andb_prop. by rewrite (Hpq c Hc), (IH Hr).
Qed.

Lemma int_digits_marked s acc n v k :
  forallb_str digit_or_mark s = true → 0 ≤ acc →
  int_digits s false acc n = Some (v, k) →
  forallb_str isdecimal_char s = true ∧ v = decimal_value_from acc s ∧ 0 ≤ v.
Proof.
  revert acc n. induction s as [|c r IH]; intros acc n; cbn.
  - intros _ Hacc [= <- <-]. done.
  - intros [Hc Hr]%andb_prop Hacc.
    destruct (digit_or_mark_plain c Hc) as (_ & _ & _ & Hus).
    destruct (isdecimal_char c) eqn:Hdec; [|by rewrite Hus].
    intros Hrun. apply IH in Hrun; [done|done|].
    pose proof (digit_value_nonneg c Hdec). lia.
Qed.

(** On a string that passes [isdigit], [int] gives the number the digits
    write and nothing negative; it may still raise (a superscript digit, or
    more than 4300 digits). *)
Lemma py_int_isdigit s v :
  isdigit s = true → py_int s = Ok v → v = decimal_value s ∧ 0 ≤ v.
Proof.
  unfold isdigit. intros [_ Hdig]%andb_prop.
  assert (Hmark : forallb_str digit_or_mark (map_str to_ascii_char s) = true).
  { induction s as [|c r IH]; [done|]. cbn in *.
    apply andb_prop in Hdig as [Hc Hr].
    by rewrite (proj1 (to_ascii_isdigit_char c Hc)), (IH Hr). }
  assert (Hid : forallb_str isdecimal_char (map_str to_ascii_char s) = true →
                map_str to_ascii_char s = s).
  { clear Hmark. induction s as [|c r IH]; [done|]. cbn in *.
    apply andb_prop in Hdig as [Hc Hr]. intros [Hc' Hr']%andb_prop.
    by rewrite (proj2 (to_ascii_isdigit_char c Hc) Hc'), (IH Hr Hr'). }
  unfold py_int.
  revert Hmark Hid. generalize (map_str to_ascii_char s). intros u Hmark Hid.
  assert (Hplain : forallb_str (λ c, negb (Py_ISSPACE c)) u = true).
  { revert Hmark. apply forallb_str_impl. intros c Hc.
    by rewrite (proj1 (digit_or_mark_plain c Hc)). }
  rewrite (lstrip_by_id _ _ Hplain), (rstrip_by_id _ _ Hplain).
  destruct u as [|c r]; [done|].
  cbn in Hmark. apply andb_prop in Hmark as [Hc Hr].
  destruct (digit_or_mark_plain c Hc) as (_ & Hminus & Hplus & _).
  unfold split_sign. rewrite Hminus, Hplus. unfold int_literal.
  destruct (isdecimal_char c) eqn:Hdec; [|done].
  destruct (int_digits r false (digit_value c) 1) as [[v' k]|] eqn:Hrun; [|done].
  apply int_digits_marked in Hrun as (Hall & -> & Hv);
    [|done|by apply digit_value_nonneg].
  destruct (_ <? _)%nat; [done|]. intros [= <-]. split; [|done].
  rewrite <- Hid by (cbn; by rewrite Hdec, Hall).
  unfold decimal_value. cbn. by rewrite Z.mul_0_r, Z.add_0_l.
Qed.
End signal.

(** C10, counterexample: a line whose signal field is 250 gives a record
    with signal 250. *)
Lemma signal_250_counterexample :
  ∃ n, Wss.scan_line ∅ "" "Net:WPA2:250:2437:AA:BB:CC:DD:EE:FF:6" = Ok (Some n)
       ∧ ¬ (0 ≤ Wss.signal n ≤ 100).
Proof. eexists. split; [by vm_compute|]. cbn. lia. Qed.

(** C10, amended: every record of the scan loop has a signal that is not
    negative: 0 when the trimmed third field is not all digits, and
    otherwise the number that field writes, with no upper bound. *)
Theorem signal_is_field_value rssi_data now line n :
  Wss.scan_line rssi_data now line = Ok (Some n) →
  let field := strip (default "" (split ":" line !! 2%nat)) in
  0 ≤ Wss.signal n
  ∧ (isdigit field = false → Wss.signal n = 0)
  ∧ (isdigit field = true → Wss.signal n = decimal_value field).
Proof.
  intros (r & Hparse & _ & _ & _ & -> & _)%scan_line_inv.
  apply parse_inv in Hparse as (_ & _ & _ & Hsig & _).
  cbn zeta in *. destruct (isdigit _) eqn:Hdig.
  - apply py_int_isdigit in Hsig as [-> Hv]; done.
  - rewrite Hsig. done.
Qed.

(** The signal field 250 is taken as it is. *)
Lemma signal_is_field_value_witness :
  ∃ n, Wss.scan_line ∅ "" "Net:WPA2:250:2437:AA:BB:CC:DD:EE:FF:6" = Ok (Some n)
       ∧ Wss.signal n = 250.
Proof.
  eexists. split; [by vm_compute|].
  refine (proj2 (proj2 (signal_is_field_value ∅ ""
            "Net:WPA2:250:2437:AA:BB:CC:DD:EE:FF:6" _ _)) _);
    by vm_compute.
Defined.


(** ** BSSID validation *)

Section bssid.
Import Wss.

Lemma is_hex_upper c :
  is_hex_char c = true →
  is_upper_hex_char (upper_char c) = true ∧ Ascii.eqb c ":" = false.
Proof. by destruct c as [[] [] [] [] [] [] [] []]. Qed.

Lemma is_colon_or_hyphen_cases c :
  is_colon_or_hyphen c = true →
  upper_char c = c ∧ (c = ":"%char ∨ c = "-"%char).
Proof. destruct c as [[] [] [] [] [] [] [] []]; try done; cbn; auto. Qed.

Lemma isspace_not_colon c : isspace_char c = true → Ascii.eqb c ":" = false.
Proof. by destruct c as [[] [] [] [] [] [] [] []]. Qed.

Lemma rstrip_by_last p s : last_char_is p (rstrip_by p s) = false.
Proof.
  induction s as [|c r IH]; [done|]. cbn [rstrip_by].
  destruct (rstrip_by p r) as [|d r'] eqn:Hr.
  - destruct (p c) eqn:Hc; [done|]. cbn. done.
  - exact IH.
Qed.

Lemma re_octet_groups_last hex sep p n s rest :
  re_octet_groups hex sep n s = Some rest → rest ≠ "" →
  last_char_is p s = last_char_is p rest.
Proof.
  revert s. induction n as [|n IH]; intros s; cbn.
  - by intros [= ->].
  - destruct s as [|a [|b [|c r]]]; try done.
    destruct (_ && _); [|done]. intros Hrun Hne.
    rewrite <- (IH r Hrun Hne). destruct r; [|done].
    destruct n; cbn in Hrun; [by injection Hrun as <-|done].
Qed.

(** Upper-casing keeps the shape of the octet groups. *)
Lemma re_octet_groups_upper sep n s rest :
  (∀ c, sep c = true → upper_char c = c) →
  re_octet_groups is_hex_char sep n s = Some rest →
  re_octet_groups is_upper_hex_char sep n (upper s) = Some (upper rest).
Proof.
  intros Hsep. revert s. induction n as [|n IH]; intros s; cbn.
  - by intros [= ->].
  - destruct s as [|a [|b [|c r]]]; try done. cbn.
    destruct (is_hex_char a) eqn:Ha; [|done].
    destruct (is_hex_char b) eqn:Hb; [|done].
    destruct (sep c) eqn:Hc; [|done]. cbn. intros Hrun.
    rewrite (proj1 (is_hex_upper a Ha)), (proj1 (is_hex_upper b Hb)).
    rewrite (Hsep c Hc), Hc. cbn. by apply IH.
Qed.

(** Colons can only stand at the separators: with as many colons as groups,
    every separator is a colon. *)
Lemma re_octet_groups_colons n s rest :
  re_octet_groups is_hex_char is_colon_or_hyphen n s = Some rest →
  (count_char ":" s ≤ n + count_char ":" rest)%nat
  ∧ (count_char ":" s = n + count_char ":" rest →
     re_octet_groups is_hex_char is_colon n s = Some rest)%nat.
Proof.
  revert s. induction n as [|n IH]; intros s; cbn.
  - intros [= ->]. done.
  - destruct s as [|a [|b [|c r]]]; try done.
    destruct (is_hex_char a) eqn:Ha; [|done].
    destruct (is_hex_char b) eqn:Hb; [|done].
    destruct (is_colon_or_hyphen c) eqn:Hc; [|done]. cbn.
    intros Hrun. destruct (IH r Hrun) as [Hle Heq].
    rewrite (proj2 (is_hex_upper a Ha)), (proj2 (is_hex_upper b Hb)).
    destruct (is_colon_or_hyphen_cases c Hc) as [_ [-> | ->]]; cbn.
    + split; [lia|]. intros Hcount. apply Heq. lia.
    + split; [lia|]. intros Hcount. lia.
Qed.

(** A string that matches the MAC pattern and does not end in a blank
    upper-cases to six octets of upper-case hex digits. *)
Lemma mac_pattern_upper u :
  mac_pattern u = true → last_char_is isspace_char u = false →
  six_octets is_upper_hex_char is_colon_or_hyphen (upper u) = true
  ∧ (count_char ":" u = 5%nat →
     six_octets is_upper_hex_char is_colon (upper u) = true).
Proof.
  unfold mac_pattern, six_octets. intros Hmac Hlast.
  destruct (re_octet_groups is_hex_char is_colon_or_hyphen 5 u)
    as [[|a [|b r]]|] eqn:Hrun; try done.
  apply andb_prop in Hmac as [[Ha Hb]%andb_prop Hend].
  assert (r = "") as ->.
  { rewrite (re_octet_groups_last _ _ isspace_char _ _ _ Hrun) in Hlast by done.
    destruct r as [|c [|d r]]; [done| |done]. cbn in Hend, Hlast.
    apply Ascii.eqb_eq in Hend as ->. done. }
  split.
  - rewrite (re_octet_groups_upper _ _ _ _
               (λ c Hc, proj1 (is_colon_or_hyphen_cases c Hc)) Hrun).
    cbn. by rewrite (proj1 (is_hex_upper a Ha)), (proj1 (is_hex_upper b Hb)).
  - intros Hcount.
    destruct (re_octet_groups_colons _ _ _ Hrun) as [_ Hcolon].
    assert (Hzero : count_char ":" (String a (String b "")) = 0%nat).
    { cbn. by rewrite (proj2 (is_hex_upper a Ha)), (proj2 (is_hex_upper b Hb)). }
    rewrite Hzero in Hcolon. specialize (Hcolon Hcount).
    rewrite (re_octet_groups_upper is_colon _ _ _ ltac:(by intros c ->%Ascii.eqb_eq) Hcolon).
    cbn. by rewrite (proj1 (is_hex_upper a Ha)), (proj1 (is_hex_upper b Hb)).
Qed.

Lemma count_char_app c (s t : string) :
  count_char c (s +:+ t) = (count_char c s + count_char c t)%nat.
Proof.
  induction s as [|a s IH]; [done|].
  change (String a s +:+ t) with (String a (s +:+ t)).
  cbn [count_char]. rewrite IH. lia.
Qed.

Lemma split_no_sep sep s :
  Forall (λ p, count_char sep p = 0%nat) (split sep s).
Proof.
  induction s as [|c r IH]; cbn.
  - by repeat constructor.
  - destruct (Ascii.eqb c sep) eqn:Hc; [by constructor|].
    destruct (split sep r) as [|h t]; [repeat constructor; cbn; by rewrite Hc|].
    apply Forall_cons in IH as [Hh Ht]. constructor; [|done].
    cbn. by rewrite Hc.
Qed.

Lemma count_char_join ps :
  Forall (λ p, count_char ":" p = 0%nat) ps →
  count_char ":" (join ":" ps) = (length ps - 1)%nat.
Proof.
  induction ps as [|p [|q ps] IH]; [done| |].
  - intros [Hp _]%Forall_cons. done.
  - intros [Hp Hps]%Forall_cons.
    change (join ":" (p :: q :: ps)) with (p +:+ ":" +:+ join ":" (q :: ps)).
    rewrite !count_char_app, Hp, (IH Hps). cbn. lia.
Qed.

Lemma count_char_remove_backslash s :
  count_char ":" (replace_with_empty "\" s) = count_char ":" s.
Proof.
  unfold replace_with_empty. induction s as [|c r IH]; [done|].
  cbn [remove_occurrences String.prefix].
  change (String.length "\" - 1)%nat with 0%nat.
  destruct (ascii_dec "\" c) as [<-|Hne]; cbn [count_char].
  - replace (String.prefix "" r) with true by by destruct r.
    by rewrite IH.
  - by rewrite IH.
Qed.

Lemma count_char_lstrip s :
  count_char ":" (lstrip_by isspace_char s) = count_char ":" s.
Proof.
  induction s as [|c r IH]; [done|]. cbn.
  destruct (isspace_char c) eqn:Hc; [|done].
  by rewrite IH, (isspace_not_colon c Hc).
Qed.

Lemma count_char_rstrip s :
  count_char ":" (rstrip_by isspace_char s) = count_char ":" s.
Proof.
  induction s as [|c r IH]; [done|]. cbn [rstrip_by].
  destruct (rstrip_by isspace_char r) as [|d r'] eqn:Hr.
  - cbn in *. rewrite <- IH.
    destruct (isspace_char c) eqn:Hc; [|done].
    by rewrite (isspace_not_colon c Hc).
  - cbn [count_char]. by rewrite <- IH.
Qed.

(** With at least ten fields the candidate holds exactly the five colons
    put back by the join. *)
Lemma candidate_colons line :
  (10 ≤ length (split ":" line))%nat →
  count_char ":"
    (strip (replace_with_empty "\" (join ":" (slice (split ":" line) 4 10))))
  = 5%nat.
Proof.
  intros Hlen. unfold strip.
  rewrite count_char_rstrip, count_char_lstrip, count_char_remove_backslash.
  rewrite count_char_join.
  - unfold slice. rewrite length_take, length_drop. lia.
  - apply Forall_take, Forall_drop, split_no_sep.
Qed.

Lemma partial_not_mac u : partial_pattern u = true → mac_pattern u = false.
Proof.
  destruct u as [|a [|b [|c [|d r]]]]; try done.
  - intros _. unfold mac_pattern. cbn.
    by destruct (is_hex_char a && is_hex_char b && is_colon_or_hyphen c).
  - cbn. by rewrite andb_false_r.
Qed.
Lemma length_append (s t : string) :
  String.length (s +:+ t) = (String.length s + String.length t)%nat.
Proof.
  induction s as [|c s IH]; [done|].
  change (String c s +:+ t) with (String c (s +:+ t)). cbn. by rewrite IH.
Qed.

(** The octet groups are a prefix of three characters a group. *)
Lemma re_octet_groups_prefix hex sep n s rest :
  re_octet_groups hex sep n s = Some rest →
  ∃ pre, s = pre +:+ rest
    ∧ forallb_str (λ c, hex c || sep c) pre = true
    ∧ String.length pre = (3 * n)%nat.
Proof.
  revert s. induction n as [|n IH]; intros s; cbn [re_octet_groups].
  - intros [= ->]. by exists "".
  - destruct s as [|a [|b [|c r]]]; try done.
    destruct (hex a) eqn:Ha; [|done]. destruct (hex b) eqn:Hb; [|done].
    destruct (sep c) eqn:Hc; [|done]. cbn [andb]. intros Hrun.
    destruct (IH r Hrun) as (pre & -> & Hpre & Hlen).
    exists (String a (String b (String c pre))). split_and!; [done| |cbn; lia].
    cbn. by rewrite Ha, Hb, Hc, Hpre, orb_true_r.
Qed.

Lemma _validate_bssid_six_octets s b :
  _validate_bssid s = Some b →
  six_octets is_upper_hex_char is_colon_or_hyphen b = true.
Proof.
  unfold _validate_bssid. destruct (is_empty s); [done|]. cbn zeta.
  destruct (mac_pattern _) eqn:Hmac; [|by destruct (partial_pattern _)].
  intros [= <-]. apply mac_pattern_upper; [done|]. apply rstrip_by_last.
Qed.
End bssid.

(** C9, counterexample: a line of eight fields whose fifth field holds
    hyphens is recorded with a BSSID that is not colon-separated. *)
Lemma bssid_hyphen_counterexample :
  ∃ n, Wss.scan_line ∅ "" "S:W:75:2437:AA-BB-CC:DD:EE:FF" = Ok (Some n)
       ∧ Wss.bssid n = Some "AA-BB-CC:DD:EE:FF"
       ∧ Wss.six_octets Wss.is_upper_hex_char Wss.is_colon "AA-BB-CC:DD:EE:FF"
         = false.
Proof. eexists. split; [by vm_compute|]. by split. Qed.

(** C9, amended: the BSSID of a record is absent or the upper-cased
    candidate, six octets of upper-case hex digits whose separators are each
    a colon or a hyphen, and all colons when the line has at least ten
    fields; a candidate that does not match the pattern, a lone octet
    included, is recorded as absent. *)
Theorem recorded_bssid_shape rssi_data now line n :
  Wss.scan_line rssi_data now line = Ok (Some n) →
  let candidate :=
    strip (replace_with_empty "\" (join ":" (slice (split ":" line) 4 10))) in
  match Wss.bssid n with
  | Some b =>
      b = upper candidate
      ∧ Wss.six_octets Wss.is_upper_hex_char Wss.is_colon_or_hyphen b = true
      ∧ ((10 ≤ length (split ":" line))%nat →
         Wss.six_octets Wss.is_upper_hex_char Wss.is_colon b = true)
  | None => Wss.mac_pattern candidate = false
  end
  ∧ (Wss.partial_pattern candidate = true → Wss.bssid n = None).
Proof.
  intros (r & Hparse & _ & _ & _ & _ & _ & _ & _ & -> & _)%scan_line_inv.
  apply parse_inv in Hparse as (_ & _ & _ & _ & _ & -> & _).
  cbn zeta. unfold Wss._validate_bssid.
  destruct (is_empty _) eqn:Hraw.
  { destruct (join _ _); [|done]. by vm_compute. }
  destruct (Wss.mac_pattern _) eqn:Hmac.
  - destruct (mac_pattern_upper _ Hmac (rstrip_by_last _ _)) as [Hsix Hcolon].
    split_and!; [done|done| |].
    + intros Hlen. apply Hcolon, candidate_colons, Hlen.
    + intros Hpartial%partial_not_mac. congruence.
  - by destruct (Wss.partial_pattern _).
Qed.

(** A line as [nmcli -t] prints it, colons of the BSSID escaped. *)
Lemma recorded_bssid_shape_witness :
  ∃ n, Wss.scan_line ∅ "" "MyNet:WPA2:75:2437 MHz:aa\:bb\:cc\:dd\:ee\:ff:6"
       = Ok (Some n)
       ∧ Wss.bssid n = Some "AA:BB:CC:DD:EE:FF".
Proof.
  eexists. split; [by vm_compute|].
  pose proof (recorded_bssid_shape ∅ ""
                "MyNet:WPA2:75:2437 MHz:aa\:bb\:cc\:dd\:ee\:ff:6" _
                ltac:(by vm_compute)) as [H _].
  cbn in H. destruct H as [H _]. rewrite H. by vm_compute.
Defined.

(** ** Network registry *)

Section dedup.
Import Wss.
Implicit Types (d new kept : list WiFiNetwork) (X : gset string).

Lemma existing_keys_elem k X d :
  k ∈ foldl (λ existing network, existing ∪ {[identifier network]}) X d
  ↔ k ∈ X ∨ k ∈ identifier <$> d.
Proof.
  revert X. induction d as [|n d IH]; intros X; cbn [foldl].
  - rewrite fmap_nil, elem_of_nil. tauto.
  - rewrite IH, fmap_cons, elem_of_cons, elem_of_union, elem_of_singleton. tauto.
Qed.

Lemma add_unique_fold d X new :
  (foldl
     (λ '(discovered, existing) network,
        if decide (identifier network ∉ existing)
        then (discovered ++ [network], existing ∪ {[identifier network]})
        else (discovered, existing))
     (d, X) new).1
  = d ++ first_with_new_key X new.
Proof.
  revert d X. induction new as [|n new IH]; intros d X; cbn [foldl first_with_new_key].
  - by rewrite app_nil_r.
  - destruct (decide (identifier n ∉ X)) as [Hnew|Hold].
    + rewrite decide_False by done. rewrite IH. by rewrite <- app_assoc.
    + rewrite decide_True by by apply dec_stable. apply IH.
Qed.

(** [_add_unique_networks] does what the design says. *)
Lemma add_unique_refines d new :
  _add_unique_networks d new
  = d ++ first_with_new_key (list_to_set (identifier <$> d)) new.
Proof.
  unfold _add_unique_networks. cbn zeta. rewrite add_unique_fold. do 2 f_equal.
  apply set_eq. intros k. rewrite existing_keys_elem, elem_of_list_to_set.
  rewrite elem_of_empty. tauto.
Qed.

Lemma first_with_new_key_sublist X new :
  first_with_new_key X new `sublist_of` new.
Proof.
  revert X. induction new as [|n new IH]; intros X; cbn; [done|].
  destruct (decide _); [apply sublist_cons | apply sublist_skip]; apply IH.
Qed.

Lemma first_with_new_key_fresh X new n :
  n ∈ first_with_new_key X new → identifier n ∉ X.
Proof.
  revert X. induction new as [|m new IH]; intros X; cbn; [by intros ?%elem_of_nil|].
  destruct (decide _) as [Hin|Hnotin]; [apply IH|].
  intros [->|Hn]%elem_of_cons; [done|].
  apply IH in Hn. intros HX. apply Hn, elem_of_union. by left.
Qed.

Lemma first_with_new_key_NoDup X new :
  NoDup (identifier <$> first_with_new_key X new).
Proof.
  revert X. induction new as [|m new IH]; intros X; cbn; [apply NoDup_nil_2|].
  destruct (decide _) as [Hin|Hnotin]; [apply IH|].
  rewrite fmap_cons. apply NoDup_cons. split; [|apply IH].
  intros (n & Heq & Hn%first_with_new_key_fresh)%list_elem_of_fmap.
  apply Hn, elem_of_union. right. by apply elem_of_singleton.
Qed.

Lemma first_with_new_key_covers X new n :
  n ∈ new →
  identifier n ∈ X ∨ identifier n ∈ identifier <$> first_with_new_key X new.
Proof.
  revert X. induction new as [|m new IH]; intros X; [by intros ?%elem_of_nil|].
  cbn. intros [->|Hn]%elem_of_cons.
  - destruct (decide _) as [Hin|Hnotin]; [by left|].
    right. rewrite fmap_cons. by left.
  - destruct (decide _) as [Hin|Hnotin]; [by apply IH|].
    destruct (IH (X ∪ {[identifier m]}) Hn) as [[HX|Hm%elem_of_singleton]%elem_of_union|Hk].
    + by left.
    + right. rewrite fmap_cons, Hm. by left.
    + right. rewrite fmap_cons. by right.
Qed.

Lemma first_with_new_key_first X pre n post :
  identifier n ∉ X → identifier n ∉ identifier <$> pre →
  n ∈ first_with_new_key X (pre ++ n :: post).
Proof.
  revert X. induction pre as [|m pre IH]; intros X HX Hpre; cbn.
  - rewrite decide_False by done. by left.
  - rewrite fmap_cons, not_elem_of_cons in Hpre. destruct Hpre as [Hne Hpre].
    destruct (decide _) as [Hin|Hnotin]; [by apply IH|].
    right. apply IH; [|done].
    rewrite elem_of_union, elem_of_singleton. tauto.
Qed.

Lemma add_unique_NoDup d new :
  NoDup (identifier <$> d) → NoDup (identifier <$> _add_unique_networks d new).
Proof.
  intros Hd. rewrite add_unique_refines, fmap_app. apply NoDup_app.
  split_and!; [done| |apply first_with_new_key_NoDup].
  intros k Hk (n & -> & Hn%first_with_new_key_fresh)%list_elem_of_fmap.
  by apply Hn, elem_of_list_to_set.
Qed.
End dedup.

Section keys.
Import Wss.

Lemma append_inj_length (s1 s2 t1 t2 : string) :
  String.length t1 = String.length t2 →
  s1 +:+ t1 = s2 +:+ t2 → s1 = s2 ∧ t1 = t2.
Proof.
  intros Hlen. revert s2. induction s1 as [|a s1 IH]; intros [|b s2] Heq.
  - done.
  - change ("" +:+ t1) with t1 in Heq. rewrite Heq in Hlen.
    change (String b s2 +:+ t2) with (String b (s2 +:+ t2)) in Hlen.
    cbn [String.length] in Hlen. rewrite length_append in Hlen. lia.
  - change ("" +:+ t2) with t2 in Heq. rewrite <- Heq in Hlen.
    change (String a s1 +:+ t1) with (String a (s1 +:+ t1)) in Hlen.
    cbn [String.length] in Hlen. rewrite length_append in Hlen. lia.
  - change (String a s1 +:+ t1) with (String a (s1 +:+ t1)) in Heq.
    change (String b s2 +:+ t2) with (String b (s2 +:+ t2)) in Heq.
    injection Heq as -> Heq. destruct (IH s2 Heq) as [-> ->]. done.
Qed.

Lemma last_char_is_app p (s t : string) :
  t ≠ "" → last_char_is p (s +:+ t) = last_char_is p t.
Proof.
  intros Ht. induction s as [|c r IH]; [done|].
  change (String c r +:+ t) with (String c (r +:+ t)).
  cbn [last_char_is]. destruct (r +:+ t) eqn:Hr; [|done].
  destruct r; [|done]. by destruct Ht.
Qed.

Lemma six_octets_end b :
  six_octets is_upper_hex_char is_colon_or_hyphen b = true →
  String.length b = 17%nat ∧ last_char_is (Ascii.eqb "d") b = false.
Proof.
  unfold six_octets. intros Hsix.
  destruct (re_octet_groups is_upper_hex_char is_colon_or_hyphen 5 b)
    as [[|x [|y [|]]]|] eqn:Hrun; try done.
  apply andb_prop in Hsix as [Hx Hy]. split.
  - destruct (re_octet_groups_prefix _ _ _ _ _ Hrun) as (pre & -> & _ & Hlen).
    by rewrite length_append, Hlen.
  - rewrite (re_octet_groups_last _ _ (Ascii.eqb "d") _ _ _ Hrun) by done.
    cbn. by destruct y as [[] [] [] [] [] [] [] []].
Qed.

Lemma identifier_recorded n :
  recorded_bssid n →
  identifier n
  = ssid n +:+ "|" +:+ match bssid n with Some b => b | None => "no_bssid" end.
Proof.
  unfold recorded_bssid, identifier. destruct (bssid n) as [b|]; [|done].
  intros [Hlen _]%six_octets_end. by destruct b.
Qed.

(** Among observations as the scan loop records them, the key tells the
    SSID and the BSSID. *)
Lemma identifier_inj n1 n2 :
  recorded_bssid n1 → recorded_bssid n2 →
  identifier n1 = identifier n2 → ssid n1 = ssid n2 ∧ bssid n1 = bssid n2.
Proof.
  intros H1 H2. rewrite (identifier_recorded n1 H1), (identifier_recorded n2 H2).
  unfold recorded_bssid in H1, H2.
  destruct (bssid n1) as [b1|], (bssid n2) as [b2|]; intros Heq.
  - apply six_octets_end in H1 as [Hl1 _], H2 as [Hl2 _].
    apply append_inj_length in Heq as [Hs Hb].
    + split; [done|]. change (String "|" b1 = String "|" b2) in Hb.
      by injection Hb as ->.
    + change ("|" +:+ ?b) with (String "|" b). cbn [String.length]. lia.
  - apply six_octets_end in H1 as [Hl1 Hd1].
    apply (f_equal (last_char_is (Ascii.eqb "d"))) in Heq.
    rewrite (last_char_is_app _ (ssid n1) ("|" +:+ b1)) in Heq by done.
    rewrite (last_char_is_app _ (ssid n2) ("|" +:+ "no_bssid")) in Heq by done.
    rewrite (last_char_is_app _ "|" b1) in Heq by by destruct b1.
    by rewrite Hd1 in Heq.
  - apply six_octets_end in H2 as [Hl2 Hd2].
    apply (f_equal (last_char_is (Ascii.eqb "d"))) in Heq.
    rewrite (last_char_is_app _ (ssid n2) ("|" +:+ b2)) in Heq by done.
    rewrite (last_char_is_app _ (ssid n1) ("|" +:+ "no_bssid")) in Heq by done.
    rewrite (last_char_is_app _ "|" b2) in Heq by by destruct b2.
    by rewrite Hd2 in Heq.
  - by apply append_inj_length in Heq as [-> _].
Qed.

Lemma scan_line_recorded_bssid rssi_data now line n :
  scan_line rssi_data now line = Ok (Some n) → recorded_bssid n.
Proof.
  intros (r & Hparse & _ & _ & _ & _ & _ & _ & _ & Hb & _)%scan_line_inv.
  apply parse_inv in Hparse as (_ & _ & _ & _ & _ & Hbssid & _).
  unfold recorded_bssid. rewrite Hb, Hbssid.
  destruct (_validate_bssid _) as [b|] eqn:Hv; [|done].
  by apply _validate_bssid_six_octets in Hv.
Qed.
End keys.

(** C8: [_add_unique_networks] appends to the stored observations, in batch
    order and unchanged, the first observation of each key that is neither
    stored already nor earlier in the batch, and drops the others; stored
    keys therefore stay pairwise distinct after any sequence of calls, and
    the same (ssid, bssid) fed in two calls is stored once. The key is the
    SSID, a bar and the BSSID, with the placeholder no_bssid for a BSSID
    that is absent or empty. Among observations as the scan loop records
    them (BSSID absent or six upper-case octets) two keys are equal exactly
    when SSID and BSSID are, so a second access point of a stored SSID is
    kept. *)
Theorem add_unique_networks_spec :
  (∀ d new, ∃ kept,
      Wss._add_unique_networks d new = d ++ kept
      ∧ kept `sublist_of` new
      ∧ (∀ n, n ∈ kept → Wss.identifier n ∉ Wss.identifier <$> d)
      ∧ NoDup (Wss.identifier <$> kept)
      ∧ (∀ n, n ∈ new → Wss.identifier n ∈ Wss.identifier <$> (d ++ kept))
      ∧ (∀ pre n post,
           new = pre ++ n :: post →
           Wss.identifier n ∉ Wss.identifier <$> d →
           Wss.identifier n ∉ Wss.identifier <$> pre →
           n ∈ kept))
  ∧ (∀ d new,
      NoDup (Wss.identifier <$> d) →
      NoDup (Wss.identifier <$> Wss._add_unique_networks d new))
  ∧ (∀ batches : list (list Wss.WiFiNetwork),
      NoDup (Wss.identifier <$> foldl Wss._add_unique_networks [] batches))
  ∧ (∀ n1 n2,
      Wss.ssid n1 = Wss.ssid n2 → Wss.bssid n1 = Wss.bssid n2 →
      Wss._add_unique_networks (Wss._add_unique_networks [] [n1]) [n2] = [n1])
  ∧ (∀ n, Wss.bssid n = None →
      Wss.identifier n = Wss.ssid n +:+ "|no_bssid")
  ∧ (∀ n b, Wss.bssid n = Some b →
      Wss.identifier n
      = Wss.ssid n +:+ "|" +:+ (if is_empty b then "no_bssid" else b))
  ∧ (∀ rssi_data now line n,
      Wss.scan_line rssi_data now line = Ok (Some n) → Wss.recorded_bssid n)
  ∧ (∀ n1 n2, Wss.recorded_bssid n1 → Wss.recorded_bssid n2 →
      (Wss.identifier n1 = Wss.identifier n2
       ↔ Wss.ssid n1 = Wss.ssid n2 ∧ Wss.bssid n1 = Wss.bssid n2))
  ∧ (∀ n1 n2, Wss.recorded_bssid n1 → Wss.recorded_bssid n2 →
      Wss.ssid n1 ≠ Wss.ssid n2 ∨ Wss.bssid n1 ≠ Wss.bssid n2 →
      Wss._add_unique_networks (Wss._add_unique_networks [] [n1]) [n2]
      = [n1; n2])
  ∧ (∀ d pre n post,
      Forall Wss.recorded_bssid (d ++ pre) → Wss.recorded_bssid n →
      (∀ m, m ∈ d ++ pre →
            Wss.ssid m ≠ Wss.ssid n ∨ Wss.bssid m ≠ Wss.bssid n) →
      n ∈ Wss._add_unique_networks d (pre ++ n :: post)).
Proof.
  assert (Hkey : ∀ n1 n2, Wss.recorded_bssid n1 → Wss.recorded_bssid n2 →
            Wss.ssid n1 ≠ Wss.ssid n2 ∨ Wss.bssid n1 ≠ Wss.bssid n2 →
            Wss.identifier n1 ≠ Wss.identifier n2).
  { intros n1 n2 H1 H2 Hne Heq.
    destruct (identifier_inj n1 n2 H1 H2 Heq). tauto. }
  split_and!.
  - intros d new. eexists. split; [apply add_unique_refines|]. split_and!.
    + apply first_with_new_key_sublist.
    + intros n Hn%first_with_new_key_fresh Hd. by apply Hn, elem_of_list_to_set.
    + apply first_with_new_key_NoDup.
    + intros n Hn. rewrite fmap_app, elem_of_app.
      destruct (first_with_new_key_covers
                  (list_to_set (Wss.identifier <$> d)) new n Hn)
        as [Hd%elem_of_list_to_set|Hk]; auto.
    + intros pre n post -> Hd Hpre. apply first_with_new_key_first; [|done].
      by rewrite elem_of_list_to_set.
  - apply add_unique_NoDup.
  - intros batches.
    assert (Hgen : ∀ d, NoDup (Wss.identifier <$> d) →
              NoDup (Wss.identifier <$> foldl Wss._add_unique_networks d batches)).
    { induction batches as [|b batches IH]; intros d Hd; [done|].
      cbn [foldl]. by apply IH, add_unique_NoDup. }
    apply Hgen, NoDup_nil_2.
  - intros n1 n2 Hssid Hbssid. rewrite !add_unique_refines. cbn.
    rewrite decide_False by apply not_elem_of_empty. cbn.
    rewrite decide_True; [done|].
    unfold Wss.identifier. rewrite Hssid, Hbssid.
    rewrite elem_of_union, elem_of_singleton. by left.
  - intros n Hn. unfold Wss.identifier. by rewrite Hn.
  - intros n b Hn. unfold Wss.identifier. by rewrite Hn.
  - apply scan_line_recorded_bssid.
  - intros n1 n2 H1 H2. split; [by apply identifier_inj|].
    intros [Hs Hb]. unfold Wss.identifier. by rewrite Hs, Hb.
  - intros n1 n2 H1 H2 Hne. rewrite !add_unique_refines. cbn.
    rewrite decide_False by apply not_elem_of_empty. cbn.
    rewrite decide_False; [done|].
    rewrite elem_of_union, elem_of_singleton.
    intros [Heq|[]%elem_of_empty].
    by apply (Hkey n1 n2 H1 H2 Hne).
  - intros d pre n post Hrec Hn Hne.
    rewrite add_unique_refines, elem_of_app. right.
    rewrite Forall_forall in Hrec.
    apply first_with_new_key_first.
    + rewrite elem_of_list_to_set. intros (m & Heq & Hm)%list_elem_of_fmap.
      assert (Hin : m ∈ d ++ pre) by (apply elem_of_app; by left).
      by apply (Hkey m n (Hrec m Hin) Hn (Hne m Hin)).
    + intros (m & Heq & Hm)%list_elem_of_fmap.
      assert (Hin : m ∈ d ++ pre) by (apply elem_of_app; by right).
      by apply (Hkey m n (Hrec m Hin) Hn (Hne m Hin)).
Qed.

(** Two sightings of one access point in two calls are stored once; a
    second access point of the same SSID is stored beside the first. *)
Lemma add_unique_networks_witness :
  let n := {| Wss.ssid := "MyNet"; Wss.security := "WPA2"; Wss.signal := 75;
              Wss.frequency := 2437; Wss.band := "2.4GHz";
              Wss.channel := Some 6; Wss.bssid := Some "AA:BB:CC:DD:EE:FF";
              Wss.rssi := None; Wss.timestamp := Some "t0" |} in
  let n' := {| Wss.ssid := "MyNet"; Wss.security := ""; Wss.signal := 40;
               Wss.frequency := 2437; Wss.band := "2.4GHz";
               Wss.channel := Some 6; Wss.bssid := Some "AA:BB:CC:DD:EE:FF";
               Wss.rssi := Some (-60); Wss.timestamp := Some "t1" |} in
  let other := {| Wss.ssid := "MyNet"; Wss.security := "WPA2"; Wss.signal := 60;
                  Wss.frequency := 5180; Wss.band := "5GHz";
                  Wss.channel := Some 36; Wss.bssid := Some "AA:BB:CC:DD:EE:00";
                  Wss.rssi := None; Wss.timestamp := Some "t1" |} in
  Wss._add_unique_networks (Wss._add_unique_networks [] [n]) [n'] = [n]
  ∧ Wss._add_unique_networks (Wss._add_unique_networks [] [n]) [other]
    = [n; other].
Proof.
  cbn zeta. split.
  - apply (proj1 (proj2 (proj2 (proj2 add_unique_networks_spec))));
      reflexivity.
  - apply (proj1 (proj2 (proj2 (proj2 (proj2 (proj2 (proj2 (proj2 (proj2
             add_unique_networks_spec))))))))).
    + reflexivity.
    + reflexivity.
    + right. cbn. discriminate.
Defined.


(** * Further properties *)

(** ** Sorting for display *)

Section sorting.
Context {A : Type} (key : A → Z).

Lemma insert_desc_perm x (l : list A) : insert_desc key x l ≡ₚ x :: l.
Proof.
  induction l as [|y l IH]; cbn; [done|].
  destruct (_ >? _); [|done]. rewrite IH. apply Permutation_swap.
Qed.

Lemma sorted_desc_perm (l : list A) : sorted_desc key l ≡ₚ l.
Proof.
  unfold sorted_desc. induction l as [|x l IH]; cbn; [done|].
  by rewrite insert_desc_perm, IH.
Qed.

Lemma insert_desc_sorted x (l : list A) :
  StronglySorted (λ a b, key a >= key b) l →
  StronglySorted (λ a b, key a >= key b) (insert_desc key x l).
Proof.
  induction l as [|y l IH]; cbn; intros Hs.
  - repeat constructor.
  - apply StronglySorted_inv in Hs as [Hl Hy].
    destruct (key y >? key x) eqn:Hgt.
    + apply Z.gtb_gt in Hgt. constructor; [by apply IH|].
      rewrite insert_desc_perm. constructor; [lia|done].
    + rewrite Z.gtb_ltb in Hgt. apply Z.ltb_ge in Hgt.
      constructor; [by constructor|]. constructor; [lia|].
      eapply Forall_impl; [exact Hy|]. cbn. intros z Hz. lia.
Qed.

Lemma sorted_desc_sorted (l : list A) :
  StronglySorted (λ a b, key a >= key b) (sorted_desc key l).
Proof.
  unfold sorted_desc. induction l as [|x l IH]; cbn; [constructor|].
  by apply insert_desc_sorted.
Qed.

Lemma insert_desc_stable k x (l : list A) :
  filter (λ a, key a = k) (insert_desc key x l)
  = filter (λ a, key a = k) (x :: l).
Proof.
  induction l as [|y l IH]; cbn [insert_desc]; [done|].
  destruct (key y >? key x) eqn:Hgt; [|done].
  apply Z.gtb_gt in Hgt.
  rewrite (filter_cons _ y), IH, !(filter_cons _ x), !(filter_cons _ y).
  destruct (decide (key x = k)), (decide (key y = k)); try done. lia.
Qed.

Lemma sorted_desc_stable k (l : list A) :
  filter (λ a, key a = k) (sorted_desc key l) = filter (λ a, key a = k) l.
Proof.
  unfold sorted_desc. induction l as [|x l IH]; cbn [foldr]; [done|].
  by rewrite insert_desc_stable, !filter_cons, IH.
Qed.

(** In a list sorted that way, nothing cut off by [[:n]] beats what is
    kept. *)
Lemma sorted_take_drop n (l : list A) x y :
  StronglySorted (λ a b, key a >= key b) l →
  x ∈ take n l → y ∈ drop n l → key x >= key y.
Proof.
  revert n. induction l as [|z l IH]; intros n Hs.
  - rewrite take_nil. by intros ?%elem_of_nil.
  - apply StronglySorted_inv in Hs as [Hl Hz]. destruct n as [|n]; cbn.
    + by intros ?%elem_of_nil.
    + intros [->|Hx]%elem_of_cons Hy; [|by eapply IH].
      rewrite Forall_forall in Hz. apply Hz.
      apply (elem_of_sublist (drop n l)); [done|apply sublist_drop].
Qed.
End sorting.

Lemma sorted_by_rssi_desc (items : PyTag.dict) :
  PyTag.sorted_by_rssi items = sorted_desc (λ x, PyTag.rssi x.2) items.
Proof.
  unfold PyTag.sorted_by_rssi, sorted_desc.
  induction items as [|x items IH]; cbn [foldr]; [done|]. rewrite IH.
  generalize (foldr (insert_desc (λ x, PyTag.rssi x.2)) [] items).
  intros l. induction l as [|y l IHl]; cbn; [done|]. by rewrite IHl.
Qed.

(** X1: the snapshot the display takes holds exactly the registry's entries,
    strongest signal first; entries of equal signal keep the order in which
    their addresses entered the registry; and none of the entries left out of
    the three that simple mode shows has a stronger signal than a shown
    one. *)
Theorem snapshot_sorted_stable (d : PyTag.dict) :
  PyTag.snapshot d ≡ₚ d
  ∧ StronglySorted (λ a b, PyTag.rssi a.2 >= PyTag.rssi b.2) (PyTag.snapshot d)
  ∧ (∀ r, filter (λ a, PyTag.rssi a.2 = r) (PyTag.snapshot d)
          = filter (λ a, PyTag.rssi a.2 = r) d)
  ∧ (length (PyTag.shown_airtags d) = min 3 (length d)
     ∧ ∀ x y, x ∈ PyTag.shown_airtags d → y ∈ drop 3 (PyTag.snapshot d) →
              PyTag.rssi x.2 >= PyTag.rssi y.2).
Proof.
  unfold PyTag.shown_airtags, PyTag.snapshot. rewrite sorted_by_rssi_desc.
  split_and!.
  - apply sorted_desc_perm.
  - apply (sorted_desc_sorted (λ x, PyTag.rssi x.2)).
  - intros r. apply (sorted_desc_stable (λ x, PyTag.rssi x.2)).
  - by rewrite length_take, sorted_desc_perm.
  - intros x y. apply (sorted_take_drop (λ x, PyTag.rssi x.2)).
    apply sorted_desc_sorted.
Qed.

(** ** The registry over time *)

Section registry_runs.
Import PyTag.

Lemma dict_set_Forall (P : string * AirTagDevice → Prop) k v (d : dict) :
  Forall P d → P (k, v) → Forall P (dict_set k v d).
Proof.
  intros Hd Hv. induction d as [|[k' v'] d IH]; cbn.
  - by repeat constructor.
  - apply Forall_cons in Hd as [Hhd Htl]. case_bool_decide as Hk.
    + subst k'. by constructor.
    + constructor; [done|by apply IH].
Qed.

Lemma ingest_entry_ok (d : dict) a r dist det now :
  Forall entry_ok d → Forall entry_ok (ingest d a r dist det now).
Proof.
  intros Hd. unfold ingest.
  destruct (dict_get a d) as [old|] eqn:Hget; apply dict_set_Forall; try done.
  - apply dict_get_Some in Hget. rewrite Forall_forall in Hd.
    destruct (Hd _ Hget) as (_ & Hcount & _). cbn in Hcount.
    split_and!; cbn; [done|lia|].
    unfold Rising, Stable, Falling.
    destruct (r >? rssi old), (r <? rssi old); auto.
  - split_and!; cbn; [done|lia|]. unfold Stable. auto.
Qed.

Lemma Forall_filter_keep {B} (P Q : B → Prop) `{!∀ x, Decision (Q x)} (l : list B) :
  Forall P l → Forall P (filter Q l).
Proof.
  rewrite !Forall_forall. intros Hl x [_ Hx]%list_elem_of_filter. by apply Hl.
Qed.

Lemma run_events_raise e evs :
  foldl (λ acc ev, d ← acc; apply_event d ev) (Raise e) evs = Raise e.
Proof. by induction evs. Qed.

(** A run keeps the registry well formed, and what stops it is the
    exception of a clean-up. *)
Lemma run_events_inv (d : dict) evs :
  dict_wf d → Forall entry_ok d →
  match run_events d evs with
  | Ok d' => dict_wf d' ∧ Forall entry_ok d'
  | Raise e => e = OverflowError ∨ e = ValueError
  end.
Proof.
  unfold run_events. revert d.
  induction evs as [|ev evs IH]; intros d Hwf Hok; cbn [foldl]; [done|].
  destruct ev as [a r dist det now|timeout now];
    cbn [mbind result_bind apply_event].
  - apply IH; [by apply ingest_wf|by apply ingest_entry_ok].
  - destruct (cleanup_stale_devices d timeout now) as [d1|e] eqn:Hclean.
    + destruct (cleanup_ok _ _ _ _ Hwf Hclean) as (delta & _ & _ & ->).
      apply IH; [by apply filter_wf|by apply Forall_filter_keep].
    + rewrite run_events_raise.
      destruct (cleanup_raises _ _ _ _ Hwf Hclean) as [->|[-> _]]; auto.
Qed.

(** A run whose clean-ups all have a timeout with a representable threshold
    does not raise. *)
Lemma run_events_ok (d : dict) evs :
  dict_wf d →
  Forall (λ ev, match ev with
                | Detected _ _ _ _ _ => True
                | CleanedUp timeout now =>
                    ∃ delta, timedelta timeout = Ok delta
                      ∧ 0 ≤ now - delta ≤ 315537897599999999
                end) evs →
  ∃ d', run_events d evs = Ok d'.
Proof.
  unfold run_events. revert d.
  induction evs as [|ev evs IH]; intros d Hwf Hevs; cbn [foldl];
    [by exists d|].
  apply Forall_cons in Hevs as [Hev Hevs].
  destruct ev as [a r dist det now|timeout now];
    cbn [mbind result_bind apply_event].
  - apply IH; [by apply ingest_wf|done].
  - destruct Hev as (delta & Htd & Hrange).
    rewrite (cleanup_outcome d timeout now Hwf), Htd.
    rewrite (proj2 (Z.leb_le _ _) (proj1 Hrange)).
    rewrite (proj2 (Z.leb_le _ _) (proj2 Hrange)). cbn [andb].
    apply IH; [by apply filter_wf|done].
Qed.

Lemma get_trend_color_cases t :
  (t = Rising ∨ t = Stable ∨ t = Falling → get_trend_color t = t)
  ∧ (t ≠ Rising → t ≠ Stable → t ≠ Falling → get_trend_color t = "white").
Proof.
  unfold get_trend_color, trend_colors, Rising, Stable, Falling. cbn [list_to_map foldr uncurry].
  split.
  - intros [->| [->| ->]]; reflexivity.
  - intros H1 H2 H3.
    rewrite lookup_insert_ne, lookup_insert_ne, lookup_insert_ne by done.
    by rewrite lookup_empty.
Qed.

Lemma readings_of_snoc a dets a' r dist det now :
  readings_of a (dets ++ [(a', r, dist, det, now)])
  = readings_of a dets ++ (if bool_decide (a' = a) then [r] else []).
Proof.
  unfold readings_of. rewrite omap_app. cbn. by case_bool_decide.
Qed.
End registry_runs.

(** X2: whatever detections and clean-ups follow one another from the empty
    registry, the run either ends with a registry that keeps one entry per
    address, each entry stored under its own address, with a count of at
    least 1 and one of the three colour labels as trend, or it stops at a
    clean-up that raises [OverflowError] or [ValueError], never [KeyError];
    and it does not raise when every clean-up has a timeout whose length is
    a timedelta and whose threshold is a datetime. *)
Theorem registry_invariant (evs : list PyTag.registry_event) :
  match PyTag.run_events [] evs with
  | Ok d =>
      PyTag.dict_wf d
      ∧ ∀ a dev, PyTag.dict_get a d = Some dev →
          PyTag.address dev = a ∧ 1 ≤ PyTag.count dev
          ∧ (PyTag.trend dev = "red" ∨ PyTag.trend dev = "green"
             ∨ PyTag.trend dev = "blue")
  | Raise e => e = OverflowError ∨ e = ValueError
  end
  ∧ (Forall (λ ev, match ev with
                   | PyTag.Detected _ _ _ _ _ => True
                   | PyTag.CleanedUp timeout now =>
                       ∃ delta, timedelta timeout = Ok delta
                         ∧ 0 ≤ now - delta ≤ 315537897599999999
                   end) evs →
     ∃ d, PyTag.run_events [] evs = Ok d).
Proof.
  split; [|by apply run_events_ok, NoDup_nil_2].
  pose proof (run_events_inv [] evs NoDup_nil_2 (Forall_nil_2 _)) as Hinv.
  destruct (PyTag.run_events [] evs) as [d|e]; [|done].
  destruct Hinv as [Hwf Hok]. split; [done|].
  intros a dev Hget%dict_get_Some. rewrite Forall_forall in Hok.
  destruct (Hok _ Hget) as (Haddr & Hcount & Htrend). cbn in *.
  split_and!; [done|done|].
  destruct Htrend as [->| [->| ->]]; auto.
Qed.

(** A detection, a clean-up 61 s later with a timeout of 60 s, and a new
    detection: the run does not raise. *)
Lemma registry_invariant_witness :
  ∃ d, PyTag.run_events []
         [PyTag.Detected "C0:02" (-70) (S754_zero false) "" 63902822339000000;
          PyTag.CleanedUp (PyInt 60) 63902822400000000;
          PyTag.Detected "C0:02" (-60) (S754_zero false) "" 63902822400000001]
       = Ok d.
Proof.
  apply (proj2 (registry_invariant _)).
  repeat constructor. exists 60000000. split; [reflexivity|lia].
Defined.

(** X3: after a run of detections from the empty registry, an address is
    stored if and only if it was detected; its count is the number of its
    detections, its rssi the last reading, and its trend compares the last
    reading with the one before it only (Stable after a single reading). *)
Theorem count_is_number_of_detections
    (dets : list (string * Z * spec_float * string * Z)) (a : string) :
  let d := PyTag.ingest_all [] dets in
  let readings := PyTag.readings_of a dets in
  (PyTag.dict_get a d = None ↔ readings = [])
  ∧ ∀ dev, PyTag.dict_get a d = Some dev →
      PyTag.count dev = Z.of_nat (length readings)
      ∧ last readings = Some (PyTag.rssi dev)
      ∧ (∀ r, readings = [r] → PyTag.trend dev = PyTag.Stable)
      ∧ (∀ pre r1 r2, readings = pre ++ [r1; r2] →
           PyTag.trend dev =
             if r2 >? r1 then PyTag.Rising
             else if r2 <? r1 then PyTag.Falling else PyTag.Stable).
Proof.
  cbn zeta. unfold PyTag.ingest_all.
  induction dets as [|[[[[a' r] dist] det] now] dets IH] using rev_ind.
  - cbn. split; [done|]. intros dev [=].
  - rewrite foldl_snoc, readings_of_snoc.
    destruct IH as [IHnone IHsome]. case_bool_decide as Ha.
    + subst a'. rewrite ingest_get_eq. split.
      * split; [done|]. intros H. by destruct (PyTag.readings_of a dets).
      * intros dev [= <-]. cbn [PyTag.count PyTag.rssi PyTag.trend].
        rewrite length_app, last_snoc. cbn [length].
        destruct (PyTag.dict_get a _) as [old|] eqn:Hold.
        -- destruct (IHsome old eq_refl) as (Hcount & Hlast & _).
           split_and!; [lia|done| |].
           ++ intros r' Hr. destruct (PyTag.readings_of a dets); [done|].
              by destruct l.
           ++ intros pre r1 r2 Hr.
              change [r1; r2] with ([r1] ++ [r2]) in Hr.
              rewrite app_assoc in Hr. apply app_inj_tail in Hr as [Hr <-].
              rewrite Hr, last_snoc in Hlast. by injection Hlast as <-.
        -- rewrite (proj1 IHnone eq_refl). cbn.
           split_and!; [done|done|done|].
           intros pre r1 r2 Hr. by destruct pre as [|? [|]].
    + rewrite app_nil_r.
      assert (Hsame : ∀ d0, PyTag.dict_get a (PyTag.ingest d0 a' r dist det now)
                           = PyTag.dict_get a d0).
      { intros d0. unfold PyTag.ingest.
        destruct (PyTag.dict_get a' d0); by apply dict_get_set_ne. }
      rewrite Hsame. by split.
Qed.

(** X4: for every entry of a registry reached from the empty one, the colour
    the display picks is the trend label itself, never the fallback white;
    any other label would get white. *)
Theorem trend_color_never_falls_back (evs : list PyTag.registry_event) (d : PyTag.dict) :
  PyTag.run_events [] evs = Ok d →
  (∀ a dev, PyTag.dict_get a d = Some dev →
     PyTag.get_trend_color (PyTag.trend dev) = PyTag.trend dev
     ∧ PyTag.get_trend_color (PyTag.trend dev) ≠ "white")
  ∧ (∀ t, t ≠ "red" → t ≠ "green" → t ≠ "blue" →
       PyTag.get_trend_color t = "white").
Proof.
  intros Hrun. split; [|intros t; apply get_trend_color_cases].
  pose proof (run_events_inv [] evs NoDup_nil_2 (Forall_nil_2 _)) as Hinv.
  rewrite Hrun in Hinv. destruct Hinv as [_ Hok].
  intros a dev Hget%dict_get_Some. rewrite Forall_forall in Hok.
  destruct (Hok _ Hget) as (_ & _ & Htrend). cbn in Htrend.
  rewrite (proj1 (get_trend_color_cases _) Htrend). split; [done|].
  destruct Htrend as [->| [->| ->]]; done.
Qed.

Lemma trend_color_never_falls_back_witness :
  ∃ d, PyTag.run_events []
         [PyTag.Detected "C0:02" (-70) (S754_zero false) "" 0;
          PyTag.Detected "C0:02" (-60) (S754_zero false) "" 1] = Ok d
       ∧ ∀ a dev, PyTag.dict_get a d = Some dev →
           PyTag.get_trend_color (PyTag.trend dev) = PyTag.trend dev
           ∧ PyTag.get_trend_color (PyTag.trend dev) ≠ "white".
Proof.
  eexists. split; [reflexivity|].
  apply (trend_color_never_falls_back
           [PyTag.Detected "C0:02" (-70) (S754_zero false) "" 0;
            PyTag.Detected "C0:02" (-60) (S754_zero false) "" 1]).
  reflexivity.
Defined.

(** ** The detection callback *)

Section callback.
Import PyTag.

Lemma push_debug_last_n (l : list string) x :
  push_debug (last_n 10 l) x = last_n 10 (l ++ [x]).
Proof.
  unfold push_debug, last_n. cbn zeta.
  rewrite !length_app, length_drop. cbn [length].
  destruct (decide (length l < 10)%nat) as [Hlt|Hge].
  - replace (length l - 10)%nat with 0%nat by lia.
    replace (length l + 1 - 10)%nat with 0%nat by lia. cbn [drop].
    by rewrite (proj2 (Nat.ltb_ge _ _)) by lia.
  - rewrite (proj2 (Nat.ltb_lt _ _)) by lia.
    rewrite <- (drop_app_le l [x]) by lia. rewrite drop_drop.
    f_equal. lia.
Qed.

Lemma push_debug_length (buffer : list string) x :
  (length buffer ≤ 10)%nat → (length (push_debug buffer x) ≤ 10)%nat.
Proof.
  intros Hlen. unfold push_debug. cbn zeta.
  destruct (10 <? _)%nat eqn:Hlt.
  - rewrite length_drop, length_app. cbn. lia.
  - by apply Nat.ltb_ge in Hlt.
Qed.

Lemma is_airtag_cases data :
  is_airtag data = Ok false
  ∨ (is_airtag data = Ok true ∧ (registered_shape data ∨ unregistered_shape data)).
Proof.
  unfold registered_shape, unregistered_shape.
  destruct data as [|b0 [|b1 rest]]; [by left..|].
  unfold is_airtag. change (length (b0 :: b1 :: rest) <? 2)%nat with false.
  cbn [getitem lookup list_lookup mbind result_bind].
  destruct (Byte.eqb b0 x12) eqn:E0.
  - apply byte_eqb_eq in E0 as ->.
    destruct rest as [|b2 [|b3 rest]]; [by left| |].
    + cbn. destruct (Byte.eqb b1 x19); by left.
    + change (3 <=? length (x12 :: b1 :: b2 :: b3 :: rest))%nat with true.
      change (4 <=? length (x12 :: b1 :: b2 :: b3 :: rest))%nat with true.
      cbn [getitem lookup list_lookup mbind result_bind].
      destruct (Byte.eqb b1 x19) eqn:E1; [|by left].
      apply byte_eqb_eq in E1 as ->. cbn [andb mbind result_bind].
      destruct (Byte.eqb b2 x10) eqn:E2; [|by left].
      apply byte_eqb_eq in E2 as ->. right. split; [done|]. left.
      cbn. split_and!; [lia|done..].
  - destruct (Byte.eqb b0 x07) eqn:E7; [|by left].
    apply byte_eqb_eq in E7 as ->.
    change (2 <=? length (x07 :: b1 :: rest))%nat with true.
    cbn [getitem lookup list_lookup mbind result_bind].
    destruct (Byte.eqb b1 x19) eqn:E1; [|by left].
    apply byte_eqb_eq in E1 as ->. right. split; [done|]. right.
    cbn. split_and!; [lia|done..].
Qed.

Lemma length_substring_0 n (s : string) :
  String.length (String.substring 0 n s) = min n (String.length s).
Proof.
  revert s. induction n as [|n IH]; intros [|c s]; cbn; try done.
  by rewrite IH.
Qed.
End callback.

(** X5: the debug buffer of the callback always holds the last ten entries
    pushed into it, oldest first, and never more than ten. *)
Theorem debug_buffer_keeps_last_ten (infos : list string) :
  foldl PyTag.push_debug [] infos = last_n 10 infos
  ∧ length (foldl PyTag.push_debug [] infos) = min 10 (length infos).
Proof.
  assert (H : foldl PyTag.push_debug [] infos = last_n 10 infos).
  { induction infos as [|x infos IH] using rev_ind; [done|].
    by rewrite foldl_snoc, IH, push_debug_last_n. }
  split; [done|]. rewrite H. unfold last_n. rewrite length_drop. lia.
Qed.

(** X6: one call of the detection callback never touches the configuration
    or the scan counter, keeps a debug buffer of at most ten entries within
    that bound, and changes the registry only by ingesting the detection,
    which it does only when the vendor payload under company id 76 has one
    of the two tag shapes and the distance could be computed; the only
    exception it can end with is one raised by the distance computation,
    and the registry is then left as it was. *)
Theorem detection_callback_gate
    (float_pow : spec_float → spec_float → result spec_float)
    (format_2f : spec_float → string)
    (self : PyTag.Detector) (address : string) (name : option string)
    (rssi : Z) (manufacturer_data : gmap Z (list byte)) (current_time : Z) :
  let '(self', err) :=
    PyTag.detection_callback float_pow format_2f self address name rssi
      manufacturer_data current_time in
  (PyTag.tx_power self' = PyTag.tx_power self
   ∧ PyTag.device_timeout self' = PyTag.device_timeout self
   ∧ PyTag.scan_count self' = PyTag.scan_count self)
  ∧ ((length (PyTag.debug_buffer self) ≤ 10)%nat →
     (length (PyTag.debug_buffer self') ≤ 10)%nat)
  ∧ (PyTag.detected_airtags self' = PyTag.detected_airtags self
     ∨ ∃ data dist details,
         manufacturer_data !! 76 = Some data
         ∧ (PyTag.registered_shape data ∨ PyTag.unregistered_shape data)
         ∧ PyTag.calculate_distance float_pow (PyTag.tx_power self) rssi = Ok dist
         ∧ err = None
         ∧ PyTag.detected_airtags self'
           = PyTag.ingest (PyTag.detected_airtags self) address rssi dist
               details current_time)
  ∧ (∀ e, err = Some e →
       PyTag.calculate_distance float_pow (PyTag.tx_power self) rssi = Raise e
       ∧ PyTag.detected_airtags self' = PyTag.detected_airtags self).
Proof.
  unfold PyTag.detection_callback.
  case_bool_decide as Hempty; [by split_and!; auto|].
  destruct (manufacturer_data !! 76) as [data|] eqn:Hdata; [|by split_and!; auto].
  destruct data as [|b0 data]; [by split_and!; auto|].
  set (apple_data := b0 :: data) in *.
  assert (Hlogged : ∃ self1,
    (if (2 <=? length apple_data)%nat
     then
       payload_type ← getitem apple_data 0;
       payload_length ←
         (if (1 <? length apple_data)%nat then getitem apple_data 1 else Ok x00);
       Ok (PyTag.set_debug_buffer self
             (PyTag.push_debug (PyTag.debug_buffer self)
                (address +:+ " | Type: 0x" +:+ PyTag.format_02x payload_type
                 +:+ " | Length: 0x" +:+ PyTag.format_02x payload_length
                 +:+ " | Data: " +:+ PyTag.bytes_hex apple_data)))
     else Ok self) = Ok self1
    ∧ PyTag.detected_airtags self1 = PyTag.detected_airtags self
    ∧ PyTag.tx_power self1 = PyTag.tx_power self
    ∧ PyTag.device_timeout self1 = PyTag.device_timeout self
    ∧ PyTag.scan_count self1 = PyTag.scan_count self
    ∧ ((length (PyTag.debug_buffer self) ≤ 10)%nat →
       (length (PyTag.debug_buffer self1) ≤ 10)%nat)).
  { subst apple_data. destruct data as [|b1 data].
    - exists self. by split_and!.
    - eexists. split; [reflexivity|]. split_and!; try done.
      cbn. apply push_debug_length. }
  destruct Hlogged as (self1 & -> & Hreg & Htx & Hto & Hsc & Hbuf).
  destruct (is_airtag_cases apple_data) as [-> | [-> Hshape]].
  { split_and!; auto. intros e [=]. }
  rewrite Htx.
  destruct (PyTag.calculate_distance float_pow (PyTag.tx_power self) rssi)
    as [dist|e] eqn:Hdist.
  - split_and!; try done. right. eexists apple_data, dist, _.
    split_and!; try done. cbn. by rewrite Hreg.
  - split_and!; auto. by intros e' [= <-].
Qed.

(** X7: the left column of simple mode shows at most the last four debug
    entries, none wider than 36 characters: an entry of up to 36 characters
    is shown whole, a longer one as its first 33 characters and three
    dots. *)
Theorem ble_debug_lines_fit (debug_buffer : list string) :
  length (PyTag.ble_debug_lines debug_buffer) = min 4 (length debug_buffer)
  ∧ Forall (λ l, (String.length l ≤ 36)%nat) (PyTag.ble_debug_lines debug_buffer)
  ∧ PyTag.ble_debug_lines debug_buffer
    = PyTag.truncate_debug_line <$> drop (length debug_buffer - 4) debug_buffer
  ∧ ∀ l, ((String.length l ≤ 36)%nat → PyTag.truncate_debug_line l = l)
         ∧ ((36 < String.length l)%nat →
            PyTag.truncate_debug_line l = String.substring 0 33 l +:+ "..."
            ∧ String.length (PyTag.truncate_debug_line l) = 36%nat).
Proof.
  assert (Htrunc : ∀ l, (String.length (PyTag.truncate_debug_line l) ≤ 36)%nat).
  { intros l. unfold PyTag.truncate_debug_line.
    destruct (36 <? String.length l)%nat eqn:Hlt.
    - apply Nat.ltb_lt in Hlt. rewrite length_append, length_substring_0.
      change (String.length "...") with 3%nat. lia.
    - by apply Nat.ltb_ge in Hlt. }
  unfold PyTag.ble_debug_lines, last_n. split_and!.
  - rewrite length_fmap, length_drop. lia.
  - apply Forall_fmap, Forall_forall. intros l _. apply Htrunc.
  - done.
  - intros l. unfold PyTag.truncate_debug_line. split.
    + intros Hle. by rewrite (proj2 (Nat.ltb_ge _ _)) by lia.
    + intros Hgt. rewrite (proj2 (Nat.ltb_lt _ _)) by lia. split; [done|].
      rewrite length_append, length_substring_0.
      change (String.length "...") with 3%nat. lia.
Qed.

(** ** The scan loop *)

Section ticks.
Import PyTag.

Lemma scan_tick_spec (self : Detector) now :
  dict_wf (detected_airtags self) →
  match scan_tick self now with
  | Ok self1 =>
      scan_count self1 = scan_count self + 1
      ∧ device_timeout self1 = device_timeout self
      ∧ dict_wf (detected_airtags self1)
      ∧ detected_airtags self1 `sublist_of` detected_airtags self
      ∧ ((scan_count self + 1) `mod` 30 ≠ 0 →
         detected_airtags self1 = detected_airtags self)
      ∧ (∀ item, item ∈ detected_airtags self →
           (∀ delta, timedelta (device_timeout self) = Ok delta →
                     now - last_seen item.2 ≤ delta) →
           item ∈ detected_airtags self1)
  | Raise e =>
      (e = OverflowError
       ∨ e = ValueError ∧ device_timeout self = PyFloat S754_nan)
      ∧ (scan_count self + 1) `mod` 30 = 0
  end.
Proof.
  intros Hwf. unfold scan_tick. cbn zeta. cbn [detected_airtags device_timeout].
  destruct (_ =? 0) eqn:Hmod.
  - apply Z.eqb_eq in Hmod.
    destruct (cleanup_stale_devices _ _ now) as [d1|e] eqn:Hclean;
      cbn [mbind result_bind].
    + destruct (cleanup_ok _ _ _ _ Hwf Hclean) as (delta & Htd & _ & ->).
      cbn. split_and!; [done|done|by apply filter_wf|apply sublist_filter|lia|].
      intros item Hin Hfresh. specialize (Hfresh delta Htd).
      apply list_elem_of_filter. split; [lia|done].
    + split; [|done]. by apply (cleanup_raises _ _ _ _ Hwf Hclean).
  - cbn. split_and!; done.
Qed.

Lemma scan_tick_ok (self : Detector) now delta :
  dict_wf (detected_airtags self) →
  timedelta (device_timeout self) = Ok delta →
  0 ≤ now - delta ≤ 315537897599999999 →
  ∃ self1, scan_tick self now = Ok self1.
Proof.
  intros Hwf Htd Hrange. unfold scan_tick. cbn zeta.
  cbn [detected_airtags device_timeout].
  destruct (_ =? 0); [|by eexists].
  rewrite (cleanup_outcome _ _ _ Hwf), Htd.
  rewrite (proj2 (Z.leb_le _ _) (proj1 Hrange)).
  rewrite (proj2 (Z.leb_le _ _) (proj2 Hrange)). cbn. by eexists.
Qed.

Lemma run_ticks_raise e times :
  foldl (λ acc now, self ← acc; scan_tick self now) (Raise e) times = Raise e.
Proof. by induction times. Qed.

(** A multiple of 30 strictly after [c] and at most [c + k] separates the
    quotients of the two. *)
Lemma multiple_of_30_between c k :
  0 ≤ k → (c + 1) `mod` 30 = 0 → c `div` 30 ≠ (c + 1 + k) `div` 30.
Proof.
  intros Hk Hmod.
  pose proof (Z.div_mod (c + 1) 30 ltac:(lia)) as Hdm. rewrite Hmod in Hdm.
  pose proof (Z.div_le_mono (c + 1) (c + 1 + k) 30 ltac:(lia) ltac:(lia)).
  pose proof (Z.div_mod c 30 ltac:(lia)).
  pose proof (Z.mod_pos_bound c 30 ltac:(lia)). lia.
Qed.

Lemma run_ticks_spec (self : Detector) (times : list Z) :
  dict_wf (detected_airtags self) →
  match run_ticks self times with
  | Ok self' =>
      scan_count self' = scan_count self + Z.of_nat (length times)
      ∧ detected_airtags self' `sublist_of` detected_airtags self
      ∧ (scan_count self `div` 30
         = (scan_count self + Z.of_nat (length times)) `div` 30 →
         detected_airtags self' = detected_airtags self)
      ∧ (∀ item, item ∈ detected_airtags self →
           Forall (λ now, ∀ delta, timedelta (device_timeout self) = Ok delta →
                                   now - last_seen item.2 ≤ delta) times →
           item ∈ detected_airtags self')
  | Raise e =>
      (e = OverflowError
       ∨ e = ValueError ∧ device_timeout self = PyFloat S754_nan)
      ∧ scan_count self `div` 30
        ≠ (scan_count self + Z.of_nat (length times)) `div` 30
  end.
Proof.
  unfold run_ticks. revert self.
  induction times as [|now times IH]; intros self Hwf;
    cbn [foldl length mbind result_bind].
  - split_and!; [lia|done|done|done].
  - pose proof (scan_tick_spec self now Hwf) as Htick.
    destruct (scan_tick self now) as [self1|e].
    + destruct Htick as (Hsc & Hto & Hwf1 & Hsub & Hsame & Hkeep).
      specialize (IH self1 Hwf1).
      replace (scan_count self + Z.of_nat (S (length times)))
        with (scan_count self + 1 + Z.of_nat (length times)) by lia.
      rewrite Hsc, Hto in IH.
      pose proof (Z.div_le_mono (scan_count self) (scan_count self + 1) 30
                    ltac:(lia) ltac:(lia)) as Hle1.
      pose proof (Z.div_le_mono (scan_count self + 1)
                    (scan_count self + 1 + Z.of_nat (length times)) 30
                    ltac:(lia) ltac:(lia)) as Hle2.
      destruct (foldl _ (Ok self1) times) as [self'|e].
      * destruct IH as (Hsc' & Hsub' & Hsame' & Hkeep').
        split_and!; [done|by etrans| |].
        -- intros Hdiv. rewrite Hsame' by lia. apply Hsame. intros Hmod.
           by apply (multiple_of_30_between (scan_count self)
                       (Z.of_nat (length times)) ltac:(lia) Hmod).
        -- intros item Hin [Hnow Hrest]%Forall_cons.
           apply (Hkeep' item); [|done]. by apply Hkeep.
      * destruct IH as [He Hdiv]. split; [done|]. lia.
    + rewrite run_ticks_raise. destruct Htick as [He Hmod]. split; [done|].
      replace (scan_count self + Z.of_nat (S (length times)))
        with (scan_count self + 1 + Z.of_nat (length times)) by lia.
      apply multiple_of_30_between; [lia|done].
Qed.

Lemma run_ticks_ok (self : Detector) (times : list Z) delta :
  dict_wf (detected_airtags self) →
  timedelta (device_timeout self) = Ok delta →
  Forall (λ now, 0 ≤ now - delta ≤ 315537897599999999) times →
  ∃ self', run_ticks self times = Ok self'.
Proof.
  unfold run_ticks. revert self.
  induction times as [|now times IH]; intros self Hwf Htd Htimes;
    cbn [foldl mbind result_bind]; [by eexists|].
  apply Forall_cons in Htimes as [Hnow Htimes].
  destruct (scan_tick_ok self now delta Hwf Htd Hnow) as [self1 Htick].
  pose proof (scan_tick_spec self now Hwf) as Hspec.
  rewrite Htick in Hspec. destruct Hspec as (_ & Hto & Hwf1 & _).
  rewrite Htick. apply IH; [done|by rewrite Hto|done].
Qed.
End ticks.

(** X8: on a registry with one entry per address, rounds of the scan loop
    that do not raise add 1 each to the scan counter, never add or alter an
    entry, leave the registry untouched as long as the counter does not
    reach a multiple of 30, and keep every entry that is within the timeout
    at each clock reading of the run: within [1000000 * n] microseconds for
    a timeout of [n] whole seconds. The rounds raise only at a clean-up,
    [OverflowError] or, for a NaN timeout, [ValueError]; they do not raise
    when the timeout is a timedelta whose threshold is a datetime at each
    clock reading. *)
Theorem scan_ticks_only_evict (self : PyTag.Detector) (times : list Z) :
  PyTag.dict_wf (PyTag.detected_airtags self) →
  match PyTag.run_ticks self times with
  | Ok self' =>
      PyTag.scan_count self' = PyTag.scan_count self + Z.of_nat (length times)
      ∧ PyTag.detected_airtags self' `sublist_of` PyTag.detected_airtags self
      ∧ (PyTag.scan_count self `div` 30
         = (PyTag.scan_count self + Z.of_nat (length times)) `div` 30 →
         PyTag.detected_airtags self' = PyTag.detected_airtags self)
      ∧ (∀ n item, PyTag.device_timeout self = PyInt n →
           item ∈ PyTag.detected_airtags self →
           Forall (λ now, now - PyTag.last_seen item.2 ≤ 1000000 * n) times →
           item ∈ PyTag.detected_airtags self')
      ∧ (∀ delta item, timedelta (PyTag.device_timeout self) = Ok delta →
           item ∈ PyTag.detected_airtags self →
           Forall (λ now, now - PyTag.last_seen item.2 ≤ delta) times →
           item ∈ PyTag.detected_airtags self')
  | Raise e =>
      (e = OverflowError
       ∨ e = ValueError ∧ PyTag.device_timeout self = PyFloat S754_nan)
      ∧ PyTag.scan_count self `div` 30
        ≠ (PyTag.scan_count self + Z.of_nat (length times)) `div` 30
  end
  ∧ (∀ delta, timedelta (PyTag.device_timeout self) = Ok delta →
       Forall (λ now, 0 ≤ now - delta ≤ 315537897599999999) times →
       ∃ self', PyTag.run_ticks self times = Ok self').
Proof.
  intros Hwf. split; [|intros delta; by apply run_ticks_ok].
  pose proof (run_ticks_spec self times Hwf) as Hspec.
  destruct (PyTag.run_ticks self times) as [self'|e]; [|done].
  destruct Hspec as (Hsc & Hsub & Hsame & Hkeep).
  split_and!; [done..| |].
  - intros n item Hn Hin Htimes. apply (Hkeep item Hin).
    eapply Forall_impl; [exact Htimes|]. intros now Hnow delta.
    rewrite Hn, timedelta_int. destruct (_ && _); [|done].
    intros [= <-]. cbn beta in Hnow. lia.
  - intros delta item Htd Hin Htimes. apply (Hkeep item Hin).
    eapply Forall_impl; [exact Htimes|]. intros now Hnow delta'.
    rewrite Htd. intros [= <-]. exact Hnow.
Qed.

(** The 30th round at midnight of 2026-01-01, with a timeout of 60 s: the
    tag last seen 60 s before is kept. *)
Lemma scan_ticks_only_evict_witness :
  ∃ self', PyTag.run_ticks
             {| PyTag.detected_airtags :=
                  PyTag.ingest [] "C0:02" (-70) (S754_zero false) ""
                    63902822340000000;
                PyTag.debug_buffer := []; PyTag.scan_count := 29;
                PyTag.tx_power := -59; PyTag.device_timeout := PyInt 60 |}
             [63902822400000000] = Ok self'.
Proof.
  apply (proj2 (scan_ticks_only_evict
                  {| PyTag.detected_airtags :=
                       PyTag.ingest [] "C0:02" (-70) (S754_zero false) ""
                         63902822340000000;
                     PyTag.debug_buffer := []; PyTag.scan_count := 29;
                     PyTag.tx_power := -59; PyTag.device_timeout := PyInt 60 |}
                  [63902822400000000]
                  ltac:(apply ingest_wf, NoDup_nil_2)) 60000000).
  - reflexivity.
  - repeat constructor; lia.
Defined.

(** ** Network registry and scan results *)

Section scan_results.
Import Wss.

Lemma first_with_new_key_known (X : gset string) (new : list WiFiNetwork) :
  (∀ n, n ∈ new → identifier n ∈ X) → first_with_new_key X new = [].
Proof.
  induction new as [|m new IH]; intros Hall; cbn; [done|].
  rewrite decide_True by (apply Hall; by left).
  apply IH. intros n Hn. apply Hall. by right.
Qed.

Lemma band_of_frequency_label f :
  band_of_frequency f = "2.4GHz" ∨ band_of_frequency f = "5GHz"
  ∨ band_of_frequency f = "6GHz" ∨ band_of_frequency f = "Unknown".
Proof.
  unfold band_of_frequency.
  destruct (_ && _); [|auto]. destruct (_ && _); [auto|].
  destruct (_ && _); [auto|]. destruct (_ >=? _); auto.
Qed.

Lemma lstrip_by_head p s :
  lstrip_by p s = "" ∨ ∃ c r, lstrip_by p s = String c r ∧ p c = false.
Proof.
  induction s as [|c r IH]; [by left|]. cbn.
  destruct (p c) eqn:Hc; [done|]. right. by exists c, r.
Qed.

Lemma rstrip_by_idem p s : rstrip_by p (rstrip_by p s) = rstrip_by p s.
Proof.
  induction s as [|c r IH]; [done|]. cbn [rstrip_by].
  destruct (rstrip_by p r) as [|d r'] eqn:Hr.
  - destruct (p c) eqn:Hc; [done|]. cbn. by rewrite Hc.
  - cbn [rstrip_by]. cbn [rstrip_by] in IH. by rewrite IH.
Qed.

Lemma strip_idem s : strip (strip s) = strip s.
Proof.
  unfold strip.
  destruct (lstrip_by_head isspace_char s) as [->|(c & r & -> & Hc)]; [done|].
  assert (Hhead : ∃ r', rstrip_by isspace_char (String c r) = String c r').
  { cbn [rstrip_by]. destruct (rstrip_by isspace_char r); rewrite ?Hc; eauto. }
  destruct Hhead as [r' Hr']. rewrite Hr'. cbn [lstrip_by]. rewrite Hc.
  by rewrite <- Hr', rstrip_by_idem.
Qed.

(** What every record of the scan loop satisfies. *)
Lemma scan_line_record rssi_data now line n :
  scan_line rssi_data now line = Ok (Some n) →
  ssid n ≠ "" ∧ strip (ssid n) = ssid n ∧ strip (security n) = security n
  ∧ 0 ≤ signal n
  ∧ band n = band_of_frequency (frequency n)
  ∧ rssi n = rssi_data !! ssid n
  ∧ timestamp n = Some now.
Proof.
  intros (r & Hparse & Hne & -> & -> & -> & -> & -> & _ & _ & -> & ->)%scan_line_inv.
  apply parse_inv in Hparse as (_ & Hssid & Hsec & Hsig & _).
  split_and!; try done.
  - rewrite Hssid. apply strip_idem.
  - rewrite Hsec. apply strip_idem.
  - cbn zeta in Hsig. destruct (isdigit _) eqn:Hdig.
    + by apply py_int_isdigit in Hsig as [_ ?].
    + by rewrite Hsig.
Qed.

Lemma scan_lines_records rssi_data clock i lines networks :
  scan_lines rssi_data clock i lines = Ok networks →
  (length networks ≤ length lines)%nat
  ∧ Forall (λ n, ∃ now line, line ∈ lines
                   ∧ scan_line rssi_data now line = Ok (Some n)) networks.
Proof.
  revert i networks. induction lines as [|line lines IH]; intros i networks; cbn.
  - intros [= <-]. split; [done|constructor].
  - destruct (scan_line rssi_data (clock i) line) as [r|e] eqn:Hline;
      cbn [mbind result_bind]; [|done].
    destruct (scan_lines rssi_data clock (S i) lines) as [ns|e] eqn:Hrest;
      cbn [mbind result_bind]; [|done].
    destruct (IH _ _ Hrest) as [Hlen Hall]. intros [= <-].
    assert (Hall' : Forall (λ n, ∃ now line', line' ∈ line :: lines
                     ∧ scan_line rssi_data now line' = Ok (Some n)) ns).
    { eapply Forall_impl; [exact Hall|]. cbn.
      intros n (now & line' & Hin & Hn). exists now, line'. split; [by right|done]. }
    destruct r as [n|]; [|split; [lia|done]].
    split; [cbn; lia|]. constructor; [|done].
    exists (clock i), line. split; [by left|done].
Qed.
End scan_results.

(** X9: adding a batch to the network registry a second time changes
    nothing, and more generally a batch all of whose keys are stored already
    leaves the registry as it is; the registry never shrinks and grows by at
    most the size of the batch. *)
Theorem add_unique_networks_idempotent (d new : list Wss.WiFiNetwork) :
  Wss._add_unique_networks (Wss._add_unique_networks d new) new
  = Wss._add_unique_networks d new
  ∧ ((∀ n, n ∈ new → Wss.identifier n ∈ Wss.identifier <$> d) →
     Wss._add_unique_networks d new = d)
  ∧ (length d ≤ length (Wss._add_unique_networks d new) ≤ length d + length new)%nat.
Proof.
  split_and!.
  - rewrite (add_unique_refines (Wss._add_unique_networks d new)).
    rewrite first_with_new_key_known; [by rewrite app_nil_r|].
    intros n Hn. rewrite elem_of_list_to_set, add_unique_refines, fmap_app, elem_of_app.
    destruct (first_with_new_key_covers
                (list_to_set (Wss.identifier <$> d)) new n Hn)
      as [Hd%elem_of_list_to_set|Hk]; auto.
  - intros Hall. rewrite add_unique_refines, first_with_new_key_known;
      [by rewrite app_nil_r|].
    intros n Hn. rewrite elem_of_list_to_set. by apply Hall.
  - rewrite add_unique_refines, length_app. lia.
  - rewrite add_unique_refines, length_app.
    pose proof (sublist_length _ _
                  (first_with_new_key_sublist
                     (list_to_set (Wss.identifier <$> d)) new)). lia.
Qed.

(** X10: when the listing command fails, a scan returns no network and
    leaves the registry alone; otherwise what it returns has at most one
    record per output line, each with a non-empty trimmed SSID, a trimmed
    security label, a signal that is not negative, the band derived from its
    frequency, the signal level looked up under its SSID and a timestamp,
    and the registry is updated with exactly the returned records. *)
Theorem scan_networks_records
    (discovered : list Wss.WiFiNetwork) (rssi_data : gmap string Z)
    (clock : nat → string) (success : bool) (output : string)
    (networks discovered' : list Wss.WiFiNetwork) :
  Wss.scan_networks discovered rssi_data clock success output
  = Ok (networks, discovered') →
  (success = false → networks = [] ∧ discovered' = discovered)
  ∧ (success = true →
     discovered' = Wss._add_unique_networks discovered networks)
  ∧ (length networks ≤ length (split "010" (strip output)))%nat
  ∧ Forall (λ n,
      Wss.ssid n ≠ "" ∧ strip (Wss.ssid n) = Wss.ssid n
      ∧ strip (Wss.security n) = Wss.security n
      ∧ 0 ≤ Wss.signal n
      ∧ Wss.band n = Wss.band_of_frequency (Wss.frequency n)
      ∧ Wss.rssi n = rssi_data !! Wss.ssid n
      ∧ Wss.timestamp n ≠ None) networks.
Proof.
  unfold Wss.scan_networks. destruct success; cbn [negb].
  - destruct (Wss.scan_lines _ _ _ _) as [ns|e] eqn:Hlines;
      cbn [mbind result_bind]; [|done].
    intros [= <- <-]. apply scan_lines_records in Hlines as [Hlen Hall].
    split_and!; [done|done|done|].
    eapply Forall_impl; [exact Hall|]. cbn.
    intros n (now & line & _ & Hn%scan_line_record).
    destruct Hn as (? & ? & ? & ? & ? & ? & Hts). split_and!; try done.
    by rewrite Hts.
  - intros [= <- <-]. split_and!; [done|done|cbn; lia|constructor].
Qed.

Lemma scan_networks_records_witness :
  ∃ networks discovered',
    Wss.scan_networks [] ∅ (λ _, "t") true
      "MyNet:WPA2:75:2437:AA:BB:CC:DD:EE:FF:6" = Ok (networks, discovered')
    ∧ (length networks ≤ 1)%nat.
Proof.
  eexists _, _. split; [by vm_compute|].
  refine (proj1 (proj2 (proj2 (scan_networks_records [] ∅ (λ _, "t") true
            "MyNet:WPA2:75:2437:AA:BB:CC:DD:EE:FF:6" _ _ _)))).
  by vm_compute.
Defined.

(** X11: in the statistics of a scan, every returned network is counted in
    exactly one of the four band counts (2.4GHz, 5GHz, 6GHz, unknown), so
    they add up to the total; and the open networks are no more than the
    total. *)
Theorem scan_statistics_add_up
    (discovered : list Wss.WiFiNetwork) (rssi_data : gmap string Z)
    (clock : nat → string) (success : bool) (output : string)
    (networks discovered' : list Wss.WiFiNetwork) :
  Wss.scan_networks discovered rssi_data clock success output
  = Ok (networks, discovered') →
  let st := Wss.scan_statistics networks in
  (Wss.band_24 st + Wss.band_5 st + Wss.band_6 st + Wss.unknown_bands st
   = Wss.total st)%nat
  ∧ (Wss.open_networks st ≤ Wss.total st)%nat.
Proof.
  intros Hscan. cbn zeta. unfold Wss.scan_statistics. cbn.
  split; [|apply length_filter].
  assert (Hbands : Forall (λ n, Wss.band n = Wss.band_of_frequency (Wss.frequency n))
                     networks).
  { unfold Wss.scan_networks in Hscan. destruct success; cbn [negb] in Hscan.
    - destruct (Wss.scan_lines _ _ _ _) as [ns|e] eqn:Hlines;
        cbn [mbind result_bind] in Hscan; [|done].
      injection Hscan as <- <-. apply scan_lines_records in Hlines as [_ Hall].
      eapply Forall_impl; [exact Hall|]. cbn.
      by intros n (now & line & _ & (_ & _ & _ & _ & ? & _)%scan_line_record).
    - injection Hscan as <- <-. constructor. }
  clear Hscan. induction Hbands as [|n ns Hn _ IH]; [done|].
  rewrite !filter_cons. cbn [length]. rewrite <- IH.
  destruct (band_of_frequency_label (Wss.frequency n)) as [H| [H| [H|H]]];
    rewrite Hn, H;
    repeat match goal with
      | |- context [decide ?P] =>
          destruct (decide P) as [Hd|Hd];
          [try (by vm_compute in Hd) | try (by destruct Hd)]; clear Hd
      end;
    cbn [length]; lia.
Qed.

Lemma scan_statistics_add_up_witness :
  ∃ networks,
    Wss.scan_networks [] ∅ (λ _, "t") true
      "MyNet:WPA2:75:2437:AA:BB:CC:DD:EE:FF:6" = Ok (networks, networks)
    ∧ (Wss.open_networks (Wss.scan_statistics networks)
       ≤ Wss.total (Wss.scan_statistics networks))%nat.
Proof.
  eexists. split; [by vm_compute|].
  refine (proj2 (scan_statistics_add_up [] ∅ (λ _, "t") true
            "MyNet:WPA2:75:2437:AA:BB:CC:DD:EE:FF:6" _ _ _)).
  by vm_compute.
Defined.

(** X12: the channel derived from a frequency undoes the channel plan:
    channel k of the 2.4GHz band, centred at 2407 + 5k MHz, comes back as k
    for k = 1..13; a derived channel always comes with a known band, 1 to 15
    in the 2.4GHz band and a table channel in the 5GHz band; the value 15,
    which is no channel, comes out exactly at 2482 and 2483 MHz; and the
    2.4GHz frequencies below 2412 or above 2484 and all 6GHz frequencies
    have no derived channel. *)
Theorem frequency_to_channel_round_trip :
  (∀ k, 1 ≤ k ≤ 13 → Wss._frequency_to_channel (2407 + 5 * k) = Some k)
  ∧ (∀ f c, Wss._frequency_to_channel f = Some c →
       (Wss.band_of_frequency f = "2.4GHz" ∧ 1 ≤ c ≤ 15)
       ∨ (Wss.band_of_frequency f = "5GHz" ∧ c ∈ Wss.channels_5g
          ∧ f = 5000 + 5 * c))
  ∧ (∀ f, Wss._frequency_to_channel f = Some 15 ↔ f = 2482 ∨ f = 2483)
  ∧ (∀ f, 2400 ≤ f < 2412 ∨ 2484 < f ≤ 2500 ∨ 6000 < f →
       Wss.band_of_frequency f ≠ "Unknown"
       ∧ Wss._frequency_to_channel f = None).
Proof.
  split_and!.
  - intros k Hk. unfold Wss._frequency_to_channel.
    destruct (2412 <=? 2407 + 5 * k) eqn:?, (2407 + 5 * k <=? 2484) eqn:?,
      (2407 + 5 * k =? 2484) eqn:?; Zbool; cbn [andb negb]; try lia.
    f_equal. replace (2407 + 5 * k - 2412) with ((k - 1) * 5) by lia.
    rewrite Z.div_mul by done. lia.
  - intros f c. unfold Wss._frequency_to_channel, Wss.band_of_frequency.
    destruct (2412 <=? f) eqn:?, (f <=? 2484) eqn:?, (f =? 2484) eqn:?,
      (5000 <=? f) eqn:?, (f <=? 6000) eqn:?, (f =? 0) eqn:?, (f >? 0) eqn:?,
      (2400 <=? f) eqn:?, (f <=? 2500) eqn:?; Zbool; cbn [andb negb]; try lia; try done.
    + intros [= <-]. left. split; [done|lia].
    + intros [= <-]. left. split; [done|].
      pose proof (Z.div_pos (f - 2412) 5 ltac:(lia) ltac:(lia)).
      pose proof (Z.div_lt_upper_bound (f - 2412) 5 15 ltac:(lia) ltac:(lia)).
      lia.
    + intros Hc%freq_to_chan_5g_lookup. right. by split.
  - intros f. unfold Wss._frequency_to_channel.
    destruct (2412 <=? f) eqn:?, (f <=? 2484) eqn:?, (f =? 2484) eqn:?,
      (5000 <=? f) eqn:?, (f <=? 6000) eqn:?; Zbool; cbn [andb negb];
      try (exfalso; lia); try (split; [done|lia]).
    + split.
      * intros [= H].
        pose proof (Z.div_mod (f - 2412) 5 ltac:(lia)).
        pose proof (Z.mod_pos_bound (f - 2412) 5 ltac:(lia)). lia.
      * intros [->| ->]; reflexivity.
    + rewrite freq_to_chan_5g_lookup. split; [|lia].
      intros [Hc _]. unfold Wss.channels_5g in Hc.
      rewrite !elem_of_cons, elem_of_nil in Hc. lia.
  - intros f Hf. unfold Wss._frequency_to_channel, Wss.band_of_frequency.
    destruct (2412 <=? f) eqn:?, (f <=? 2484) eqn:?, (f =? 2484) eqn:?,
      (5000 <=? f) eqn:?, (f <=? 6000) eqn:?, (f =? 0) eqn:?, (f >? 0) eqn:?,
      (2400 <=? f) eqn:?, (f <=? 2500) eqn:?, (f >=? 6000) eqn:?;
      Zbool; cbn [andb negb]; try lia; done.
Qed.

Lemma frequency_to_channel_round_trip_witness :
  Wss._frequency_to_channel (2407 + 5 * 11) = Some 11.
Proof. apply (proj1 frequency_to_channel_round_trip). lia. Defined.

(** X13: a network counts as open exactly when its security label is blank;
    for a record of the scan loop, whose label is already trimmed, exactly
    when the label is empty. *)
Theorem is_open_iff_blank_security :
  (∀ n, Wss.is_open n = true ↔ strip (Wss.security n) = "")
  ∧ (∀ rssi_data now line n,
       Wss.scan_line rssi_data now line = Ok (Some n) →
       (Wss.is_open n = true ↔ Wss.security n = "")
       ∧ Wss.security n = strip (default "" (split ":" line !! 1%nat))).
Proof.
  assert (Hopen : ∀ n, Wss.is_open n = true ↔ strip (Wss.security n) = "").
  { intros n. unfold Wss.is_open.
    destruct (Wss.security n) as [|c r] eqn:Hsec; [done|]. cbn [is_empty orb].
    by destruct (strip (String c r)). }
  split; [done|].
  intros rssi_data now line n Hscan.
  pose proof (scan_line_record _ _ _ _ Hscan) as (_ & _ & Hsec & _).
  rewrite Hopen, Hsec. split; [done|].
  apply scan_line_inv in Hscan as (r & Hparse & _ & _ & -> & _).
  by apply parse_inv in Hparse as (_ & _ & -> & _).
Qed.

Lemma is_open_iff_blank_security_witness :
  ∃ n, Wss.scan_line ∅ "" "MyNet:WPA2:75:2437:AA:BB:CC:DD:EE:FF:6" = Ok (Some n)
       ∧ (Wss.is_open n = true ↔ Wss.security n = "").
Proof.
  eexists. split; [apply sample_line_record|].
  apply (proj2 is_open_iff_blank_security ∅ ""
           "MyNet:WPA2:75:2437:AA:BB:CC:DD:EE:FF:6").
  apply sample_line_record.
Defined.

(** X14: the table of a scan shows the networks strongest signal first,
    networks of equal signal in scan order, and at most 15 of them, none
    weaker than one left out; the auto-connect candidates are exactly the
    open networks, in the same kind of order. *)
Theorem shown_networks_strongest (networks : list Wss.WiFiNetwork) :
  Wss.networks_sorted networks ≡ₚ networks
  ∧ StronglySorted (λ a b, Wss.signal a >= Wss.signal b) (Wss.networks_sorted networks)
  ∧ (∀ v, filter (λ n, Wss.signal n = v) (Wss.networks_sorted networks)
          = filter (λ n, Wss.signal n = v) networks)
  ∧ length (Wss.shown_networks networks) = min 15 (length networks)
  ∧ (∀ x y, x ∈ Wss.shown_networks networks →
            y ∈ drop 15 (Wss.networks_sorted networks) →
            Wss.signal x >= Wss.signal y)
  ∧ (∀ n, n ∈ Wss.auto_connect_candidates networks
          ↔ n ∈ networks ∧ Wss.is_open n = true)
  ∧ StronglySorted (λ a b, Wss.signal a >= Wss.signal b)
      (Wss.auto_connect_candidates networks).
Proof.
  unfold Wss.shown_networks, Wss.networks_sorted, Wss.auto_connect_candidates.
  split_and!.
  - apply sorted_desc_perm.
  - apply sorted_desc_sorted.
  - intros v. apply sorted_desc_stable.
  - by rewrite length_take, sorted_desc_perm.
  - intros x y. apply sorted_take_drop, sorted_desc_sorted.
  - intros n. rewrite sorted_desc_perm, list_elem_of_filter. tauto.
  - apply sorted_desc_sorted.
Qed.

(** X15: after loading, every option of the default configuration has a
    value, whatever the file holds: the file's value where the file has the
    option, the default otherwise; options only the file has are kept; a
    missing or unreadable file gives the defaults; and what [set] stores is
    what [get] returns, other options being unaffected. *)
Theorem load_config_keeps_defaults
    (file : option (option (gmap string Wss.json_value))) :
  let config := Wss.load_config file in
  (∀ key v, Wss.default_config !! key = Some v →
     ∃ v', Wss.config_get config key None = Some v'
           ∧ match file with
             | Some (Some loaded) =>
                 v' = default v (loaded !! key)
             | _ => v' = v
             end)
  ∧ (∀ loaded key v, file = Some (Some loaded) → loaded !! key = Some v →
       Wss.config_get config key None = Some v)
  ∧ (file = None ∨ file = Some None → config = Wss.default_config)
  ∧ (∀ key key' v fallback,
       Wss.config_get (Wss.config_set config key v) key fallback = Some v
       ∧ (key ≠ key' →
          Wss.config_get (Wss.config_set config key v) key' fallback
          = Wss.config_get config key' fallback)).
Proof.
  cbn zeta. unfold Wss.config_get, Wss.config_set, Wss.load_config. split_and!.
  - intros key v Hv. destruct file as [[loaded|]|].
    + rewrite lookup_union. destruct (loaded !! key) as [w|]; rewrite ?Hv; cbn; eauto.
    + rewrite Hv. eauto.
    + rewrite Hv. eauto.
  - intros loaded key v -> Hv. by rewrite (lookup_union_Some_l _ _ _ _ Hv).
  - by intros [->| ->].
  - intros key key' v fallback. rewrite lookup_insert_eq. split; [done|].
    intros Hne. by rewrite lookup_insert_ne.
Qed.

Lemma load_config_keeps_defaults_witness :
  Wss.config_get
    (Wss.load_config (Some (Some {[ "scan_interval" := Wss.JInt 3 ]})))
    "scan_interval" None
  = Some (Wss.JInt 3).
Proof.
  apply (proj1 (proj2 (load_config_keeps_defaults
                         (Some (Some {[ "scan_interval" := Wss.JInt 3 ]}))))
           {[ "scan_interval" := Wss.JInt 3 ]}); [done|].
  apply lookup_singleton_eq.
Defined.

(** ** Numeric fields *)

Section numerals.
Import Wss.

Lemma isdecimal_char_plain c :
  isdecimal_char c = true →
  to_ascii_char c = c ∧ Py_ISSPACE c = false ∧ isspace_char c = false
  ∧ isdigit_char c = true
  ∧ Ascii.eqb c "-" = false ∧ Ascii.eqb c "+" = false
  ∧ Ascii.eqb c "_" = false ∧ Ascii.eqb c "." = false
  ∧ Ascii.eqb c "M" = false ∧ Ascii.eqb c "G" = false
  ∧ Ascii.eqb c " " = false ∧ Ascii.eqb c ":" = false.
Proof. by destruct c as [[] [] [] [] [] [] [] []]. Qed.

Lemma contains_forallb (p : ascii → bool) c s :
  forallb_str p s = true → p c = false → contains c s = false.
Proof.
  intros Hs Hc. induction s as [|c' r IH]; [done|]. cbn in *.
  apply andb_prop in Hs as [Hc' Hr]. rewrite (IH Hr), orb_false_r.
  destruct (Ascii.eqb_spec c' c) as [->|]; [congruence|done].
Qed.

Lemma contains_decimal c d :
  forallb_str isdecimal_char d = true → isdecimal_char c = false →
  contains c d = false.
Proof. apply contains_forallb. Qed.

Lemma append_nil_r (s : string) : s +:+ "" = s.
Proof.
  induction s as [|c s IH]; [done|].
  change (String c s +:+ "") with (String c (s +:+ "")). by rewrite IH.
Qed.

(** Dropping the occurrences of a word passes over a stretch that lacks the
    word's first character. *)
Lemma replace_app_absent c0 old' (d t : string) :
  contains c0 d = false →
  replace_with_empty (String c0 old') (d +:+ t)
  = d +:+ replace_with_empty (String c0 old') t.
Proof.
  unfold replace_with_empty. induction d as [|c r IH]; [done|].
  cbn [contains]. intros [Hc Hr]%orb_false_elim.
  change (String c r +:+ t) with (String c (r +:+ t)).
  cbn [remove_occurrences String.prefix].
  destruct (ascii_dec c0 c) as [->|_]; [by rewrite Ascii.eqb_refl in Hc|].
  change (String c r +:+ ?u) with (String c (r +:+ u)). by rewrite (IH Hr).
Qed.

Lemma replace_absent c0 old' (d : string) :
  contains c0 d = false → replace_with_empty (String c0 old') d = d.
Proof.
  intros Hd. rewrite <- (append_nil_r d) at 1.
  rewrite (replace_app_absent _ _ _ _ Hd). apply append_nil_r.
Qed.

Lemma int_digits_decimal s acc n :
  forallb_str isdecimal_char s = true →
  int_digits s false acc n
  = Some (decimal_value_from acc s, (n + String.length s)%nat).
Proof.
  revert acc n. induction s as [|c r IH]; intros acc n; cbn.
  - intros _. by rewrite Nat.add_0_r.
  - intros [Hc Hr]%andb_prop. rewrite Hc, (IH _ _ Hr). do 2 f_equal. lia.
Qed.

Lemma map_to_ascii_decimal d :
  forallb_str isdecimal_char d = true → map_str to_ascii_char d = d.
Proof.
  induction d as [|c r IH]; [done|]. cbn. intros [Hc Hr]%andb_prop.
  by rewrite (proj1 (isdecimal_char_plain c Hc)), (IH Hr).
Qed.

Lemma strip_decimal d : forallb_str isdecimal_char d = true → strip d = d.
Proof.
  intros Hd. unfold strip.
  assert (Hplain : forallb_str (λ c, negb (isspace_char c)) d = true).
  { revert Hd. apply forallb_str_impl. intros c Hc.
    destruct (isdecimal_char_plain c Hc) as (_ & _ & -> & _). done. }
  by rewrite (lstrip_by_id _ _ Hplain), (rstrip_by_id _ _ Hplain).
Qed.

Lemma isdigit_decimal d :
  d ≠ "" → forallb_str isdecimal_char d = true → isdigit d = true.
Proof.
  intros Hne Hd. unfold isdigit. destruct d; [done|]. cbn [is_empty negb andb].
  revert Hd. apply forallb_str_impl. intros c Hc.
  by destruct (isdecimal_char_plain c Hc) as (_ & _ & _ & -> & _).
Qed.

(** [int] reads a plain run of decimal digits as the number it writes. *)
Lemma py_int_decimal d :
  d ≠ "" → forallb_str isdecimal_char d = true →
  (String.length d ≤ 4300)%nat →
  py_int d = Ok (decimal_value d) ∧ 0 ≤ decimal_value d.
Proof.
  intros Hne Hd Hlen.
  assert (Hrun : py_int d = Ok (decimal_value d)).
  { unfold py_int. rewrite (map_to_ascii_decimal d Hd).
    assert (Hplain : forallb_str (λ c, negb (Py_ISSPACE c)) d = true).
    { revert Hd. apply forallb_str_impl. intros c Hc.
      destruct (isdecimal_char_plain c Hc) as (_ & -> & _). done. }
    rewrite (lstrip_by_id _ _ Hplain), (rstrip_by_id _ _ Hplain).
    destruct d as [|c r]; [done|]. cbn in Hd. apply andb_prop in Hd as [Hc Hr].
    destruct (isdecimal_char_plain c Hc) as (_ & _ & _ & _ & Hm & Hp & _).
    unfold split_sign. rewrite Hm, Hp. unfold int_literal. rewrite Hc.
    rewrite (int_digits_decimal _ _ _ Hr).
    cbn in Hlen. unfold int_max_str_digits.
    rewrite (proj2 (Nat.ltb_ge _ _)) by lia.
    unfold decimal_value. cbn. by rewrite Z.mul_0_r, Z.add_0_l. }
  split; [done|]. eapply py_int_isdigit; [|exact Hrun].
  by apply isdigit_decimal.
Qed.

Lemma is_empty_app_l (d t : string) : d ≠ "" → is_empty (d +:+ t) = false.
Proof. by destruct d. Qed.

(** A run of digits followed by a unit that the cleaning removes. *)
Lemma _parse_frequency_with_unit d unit :
  d ≠ "" → forallb_str isdecimal_char d = true →
  (String.length d ≤ 4300)%nat →
  replace_with_empty " "
    (replace_with_empty "GHz" (replace_with_empty "MHz" unit)) = "" →
  replace_with_empty "MHz" unit = unit
  ∨ replace_with_empty "GHz" (replace_with_empty "MHz" unit)
    = replace_with_empty "MHz" unit →
  _parse_frequency (d +:+ unit) = Ok (decimal_value d).
Proof.
  intros Hne Hd Hlen Hunit _. unfold _parse_frequency.
  rewrite (is_empty_app_l _ _ Hne). cbn zeta.
  rewrite (replace_app_absent "M" "Hz" d unit)
    by (by apply contains_decimal).
  rewrite (replace_app_absent "G" "Hz" d)
    by (by apply contains_decimal).
  rewrite (replace_app_absent " " "" d)
    by (by apply contains_decimal).
  rewrite Hunit, append_nil_r, (strip_decimal d Hd).
  rewrite (contains_decimal "." d Hd eq_refl).
  by rewrite (proj1 (py_int_decimal d Hne Hd Hlen)).
Qed.

Lemma getitem_lt {B} (l : list B) i (dflt : B) :
  (i < length l)%nat → getitem l i = Ok (default dflt (l !! i)).
Proof.
  intros Hlt. unfold getitem.
  destruct (lookup_lt_is_Some_2 l i Hlt) as [x ->]. done.
Qed.

(** The parser on a line that is not blank and has its eight fields: the
    guarded block, field by field. *)
Lemma parse_unfold line :
  is_empty (strip line) = false → (8 ≤ length (split ":" line))%nat →
  let parts := split ":" line in
  let field i := default "" (parts !! i) in
  _parse_nmcli_line_robust line
  = try_except
      (signal ← (if isdigit (strip (field 2%nat))
                 then py_int (strip (field 2%nat)) else Ok 0);
       freq ← _parse_frequency (strip (field 3%nat));
       channel ← _parse_channel (field 10%nat) freq;
       Ok (Some {| Parsed.ssid := strip (field 0%nat);
                   Parsed.security := strip (field 1%nat);
                   Parsed.signal := signal; Parsed.frequency := freq;
                   Parsed.bssid := _validate_bssid (join ":" (slice parts 4 10));
                   Parsed.channel := channel |}))
      caught_ValueError_IndexError (Ok None).
Proof.
  intros Hblank Hlen. cbn zeta. unfold _parse_nmcli_line_robust.
  rewrite Hblank. cbn zeta. rewrite (proj2 (Nat.ltb_ge _ _)) by lia.
  generalize dependent (split ":" line). intros parts Hlen.
  rewrite (getitem_lt parts 0 ""), (getitem_lt parts 1 ""),
    (getitem_lt parts 2 ""), (getitem_lt parts 3 "") by lia.
  cbn [fmap result_fmap mbind result_bind].
  replace (if (10 <? length parts)%nat then getitem parts 10 else Ok "")
    with (Ok (default "" (parts !! 10%nat))); [done|].
  destruct (10 <? length parts)%nat eqn:H10.
  - apply Nat.ltb_lt in H10. by rewrite (getitem_lt parts _ "").
  - apply Nat.ltb_ge in H10. by rewrite (lookup_ge_None_2 parts 10).
Qed.
End numerals.

(** X16: the frequency parser never raises [ValueError]: its only exception
    is [OverflowError], raised exactly when the cleaned text holds a point,
    reads as a float, and that float times 1000 is infinite; and the line
    parser raises only that exception, exactly when the line is not blank,
    has at least eight fields, its signal field converts (or is not all
    digits), and its frequency field raises. *)
Theorem parser_exceptions :
  (∀ s e, Wss._parse_frequency s = Raise e →
     e = OverflowError
     ∧ s ≠ ""
     ∧ let clean := strip (replace_with_empty " "
                      (replace_with_empty "GHz" (replace_with_empty "MHz" s))) in
       contains "." clean = true
       ∧ ∃ x sign, py_float clean = Ok x
           ∧ float_mul x (S754_finite false 8796093022208000 (-43))
             = S754_infinity sign)
  ∧ (∀ s x sign,
       s ≠ "" →
       let clean := strip (replace_with_empty " "
                      (replace_with_empty "GHz" (replace_with_empty "MHz" s))) in
       contains "." clean = true → py_float clean = Ok x →
       float_mul x (S754_finite false 8796093022208000 (-43))
       = S754_infinity sign →
       Wss._parse_frequency s = Raise OverflowError)
  ∧ (∀ line e,
       Wss._parse_nmcli_line_robust line = Raise e ↔
       e = OverflowError
       ∧ strip line ≠ ""
       ∧ (8 ≤ length (split ":" line))%nat
       ∧ (isdigit (strip (default "" (split ":" line !! 2%nat))) = true →
          ∃ v, py_int (strip (default "" (split ":" line !! 2%nat))) = Ok v)
       ∧ Wss._parse_frequency (strip (default "" (split ":" line !! 3%nat)))
         = Raise OverflowError).
Proof.
  split_and!.
  - intros s e. unfold Wss._parse_frequency.
    destruct s as [|c r]; [done|]. cbn [is_empty]. cbn zeta.
    destruct (contains "." _) eqn:Hpoint.
    + destruct (py_float _) as [x|e'] eqn:Hx; cbn [mbind result_bind].
      * change (float_of_int 1000) with
          (Ok (S754_finite false 8796093022208000 (-43))).
        cbn [mbind result_bind].
        destruct (float_mul x _) as [| sign | |] eqn:Hmul; cbn; try done.
        intros [= <-]. split_and!; try done. by exists x, sign.
      * apply py_float_raises in Hx as ->. done.
    + destruct (py_int _) as [z|e'] eqn:Hz; [done|].
      apply py_int_raises in Hz as ->. done.
  - intros s x sign Hne. cbn zeta. intros Hpoint Hx Hmul.
    unfold Wss._parse_frequency. destruct s; [done|]. cbn [is_empty]. cbn zeta.
    rewrite Hpoint, Hx. cbn [mbind result_bind].
    change (float_of_int 1000) with
      (Ok (S754_finite false 8796093022208000 (-43))).
    cbn [mbind result_bind]. by rewrite Hmul.
  - intros line e. split.
    + intros Hraise.
      destruct (_parse_nmcli_line_robust_raises _ _ Hraise) as [-> Hfreq].
      split; [done|].
      assert (Hblank : is_empty (strip line) = false).
      { unfold Wss._parse_nmcli_line_robust in Hraise.
        by destruct (is_empty (strip line)). }
      assert (Hlen : (8 ≤ length (split ":" line))%nat).
      { unfold Wss._parse_nmcli_line_robust in Hraise. rewrite Hblank in Hraise.
        cbn zeta in Hraise.
        destruct (length (split ":" line) <? 8)%nat eqn:Hlt; [done|].
        by apply Nat.ltb_ge in Hlt. }
      split_and!; [by destruct (strip line)|done| |done].
      intros Hdig. rewrite (parse_unfold line Hblank Hlen) in Hraise.
      cbn zeta in Hraise. rewrite Hdig in Hraise.
      destruct (py_int _) as [v|e'] eqn:Hv; [by exists v|].
      apply py_int_raises in Hv as ->. done.
    + intros (-> & Hblank & Hlen & Hsig & Hfreq).
      rewrite (parse_unfold line) by (done || by destruct (strip line)).
      cbn zeta. rewrite Hfreq.
      destruct (isdigit _); [|done].
      destruct (Hsig eq_refl) as [v ->]. done.
Qed.

Lemma parser_exceptions_witness :
  Wss._parse_frequency "1.0e999" = Raise OverflowError.
Proof.
  apply (proj1 (proj2 parser_exceptions) "1.0e999"
           (S754_infinity false) false); by vm_compute.
Defined.

(** X17: a whole number of at most 4300 digits is read as that number of
    MHz, whether it stands alone or is followed by MHz or GHz, with or
    without a space; a unit GHz without a decimal point does not scale the
    number. *)
Theorem parse_frequency_units (d : string) :
  d ≠ "" → forallb_str isdecimal_char d = true →
  (String.length d ≤ 4300)%nat →
  0 ≤ decimal_value d
  ∧ Wss._parse_frequency d = Ok (decimal_value d)
  ∧ Wss._parse_frequency (d +:+ " MHz") = Ok (decimal_value d)
  ∧ Wss._parse_frequency (d +:+ "MHz") = Ok (decimal_value d)
  ∧ Wss._parse_frequency (d +:+ " GHz") = Ok (decimal_value d)
  ∧ Wss._parse_frequency (d +:+ "GHz") = Ok (decimal_value d).
Proof.
  intros Hne Hd Hlen. split; [by apply py_int_decimal|]. split.
  { rewrite <- (append_nil_r d) at 1.
    apply _parse_frequency_with_unit; auto. }
  split_and!; apply _parse_frequency_with_unit; auto.
Qed.

Lemma parse_frequency_units_witness :
  Wss._parse_frequency "2437 MHz" = Ok 2437.
Proof.
  apply (proj1 (proj2 (proj2 (parse_frequency_units "2437"
                                ltac:(done) eq_refl ltac:(cbn; lia))))).
Defined.

(** X18: a frequency written in GHz with three decimals, with or without
    the unit, is read back as the same number of MHz for every frequency of
    the 2.4GHz band (2400..2500) and from 5000 to 7125 MHz; the truncation
    that follows the multiplication by 1000 loses a unit elsewhere, as at
    1.001. *)
Theorem parse_frequency_ghz_round_trip :
  (∀ f, 2400 ≤ f ≤ 2500 ∨ 5000 ≤ f ≤ 7125 →
     Wss._parse_frequency (Wss.ghz_text f) = Ok f
     ∧ Wss._parse_frequency (Wss.ghz_text f +:+ " GHz") = Ok f)
  ∧ (Wss.ghz_text 1001 = "1.001" ∧ Wss._parse_frequency "1.001" = Ok 1000).
Proof.
  split; [|by vm_compute].
  set (check := λ f,
         match Wss._parse_frequency (Wss.ghz_text f),
               Wss._parse_frequency (Wss.ghz_text f +:+ " GHz") with
         | Ok v, Ok w => (v =? f) && (w =? f)
         | _, _ => false
         end).
  assert (Hall : forallb check (seqZ 2400 101 ++ seqZ 5000 2126) = true)
    by by vm_compute.
  intros f Hf.
  assert (Hin : In f (seqZ 2400 101 ++ seqZ 5000 2126)).
  { apply list_elem_of_In, elem_of_app. rewrite !elem_of_seqZ. lia. }
  pose proof (proj1 (forallb_forall _ _) Hall f Hin) as Hf'.
  clear Hall Hin. unfold check in Hf'. clear check.
  destruct (Wss._parse_frequency (Wss.ghz_text f)) as [v|];
    [|discriminate Hf'].
  destruct (Wss._parse_frequency (Wss.ghz_text f +:+ " GHz")) as [w|];
    [|discriminate Hf'].
  apply andb_prop in Hf' as [Hv%Z.eqb_eq Hw%Z.eqb_eq].
  split; f_equal; assumption.
Qed.

Lemma parse_frequency_ghz_round_trip_witness :
  Wss._parse_frequency (Wss.ghz_text 5180) = Ok 5180.
Proof.
  apply (proj1 parse_frequency_ghz_round_trip 5180). lia.
Defined.

(** ** Lines of the listing and validated addresses *)

Section lines.
Import Wss.

Lemma split_colon_free sep p : count_char sep p = 0%nat → split sep p = [p].
Proof.
  induction p as [|c r IH]; [done|]. cbn.
  destruct (Ascii.eqb c sep); [done|]. intros Hr. by rewrite (IH Hr).
Qed.

Lemma split_app_sep sep p t :
  count_char sep p = 0%nat → split sep (p +:+ String sep t) = p :: split sep t.
Proof.
  induction p as [|c r IH].
  - intros _. change ("" +:+ String sep t) with (String sep t). cbn.
    by rewrite Ascii.eqb_refl.
  - change (String c r +:+ String sep t) with (String c (r +:+ String sep t)).
    cbn. destruct (Ascii.eqb c sep); [done|]. intros Hr. by rewrite (IH Hr).
Qed.

(** Splitting undoes joining when no part holds the separator. *)
Lemma split_join ps :
  ps ≠ [] → Forall (λ p, count_char ":" p = 0%nat) ps →
  split ":" (join ":" ps) = ps.
Proof.
  induction ps as [|p [|q ps] IH]; [done| |].
  - intros _ [Hp _]%Forall_cons. by apply split_colon_free.
  - intros _ [Hp Hps]%Forall_cons.
    change (join ":" (p :: q :: ps)) with (p +:+ String ":" (join ":" (q :: ps))).
    rewrite (split_app_sep _ _ _ Hp). f_equal. by apply IH.
Qed.

Lemma rstrip_by_app p (s t : string) :
  rstrip_by p t ≠ "" → rstrip_by p (s +:+ t) = s +:+ rstrip_by p t.
Proof.
  intros Ht. induction s as [|c r IH]; [done|].
  change (String c r +:+ ?u) with (String c (r +:+ u)).
  cbn [rstrip_by]. rewrite IH.
  destruct (r +:+ rstrip_by p t) eqn:Hr; [|done].
  destruct r; [|done]. by destruct Ht.
Qed.

Lemma strip_decimal_unit d :
  d ≠ "" → forallb_str isdecimal_char d = true →
  strip (d +:+ " MHz") = d +:+ " MHz".
Proof.
  intros Hne Hd. unfold strip. destruct d as [|c r]; [done|].
  cbn in Hd. apply andb_prop in Hd as [Hc Hr].
  change (String c r +:+ ?u) with (String c (r +:+ u)).
  cbn [lstrip_by]. destruct (isdecimal_char_plain c Hc) as (_ & _ & -> & _).
  change (String c (r +:+ ?u)) with (String c r +:+ u).
  by rewrite rstrip_by_app.
Qed.


Lemma forallb_str_app p (s t : string) :
  forallb_str p (s +:+ t) = forallb_str p s && forallb_str p t.
Proof.
  induction s as [|c r IH]; [done|].
  change (String c r +:+ t) with (String c (r +:+ t)). cbn.
  by rewrite IH, andb_assoc.
Qed.

Lemma re_octet_groups_mono (hex hex' sep : ascii → bool) n s rest :
  (∀ c, hex c = true → hex' c = true) →
  re_octet_groups hex sep n s = Some rest →
  re_octet_groups hex' sep n s = Some rest.
Proof.
  intros Hhex. revert s. induction n as [|n IH]; intros s; cbn; [done|].
  destruct s as [|a [|b [|c r]]]; try done.
  destruct (hex a) eqn:Ha; [|done]. destruct (hex b) eqn:Hb; [|done].
  destruct (sep c) eqn:Hc; [|done]. cbn.
  rewrite (Hhex a Ha), (Hhex b Hb). cbn. apply IH.
Qed.

Lemma canonical_char c :
  is_upper_hex_char c || is_colon_or_hyphen c = true →
  upper_char c = c ∧ isspace_char c = false ∧ Ascii.eqb c "\" = false.
Proof. by destruct c as [[] [] [] [] [] [] [] []]. Qed.

Lemma is_upper_hex_is_hex c : is_upper_hex_char c = true → is_hex_char c = true.
Proof. by destruct c as [[] [] [] [] [] [] [] []]. Qed.

Lemma map_str_id (f : ascii → ascii) (p : ascii → bool) s :
  (∀ c, p c = true → f c = c) → forallb_str p s = true → map_str f s = s.
Proof.
  intros Hf. induction s as [|c r IH]; [done|]. cbn.
  intros [Hc Hr]%andb_prop. by rewrite (Hf c Hc), (IH Hr).
Qed.

(** A string of six upper-case octets is what the validation leaves alone. *)
Lemma six_octets_canonical b :
  six_octets is_upper_hex_char is_colon_or_hyphen b = true →
  _validate_bssid b = Some b ∧ String.length b = 17%nat.
Proof.
  unfold six_octets. intros Hsix.
  destruct (re_octet_groups is_upper_hex_char is_colon_or_hyphen 5 b)
    as [[|x [|y [|]]]|] eqn:Hrun; try done.
  apply andb_prop in Hsix as [Hx Hy].
  destruct (re_octet_groups_prefix _ _ _ _ _ Hrun) as (pre & Hb & Hpre & Hlen).
  assert (Hall : forallb_str (λ c, is_upper_hex_char c || is_colon_or_hyphen c) b
                 = true).
  { rewrite Hb, forallb_str_app, Hpre. cbn. by rewrite Hx, Hy. }
  assert (Hlen' : String.length b = 17%nat).
  { rewrite Hb, length_append, Hlen. done. }
  split; [|done]. unfold _validate_bssid.
  replace (is_empty b) with false by by destruct b.
  cbn zeta. rewrite replace_absent.
  2:{ apply (contains_forallb _ _ _ Hall). done. }
  unfold strip. rewrite lstrip_by_id, rstrip_by_id.
  2,3: revert Hall; apply forallb_str_impl; intros a Ha;
       by destruct (canonical_char a Ha) as (_ & -> & _).
  unfold mac_pattern.
  rewrite (re_octet_groups_mono _ is_hex_char _ _ _ _ is_upper_hex_is_hex Hrun).
  rewrite (is_upper_hex_is_hex x Hx), (is_upper_hex_is_hex y Hy).
  cbn [andb re_dollar]. f_equal. unfold upper. revert Hall. apply map_str_id.
  intros a Ha. by destruct (canonical_char a Ha) as (-> & _).
Qed.


Lemma strip_nonblank s : count_char ":" s ≠ 0%nat → is_empty (strip s) = false.
Proof.
  intros Hs. destruct (strip s) eqn:Hstrip; [|done]. destruct Hs.
  rewrite <- count_char_lstrip, <- count_char_rstrip.
  fold (strip s). by rewrite Hstrip.
Qed.

Lemma _parse_channel_decimal d f :
  d ≠ "" → forallb_str isdecimal_char d = true →
  (String.length d ≤ 4300)%nat →
  _parse_channel d f = Ok (Some (decimal_value d)).
Proof.
  intros Hne Hd Hlen. unfold _parse_channel.
  rewrite (isdigit_decimal d Hne Hd).
  replace (is_empty d) with false by by destruct d.
  cbn [negb andb]. by rewrite (proj1 (py_int_decimal d Hne Hd Hlen)).
Qed.

Lemma is_hex_char_plain c :
  is_hex_char c = true →
  Ascii.eqb c ":" = false ∧ Ascii.eqb c "\" = false ∧ isspace_char c = false.
Proof. by destruct c as [[] [] [] [] [] [] [] []]. Qed.

Lemma replace_backslash_cons c r :
  Ascii.eqb c "\" = false →
  replace_with_empty "\" (String c r) = String c (replace_with_empty "\" r).
Proof.
  intros Hc. unfold replace_with_empty. cbn [remove_occurrences String.prefix].
  destruct (ascii_dec "\" c) as [<-|_]; [done|done].
Qed.

Lemma replace_backslash_skip r :
  replace_with_empty "\" (String "\" r) = replace_with_empty "\" r.
Proof.
  unfold replace_with_empty. cbn [remove_occurrences String.prefix].
  destruct (ascii_dec "\" "\"); [|done]. by destruct r.
Qed.

(** The six BSSID fields of a line, escaped or not, are validated to the
    upper-cased colon-separated address. *)
Lemma _validate_bssid_octets (escaped : bool) octets :
  length octets = 6%nat →
  Forall (λ o : ascii * ascii, is_hex_char o.1 && is_hex_char o.2 = true) octets →
  _validate_bssid
    (join ":" match reverse octets with
              | [] => []
              | o :: front =>
                  ((λ o, octet_text o +:+ (if escaped then "\" else ""))
                     <$> reverse front) ++ [octet_text o]
              end)
  = Some (upper (join ":" (octet_text <$> octets))).
Proof.
  intros Hlen Hoct.
  destruct octets as [|[a1 b1] [|[a2 b2] [|[a3 b3] [|[a4 b4] [|[a5 b5]
    [|[a6 b6] [|]]]]]]]; try done. clear Hlen.
  repeat match goal with
  | H : Forall _ (_ :: _) |- _ =>
      apply Forall_cons in H as [[? ?]%andb_prop H]
  end.
  cbn [fst snd] in *. clear Hoct.
  unfold _validate_bssid.
  set (raw := join ":" _).
  set (address := join ":" (octet_text <$> _)).
  assert (Hne : is_empty raw = false) by by destruct escaped.
  assert (Hraw : strip (replace_with_empty "\" raw) = address).
  { subst raw address. destruct escaped; vm_compute join;
      repeat first
        [ rewrite replace_backslash_skip
        | rewrite replace_backslash_cons
            by (done || by apply is_hex_char_plain) ];
      change (replace_with_empty "\" "") with "";
      unfold strip; rewrite lstrip_by_id, rstrip_by_id; try done;
      cbn [forallb_str];
      repeat match goal with
      | Hc : is_hex_char ?c = true |- context [isspace_char ?c] =>
          rewrite (proj2 (proj2 (is_hex_char_plain c Hc)))
      end; done. }
  rewrite Hne. cbn zeta. rewrite Hraw.
  replace (mac_pattern address) with true; [done|].
  subst address. vm_compute join. unfold mac_pattern.
  cbn [re_octet_groups].
  repeat match goal with
  | Hc : is_hex_char ?c = true |- context [is_hex_char ?c] => rewrite Hc
  end.
  change (is_colon_or_hyphen ":") with true. cbn [andb].
  match goal with
  | Ha : is_hex_char a6 = true, Hb : is_hex_char b6 = true |- _ =>
      by rewrite Ha, Hb
  end.
Qed.

(** A line as the listing command writes it, with or without escaped
    colons in the address, is parsed back to its fields. *)
Lemma parse_written_line escaped ssid security sig freq unit octets chan :
  count_char ":" ssid = 0%nat → count_char ":" security = 0%nat →
  Forall (λ d, d ≠ "" ∧ forallb_str isdecimal_char d = true
               ∧ (String.length d ≤ 4300)%nat) [sig; freq; chan] →
  unit = "" ∨ unit = " MHz" →
  length octets = 6%nat →
  Forall (λ o : ascii * ascii, is_hex_char o.1 && is_hex_char o.2 = true) octets →
  _parse_nmcli_line_robust
    (nmcli_line escaped ssid security sig (freq +:+ unit) octets chan)
  = Ok (Some {| Parsed.ssid := strip ssid;
                Parsed.security := strip security;
                Parsed.signal := decimal_value sig;
                Parsed.frequency := decimal_value freq;
                Parsed.bssid := Some (upper (join ":" (octet_text <$> octets)));
                Parsed.channel := Some (decimal_value chan) |}).
Proof.
  intros Hssid Hsec Hnum Hunit Hlen Hoct.
  apply Forall_cons in Hnum as [(Hs1 & Hs2 & Hs3) Hnum].
  apply Forall_cons in Hnum as [(Hf1 & Hf2 & Hf3) Hnum].
  apply Forall_cons in Hnum as [(Hc1 & Hc2 & Hc3) _].
  pose proof (_validate_bssid_octets escaped octets Hlen Hoct) as Hbssid.
  unfold nmcli_line.
  set (fields := match reverse octets with [] => [] | o :: front => _ end) in *.
  assert (Hfields : length fields = 6%nat ∧
            Forall (λ p, count_char ":" p = 0%nat) fields).
  { subst fields. clear Hbssid.
    destruct octets as [|[a1 b1] [|[a2 b2] [|[a3 b3] [|[a4 b4] [|[a5 b5]
      [|[a6 b6] [|]]]]]]]; try done. clear Hlen.
    repeat match goal with
    | H : Forall _ (_ :: _) |- _ =>
        apply Forall_cons in H as [[[? _]%is_hex_char_plain
                                    [? _]%is_hex_char_plain]%andb_prop H]
    end.
    cbn [fst snd] in *. split; [done|].
    destruct escaped; cbn [reverse rev_append fmap list_fmap app];
      repeat apply Forall_cons_2; try apply Forall_nil_2;
      vm_compute String.append; cbn [count_char octet_text fst snd];
      repeat match goal with
      | Hc : Ascii.eqb ?c ":" = false |- context [Ascii.eqb ?c ":"] => rewrite Hc
      end; done. }
  destruct Hfields as [Hlenf Hcolon]. clearbody fields. clear Hlen Hoct.
  destruct fields as [|f1 [|f2 [|f3 [|f4 [|f5 [|f6 [|]]]]]]]; try done.
  clear Hlenf. cbn [app].
  set (parts := [ssid; security; sig; freq +:+ unit; f1; f2; f3; f4; f5; f6; chan]).
  assert (Hdec : ∀ d, forallb_str isdecimal_char d = true →
                      count_char ":" d = 0%nat).
  { intros d. induction d as [|c r IH]; [done|]. cbn.
    intros [Hc Hr]%andb_prop. rewrite (IH Hr).
    by destruct (isdecimal_char_plain c Hc) as (_&_&_&_&_&_&_&_&_&_&_& ->). }
  assert (Hparts : Forall (λ p, count_char ":" p = 0%nat) parts).
  { subst parts.
    repeat match goal with
    | H : Forall _ (_ :: _) |- _ => apply Forall_cons in H as [? H]
    end.
    repeat apply Forall_cons_2; auto.
    rewrite count_char_app, (Hdec freq Hf2). by destruct Hunit as [-> | ->]. }
  assert (Hsplit : split ":" (join ":" parts) = parts)
    by by apply split_join.
  rewrite parse_unfold; rewrite ?Hsplit.
  - cbn zeta. subst parts.
    cbn [lookup list_lookup default from_option id].
    change (slice _ 4 10) with [f1; f2; f3; f4; f5; f6].
    rewrite Hbssid, (strip_decimal sig Hs2), (isdigit_decimal sig Hs1 Hs2).
    rewrite (proj1 (py_int_decimal sig Hs1 Hs2 Hs3)).
    cbn [mbind result_bind].
    replace (_parse_frequency (strip (freq +:+ unit)))
      with (Ok (decimal_value freq)).
    2:{ symmetry. destruct Hunit as [-> | ->].
        - rewrite append_nil_r, (strip_decimal freq Hf2).
          rewrite <- (append_nil_r freq) at 1.
          apply _parse_frequency_with_unit; auto.
        - rewrite (strip_decimal_unit freq Hf1 Hf2).
          apply _parse_frequency_with_unit; auto. }
    cbn [mbind result_bind].
    by rewrite (_parse_channel_decimal chan _ Hc1 Hc2 Hc3).
  - apply strip_nonblank. rewrite (count_char_join parts Hparts). done.
  - subst parts. cbn [length]. lia.
Qed.
End lines.

(** X19: a line as the listing command writes it (SSID and security
    without a colon; signal, frequency and channel as digit strings, the
    frequency with or without its MHz unit; six octets of two hex digits,
    their colons escaped or not) is parsed back to its fields: the texts
    stripped, the numbers read, the address upper-cased; and the scan loop
    records it with its band and the time, or skips it when the SSID is
    blank. *)
Theorem written_line_round_trip escaped ssid security sig freq unit octets chan
    rssi_data now :
  count_char ":" ssid = 0%nat → count_char ":" security = 0%nat →
  Forall (λ d, d ≠ "" ∧ forallb_str isdecimal_char d = true
               ∧ (String.length d ≤ 4300)%nat) [sig; freq; chan] →
  unit = "" ∨ unit = " MHz" →
  length octets = 6%nat →
  Forall (λ o : ascii * ascii,
            Wss.is_hex_char o.1 && Wss.is_hex_char o.2 = true) octets →
  let line :=
    Wss.nmcli_line escaped ssid security sig (freq +:+ unit) octets chan in
  let address := upper (join ":" (Wss.octet_text <$> octets)) in
  Wss._parse_nmcli_line_robust line
  = Ok (Some {| Wss.Parsed.ssid := strip ssid;
                Wss.Parsed.security := strip security;
                Wss.Parsed.signal := decimal_value sig;
                Wss.Parsed.frequency := decimal_value freq;
                Wss.Parsed.bssid := Some address;
                Wss.Parsed.channel := Some (decimal_value chan) |})
  ∧ Wss.scan_line rssi_data now line
    = Ok (if is_empty (strip ssid) then None
          else Some {| Wss.ssid := strip ssid;
                       Wss.security := strip security;
                       Wss.signal := decimal_value sig;
                       Wss.frequency := decimal_value freq;
                       Wss.band := Wss.band_of_frequency (decimal_value freq);
                       Wss.channel := Some (decimal_value chan);
                       Wss.bssid := Some address;
                       Wss.rssi := rssi_data !! strip ssid;
                       Wss.timestamp := Some now |}).
Proof.
  intros Hssid Hsec Hnum Hunit Hlen Hoct. cbn zeta.
  pose proof (parse_written_line escaped ssid security sig freq unit octets
                chan Hssid Hsec Hnum Hunit Hlen Hoct) as Hparse.
  split; [exact Hparse|]. unfold Wss.scan_line. rewrite Hparse.
  cbn [mbind result_bind Wss.Parsed.ssid]. by destruct (is_empty (strip ssid)).
Qed.

Lemma written_line_round_trip_witness :
  Wss._parse_nmcli_line_robust
    (Wss.nmcli_line true "MyNet" "WPA2" "75" ("2437" +:+ " MHz")
       [("a", "a"); ("B", "B"); ("0", "c"); ("D", "1"); ("E", "E"); ("F", "F")]%char
       "6")
  = Ok (Some {| Wss.Parsed.ssid := strip "MyNet";
                Wss.Parsed.security := strip "WPA2";
                Wss.Parsed.signal := decimal_value "75";
                Wss.Parsed.frequency := decimal_value "2437";
                Wss.Parsed.bssid :=
                  Some (upper (join ":" (Wss.octet_text <$>
                    [("a", "a"); ("B", "B"); ("0", "c"); ("D", "1");
                     ("E", "E"); ("F", "F")]%char)));
                Wss.Parsed.channel := Some (decimal_value "6") |}).
Proof.
  refine (proj1 (written_line_round_trip true "MyNet" "WPA2" "75" "2437" " MHz"
                   _ "6" ∅ "" _ _ _ _ _ _)).
  - reflexivity.
  - reflexivity.
  - repeat constructor; (discriminate || cbn; lia).
  - by right.
  - reflexivity.
  - repeat constructor.
Defined.

(** X20: an address that the validation accepts is in canonical form:
    seventeen characters, six pairs of upper-case hex digits with a colon
    or a hyphen between them, and validating it again returns it
    unchanged. *)
Theorem validate_bssid_canonical (s b : string) :
  Wss._validate_bssid s = Some b →
  Wss._validate_bssid b = Some b
  ∧ String.length b = 17%nat
  ∧ Wss.six_octets Wss.is_upper_hex_char Wss.is_colon_or_hyphen b = true.
Proof.
  intros Hb. pose proof (_validate_bssid_six_octets s b Hb) as Hsix.
  destruct (six_octets_canonical b Hsix) as [Hagain Hlen]. done.
Qed.

Lemma validate_bssid_canonical_witness :
  Wss._validate_bssid "AA:BB:CC:DD:EE:FF" = Some "AA:BB:CC:DD:EE:FF".
Proof.
  apply (proj1 (validate_bssid_canonical " aa\:bb\:cc\:dd\:ee\:ff "
                  "AA:BB:CC:DD:EE:FF" eq_refl)).
Defined.
